(** * random_c_program_finder: a shallow embedding and its properties

    The program draws random strings over a character set, wraps each one in
    a fixed C skeleton, runs a compiler on it and counts how many compile.
    This file embeds [src/random_c_program_finder.py] function by function
    and proves the properties of its specification against that embedding.

    Conventions of the embedding:
    - a Python [int] is a [Z]; a Python [str] is a [string];
    - the working directory is a finite map from file names to contents;
    - code with effects lives in a state-and-exception monad [M] over a
      [world] record (files, standard output, shared counters, per-process
      random state, and a log of launched subprocesses);
    - what the Python runtime and the operating system decide (floating
      point, the Mersenne twister, uuid4, the compiler, the clock, the
      process pool's scheduling, and when a [KeyboardInterrupt] arrives
      and where it finds each worker) is taken through the interfaces
      [FloatOps], [RandomSource] and [Env]. *)

From Stdlib Require Import ZArith String Ascii List DecimalString Lia Permutation QArith Qround.
From stdpp Require Import gmap strings list.

Open Scope string_scope.
Open Scope Z_scope.

(** ** Python strings *)

Module PyStr.

Definition chr (n : nat) : string := String (ascii_of_nat n) EmptyString.

Definition dquote : string := chr 34.
Definition backslash : string := chr 92.
Definition squote : string := chr 39.
Definition tab : string := chr 9.
Definition nl : string := chr 10.

(** [str(z)] and [f"{z}"] for an int. *)
Definition of_Z (z : Z) : string := NilZero.string_of_int (Z.to_int z).

(** [len(s)] *)
Definition len (s : string) : Z := Z.of_nat (String.length s).

(** [s[:n]] for a literal [n >= 0]. *)
Definition prefix (n : nat) (s : string) : string := substring 0 n s.

(** [''.join(l)] for a list of one-character pieces. *)
Definition join (l : list ascii) : string := string_of_list_ascii l.

(** The characters of a string, in order. *)
Definition chars (s : string) : list ascii := list_ascii_of_string s.

(** Concatenation of lines, each followed by a newline. *)
Fixpoint unlines (l : list string) : string :=
  match l with
  | [] => ""
  | x :: r => x +:+ nl +:+ unlines r
  end.

(** [string.ascii_lowercase], [string.ascii_uppercase], [string.digits] *)
Definition ascii_lowercase : string := "abcdefghijklmnopqrstuvwxyz".
Definition ascii_uppercase : string := "ABCDEFGHIJKLMNOPQRSTUVWXYZ".
Definition digits : string := "0123456789".

End PyStr.

(** ** Exceptions and numbers *)

(** The subclasses of [Exception] that the modelled code can meet; each
    carries the text that [str(e)] gives. *)
Inductive exn : Type :=
| IndexError (msg : string)
| FileNotFoundError (msg : string)
| ZeroDivisionError (msg : string)
| OverflowError (msg : string)
| ValueError (msg : string)
| TimeoutExpired (msg : string)
| OSError (msg : string).

Definition str_exn (e : exn) : string :=
  match e with
  | IndexError m | FileNotFoundError m | ZeroDivisionError m
  | OverflowError m | ValueError m | TimeoutExpired m | OSError m => m
  end.

(** Floating point is the platform's: the operations the program applies to
    floats are an interface, with the domain on which Python does not raise
    written next to each. *)
Class FloatOps : Type := {
  float : Type;
  (** a float literal with an integral value, such as [1e6] or [100] *)
  float_lit : Z -> float;
  (** conversion of an int operand in mixed arithmetic: raises
      [OverflowError] beyond the range of a double *)
  float_of_int : Z -> exn + float;
  (** [a / b] on two ints, [b] non-zero, quotient within double range *)
  int_truediv : Z -> Z -> float;
  (** [a ** b] on two ints with [b < 0] and [a] non-zero *)
  int_pow_neg : Z -> Z -> float;
  fsub : float -> float -> float;
  fmul : float -> float -> float;
  (** [x / y] for [y] non-zero *)
  fdiv : float -> float -> float;
  flt : float -> float -> bool;
  fis_zero : float -> bool;
  (** [math.log10] of a positive int and of a float *)
  math_log10_int : Z -> float;
  math_log10 : float -> exn + float;
  (** [math.floor]: raises on an infinity or a nan *)
  math_floor : float -> exn + Z;
  (** [f"{x:.2f}"] and [f"{x:,}"] *)
  format_2f : float -> string;
  format_comma_float : float -> string;
  (** the logarithm of a positive int is a finite float, so its floor is
      an int *)
  math_floor_log10_int :
    forall z, 0 < z -> exists k, math_floor (math_log10_int z) = inr k;
  (** and it is not negative, as the int is at least [1] *)
  math_floor_log10_int_nonneg :
    forall z k, 0 < z -> math_floor (math_log10_int z) = inr k -> 0 <= k
}.

Section Pure.

Context {F : FloatOps}.

Inductive pynum : Type :=
| PyInt (z : Z)
| PyFloat (x : float).

(** *** Arithmetic on Python numbers *)

(** [a ** b] on two ints: exact for a non-negative exponent, a float for
    a negative one, and an error for [0] to a negative power. *)
Definition int_pow (a b : Z) : exn + pynum :=
  if 0 <=? b then inr (PyInt (a ^ b))
  else if a =? 0
       then inl (ZeroDivisionError "0.0 cannot be raised to a negative power")
       else inr (PyFloat (int_pow_neg a b)).

Definition float_truediv (x y : float) : exn + float :=
  if fis_zero y then inl (ZeroDivisionError "float division by zero")
  else inr (fdiv x y).

(** [a / b]: the quotient of two ints is rounded once; an int next to a
    float is converted first. *)
Definition py_truediv (a b : pynum) : exn + float :=
  match a, b with
  | PyInt x, PyInt y =>
      if y =? 0 then inl (ZeroDivisionError "division by zero")
      else inr (int_truediv x y)
  | PyInt x, PyFloat y =>
      match float_of_int x with
      | inl e => inl e
      | inr x' => float_truediv x' y
      end
  | PyFloat x, PyInt y =>
      match float_of_int y with
      | inl e => inl e
      | inr y' => float_truediv x y'
      end
  | PyFloat x, PyFloat y => float_truediv x y
  end.

(** [x > 0] *)
Definition py_gt0 (x : pynum) : bool :=
  match x with
  | PyInt z => 0 <? z
  | PyFloat x => flt (float_lit 0) x
  end.

(** *** calculate_combinations *)

Definition calculate_combinations (charset_size length : Z) : exn + pynum :=
  int_pow charset_size length.

(** *** format_large_number *)

(** Digits of a natural number grouped in threes from the right:
    the [','] option of Python's format mini-language. *)
Fixpoint group3 (l : list ascii) (k : nat) : list ascii :=
  match l with
  | [] => []
  | c :: r =>
      match k with
      | O => c :: match r with [] => [] | _ => ","%char :: group3 r 2 end
      | S k' => c :: group3 r k'
      end
  end.

Definition comma_digits (s : string) : string :=
  let l := PyStr.chars s in
  PyStr.join (group3 l ((List.length l + 2) mod 3)%nat).

(** [f"{z:,}"] for an int. *)
Definition format_comma_int (z : Z) : string :=
  if z <? 0 then "-" +:+ comma_digits (PyStr.of_Z (- z))
  else comma_digits (PyStr.of_Z z).

(** [f"{x:,}"] *)
Definition format_comma (x : pynum) : string :=
  match x with
  | PyInt z => format_comma_int z
  | PyFloat x => format_comma_float x
  end.

(** [x < 1e6]; an int is compared with a float by value. *)
Definition lt_1e6 (x : pynum) : bool :=
  match x with
  | PyInt z => z <? 1000000
  | PyFloat x => flt x (float_lit 1000000)
  end.

(** [math.log10(x)] *)
Definition py_log10 (x : pynum) : exn + float :=
  match x with
  | PyInt z =>
      if 0 <? z then inr (math_log10_int z)
      else inl (ValueError "math domain error")
  | PyFloat x => math_log10 x
  end.

Definition times_ten_to : string := " × 10^".

Definition format_large_number (number : pynum) : exn + string :=
  if lt_1e6 number then inr (format_comma number)
  else
    match py_log10 number with
    | inl e => inl e
    | inr lg =>
        match math_floor lg with
        | inl e => inl e
        | inr exponent =>
            match int_pow 10 exponent with
            | inl e => inl e
            | inr d =>
                match py_truediv number d with
                | inl e => inl e
                | inr mantissa =>
                    inr (format_2f mantissa +:+ times_ten_to +:+ PyStr.of_Z exponent)
                end
            end
        end
    end.

(** *** get_charset *)

Definition symbols : string :=
  "+-*/=<>!&|^%~?:;,.(){}[]" +:+ PyStr.squote +:+ PyStr.dquote +:+ PyStr.backslash.

Definition whitespace_chars : string := " " +:+ PyStr.tab +:+ PyStr.nl.

(** Truth value of an optional string: [None] and [""] are false. *)
Definition truthy (s : option string) : bool :=
  match s with
  | None => false
  | Some "" => false
  | Some _ => true
  end.

Definition get_charset (include_lowercase include_uppercase include_digits
                        include_symbols include_whitespace : bool)
                       (custom_charset : option string) : string :=
  if truthy custom_charset then default "" custom_charset
  else
    let charset := "" in
    let charset := if include_lowercase then charset +:+ PyStr.ascii_lowercase else charset in
    let charset := if include_uppercase then charset +:+ PyStr.ascii_uppercase else charset in
    let charset := if include_digits then charset +:+ PyStr.digits else charset in
    let charset := if include_symbols then charset +:+ symbols else charset in
    let charset := if include_whitespace then charset +:+ whitespace_chars else charset in
    charset.

End Pure.

(** ** The environment *)

(** The [random] module as the program uses it: seeding with an int, and
    the index draw behind [random.choice], which is below its bound. *)
Class RandomSource : Type := {
  rng_state : Type;
  seed : Z -> rng_state;
  randbelow : nat -> rng_state -> nat * rng_state;
  randbelow_lt : forall n s, (0 < n)%nat -> (fst (randbelow n s) < n)%nat
}.

(** One call of [subprocess.run]. *)
Record spawn_req : Type := {
  argv : list string;
  run_timeout : Z
}.

(** What [subprocess.run] comes back with: a [CompletedProcess], or an
    exception ([TimeoutExpired] once the child was killed at the timeout,
    an [OSError] such as [FileNotFoundError] when it could not start). *)
Inductive run_outcome : Type :=
| Completed (returncode : Z) (stderr : string)
| RunRaised (e : exn).

(** A task as [main] builds it. The lock and the two counters of the tuple
    are handles on shared state, which is part of [world]. *)
Record task : Type := {
  task_id : Z;
  t_byte_size : Z;
  t_charset : string;
  t_compiler : string;
  t_show_errors : bool
}.

#[global] Instance task_eq_dec : EqDecision task.
Proof. solve_decision. Defined.

(** Leaving [with Pool] on a [KeyboardInterrupt] terminates the pool
    processes wherever they are. A worker that is terminated has completed
    the statements of [worker] and [test_compilation] up to some line, and
    nothing after it. Inside [test_compilation] (lines 82 to 113): *)
Inductive probe_cut : Type :=
| Named      (* line 82: the uuid is drawn *)
| Opened     (* line 87: the source file is created, nothing is written yet *)
| Written    (* line 88: the source file holds its text *)
| Launched   (* line 92: the compiler was launched *)
| Removed.   (* line 102 or 109: the source file of a failed compilation is removed *)

(** Inside the block under the lock (lines 128 to 135): *)
Inductive lock_cut : Type :=
| Waiting    (* line 115: [test_compilation] returned *)
| Counted    (* line 129: the attempt is counted *)
| Credited   (* line 131: and the success, if it is one *)
| Reported.  (* line 132 or 135: and the line of the probe is printed *)

Inductive cut : Type :=
| Drawing (n : nat)       (* lines 123 and 125: the seed is set and [n] characters are drawn *)
| Probing (p : probe_cut)
| Locking (l : lock_cut).

Class Env {F : FloatOps} : Type := {
  (** the value of [uuid.uuid4().hex] at its k-th call *)
  uuid4_hex : nat -> string;
  (** the k-th subprocess: its outcome and what it leaves in the working
      directory *)
  run_subprocess : nat -> spawn_req -> gmap string string
                   -> run_outcome * gmap string string;
  (** [multiprocessing.cpu_count()] *)
  cpu_count : Z;
  (** the value of [time.time()] at its k-th call *)
  time_time : nat -> float;
  (** the worker executions of the k-th pool call that run to their end,
      in the order in which they take the counter lock, each with the pid
      of its pool process *)
  pool_run : nat -> list task -> list (Z * task);
  (** whether a [KeyboardInterrupt] ends the k-th pool call *)
  pool_interrupted : nat -> bool;
  (** for a task of the k-th pool call that is being executed when the
      interrupt arrives: the pid of its pool process and the point at
      which the process is terminated; [None] for a task that no process
      has taken up *)
  pool_stopped : nat -> task -> option (Z * cut);
  (** in unlimited mode, whether the [KeyboardInterrupt] arrives in the
      k-th round of the loop before [pool.map] is called: while the pool
      starts, while the batch is built, or after the progress line of the
      round before *)
  interrupted_early : nat -> bool;
  (** in unlimited mode, the round in which the interrupt arrives at the
      latest *)
  last_round : nat
}.

(** ** The world and the monad *)

Section World.

Context {F : FloatOps} {R : RandomSource} {E : Env}.

Record world : Type := {
  files : gmap string string;      (* regular files of the working directory *)
  dirs : gset string;              (* directories made by os.makedirs *)
  stdout : list string;            (* printed lines, oldest first *)
  successful_count : Z;            (* manager.Value('i', 0) *)
  total_count : Z;                 (* manager.Value('i', 0) *)
  counter_log : list (Z * Z);      (* ghost: (successes, attempts) after each write, oldest first *)
  rng : Z -> rng_state;            (* state of the random module, per process id *)
  cur_pid : Z;                     (* the process that is executing *)
  uuid_calls : nat;
  spawn_log : list spawn_req;      (* ghost: the subprocess.run calls, oldest first *)
  dispatched : list task;          (* ghost: the tasks handed to the pool *)
  clock : nat                      (* number of time.time() calls so far *)
}.

Definition with_files (v : gmap string string) (w : world) : world :=
  {| files := v; dirs := dirs w; stdout := stdout w;
     successful_count := successful_count w; total_count := total_count w;
     counter_log := counter_log w; rng := rng w; cur_pid := cur_pid w;
     uuid_calls := uuid_calls w; spawn_log := spawn_log w;
     dispatched := dispatched w; clock := clock w |}.

Definition with_dirs (v : gset string) (w : world) : world :=
  {| files := files w; dirs := v; stdout := stdout w;
     successful_count := successful_count w; total_count := total_count w;
     counter_log := counter_log w; rng := rng w; cur_pid := cur_pid w;
     uuid_calls := uuid_calls w; spawn_log := spawn_log w;
     dispatched := dispatched w; clock := clock w |}.

Definition with_stdout (v : list string) (w : world) : world :=
  {| files := files w; dirs := dirs w; stdout := v;
     successful_count := successful_count w; total_count := total_count w;
     counter_log := counter_log w; rng := rng w; cur_pid := cur_pid w;
     uuid_calls := uuid_calls w; spawn_log := spawn_log w;
     dispatched := dispatched w; clock := clock w |}.

(** A write to a counter cell; the ghost log takes a snapshot of both. *)
Definition with_counters (s t : Z) (w : world) : world :=
  {| files := files w; dirs := dirs w; stdout := stdout w;
     successful_count := s; total_count := t;
     counter_log := counter_log w ++ [(s, t)]; rng := rng w; cur_pid := cur_pid w;
     uuid_calls := uuid_calls w; spawn_log := spawn_log w;
     dispatched := dispatched w; clock := clock w |}.

Definition with_rng (v : Z -> rng_state) (w : world) : world :=
  {| files := files w; dirs := dirs w; stdout := stdout w;
     successful_count := successful_count w; total_count := total_count w;
     counter_log := counter_log w; rng := v; cur_pid := cur_pid w;
     uuid_calls := uuid_calls w; spawn_log := spawn_log w;
     dispatched := dispatched w; clock := clock w |}.

Definition with_cur_pid (v : Z) (w : world) : world :=
  {| files := files w; dirs := dirs w; stdout := stdout w;
     successful_count := successful_count w; total_count := total_count w;
     counter_log := counter_log w; rng := rng w; cur_pid := v;
     uuid_calls := uuid_calls w; spawn_log := spawn_log w;
     dispatched := dispatched w; clock := clock w |}.

Definition with_uuid_calls (v : nat) (w : world) : world :=
  {| files := files w; dirs := dirs w; stdout := stdout w;
     successful_count := successful_count w; total_count := total_count w;
     counter_log := counter_log w; rng := rng w; cur_pid := cur_pid w;
     uuid_calls := v; spawn_log := spawn_log w;
     dispatched := dispatched w; clock := clock w |}.

Definition with_spawn (req : spawn_req) (v : gmap string string) (w : world) : world :=
  {| files := v; dirs := dirs w; stdout := stdout w;
     successful_count := successful_count w; total_count := total_count w;
     counter_log := counter_log w; rng := rng w; cur_pid := cur_pid w;
     uuid_calls := uuid_calls w; spawn_log := spawn_log w ++ [req];
     dispatched := dispatched w; clock := clock w |}.

Definition with_dispatched (v : list task) (w : world) : world :=
  {| files := files w; dirs := dirs w; stdout := stdout w;
     successful_count := successful_count w; total_count := total_count w;
     counter_log := counter_log w; rng := rng w; cur_pid := cur_pid w;
     uuid_calls := uuid_calls w; spawn_log := spawn_log w;
     dispatched := v; clock := clock w |}.

Definition with_clock (v : nat) (w : world) : world :=
  {| files := files w; dirs := dirs w; stdout := stdout w;
     successful_count := successful_count w; total_count := total_count w;
     counter_log := counter_log w; rng := rng w; cur_pid := cur_pid w;
     uuid_calls := uuid_calls w; spawn_log := spawn_log w;
     dispatched := dispatched w; clock := v |}.

(** A computation ends with a value or with a raised exception; the
    world it leaves is kept in both cases. *)
Definition M (A : Type) : Type := world -> (exn + A) * world.

Definition ret {A} (a : A) : M A := fun w => (inr a, w).

Definition raise {A} (e : exn) : M A := fun w => (inl e, w).

Definition bind {A B} (m : M A) (k : A -> M B) : M B :=
  fun w =>
    match m w with
    | (inr a, w') => k a w'
    | (inl e, w') => (inl e, w')
    end.

(** [try: body except Exception as e: handler(e)] *)
Definition try_except {A} (body : M A) (handler : exn -> M A) : M A :=
  fun w =>
    match body w with
    | (inr a, w') => (inr a, w')
    | (inl e, w') => handler e w'
    end.

Definition gets {A} (f : world -> A) : M A := fun w => (inr (f w), w).

Definition modify (f : world -> world) : M unit := fun w => (inr tt, f w).

(** A value or exception computed without effects. *)
Definition lift {A} (r : exn + A) : M A := fun w => (r, w).

#[global] Instance M_ret : MRet M := @ret.
#[global] Instance M_bind : MBind M := fun A B k m => bind m k.

Definition when (b : bool) (m : M unit) : M unit := if b then m else ret tt.

(** *** Primitives of the runtime *)

Definition print (line : string) : M unit :=
  modify (fun w => with_stdout (stdout w ++ [line]) w).

Definition os_getpid : M Z := gets cur_pid.

(** [random.seed(a)] sets the state of the executing process. *)
Definition random_seed (a : Z) : M unit :=
  modify (fun w =>
    with_rng (fun p => if p =? cur_pid w then seed a else rng w p) w).

(** [random.choice(seq)]: an index below [len(seq)] is drawn and the
    character at it returned; an empty sequence raises. *)
Definition random_choice (seq : string) : M ascii :=
  fun w =>
    match String.length seq with
    | O => (inl (IndexError "Cannot choose from an empty sequence"), w)
    | n =>
        let '(i, st) := randbelow n (rng w (cur_pid w)) in
        let w' := with_rng (fun p => if p =? cur_pid w then st else rng w p) w in
        match String.get i seq with
        | Some c => (inr c, w')
        | None => (inl (IndexError "string index out of range"), w')
        end
    end.

(** [uuid.uuid4().hex] *)
Definition uuid4_hex_next : M string :=
  fun w => (inr (uuid4_hex (uuid_calls w)), with_uuid_calls (S (uuid_calls w)) w).

(** [with open(path, "w") as f: f.write(text)] *)
Definition write_file (path text : string) : M unit :=
  modify (fun w => with_files (<[path := text]> (files w)) w).

Definition os_path_exists (path : string) : M bool :=
  gets (fun w => bool_decide (is_Some (files w !! path))).

Definition os_remove (path : string) : M unit :=
  fun w =>
    match files w !! path with
    | Some _ => (inr tt, with_files (delete path (files w)) w)
    | None =>
        (inl (FileNotFoundError
                ("[Errno 2] No such file or directory: '" +:+ path +:+ "'")), w)
    end.

(** [os.makedirs(path, exist_ok=True)] *)
Definition os_makedirs (path : string) : M unit :=
  modify (fun w => with_dirs ({[path]} ∪ dirs w) w).

(** [subprocess.run(argv, stdout=PIPE, stderr=PIPE, timeout=t, text=True)]:
    the call is logged, the child acts on the files, and the result is
    the return code with the captured error text, or an exception. *)
Definition subprocess_run (req : spawn_req) : M (Z * string) :=
  fun w =>
    let '(o, fs) := run_subprocess (List.length (spawn_log w)) req (files w) in
    let w' := with_spawn req fs w in
    match o with
    | Completed rc err => (inr (rc, err), w')
    | RunRaised e => (inl e, w')
    end.

Definition time_now : M float :=
  fun w => (inr (time_time (clock w)), with_clock (S (clock w)) w).

(** A write to one of the two [manager.Value] cells. *)
Definition set_total_count (v : Z) : M unit :=
  modify (fun w => with_counters (successful_count w) v w).

Definition set_successful_count (v : Z) : M unit :=
  modify (fun w => with_counters v (total_count w) w).

(** *** generate_random_c_content *)

(** The generator expression of the source, one [random.choice] per
    iteration of [range(size)]. *)
Fixpoint choices (n : nat) (charset : string) : M (list ascii) :=
  match n with
  | O => mret []
  | S n' =>
      c ← random_choice charset;
      r ← choices n' charset;
      mret (c :: r)
  end.

(** [range(size)] has [max(size, 0)] elements. *)
Definition generate_random_c_content (size : Z) (charset : string) : M string :=
  l ← choices (Z.to_nat size) charset;
  mret (PyStr.join l).

(** *** test_compilation *)

Definition C_TEMPLATE_head : string :=
  PyStr.unlines
    [ "";
      "#include <stdio.h>";
      "#include <stdlib.h>";
      "#include <string.h>";
      "#include <math.h>";
      "#include <ctype.h>";
      "#include <time.h>";
      "#include <assert.h>";
      "#include <errno.h>";
      "#include <float.h>";
      "#include <limits.h>";
      "#include <locale.h>";
      "#include <setjmp.h>";
      "#include <signal.h>";
      "#include <stdarg.h>";
      "#include <stddef.h>";
      "#include <unistd.h>";
      "#include <fcntl.h>";
      "#include <sys/types.h>";
      "#include <sys/stat.h>";
      "#include <pthread.h>";
      "#include <dirent.h>";
      "#include <termios.h>";
      "";
      "int main(int argc, char **argv) {" ].

Definition C_TEMPLATE_tail : string :=
  PyStr.unlines [ ""; "    return 0;"; "}" ].

(** [C_TEMPLATE % content]: the template has one [%s] and no other
    conversion. *)
Definition C_TEMPLATE_fmt (content : string) : string :=
  C_TEMPLATE_head +:+ content +:+ C_TEMPLATE_tail.

(** The default of the [timeout] parameter. *)
Definition default_timeout : Z := 2.

(** The result tuple [(success, content, c_file or None, error_message)]. *)
Definition probe_result : Type := bool * string * option string * string.

Definition remove_if_exists (path : string) : M unit :=
  b ← os_path_exists path;
  when b (os_remove path).

Definition test_compilation (content : string) (pid : Z) (compiler : string)
                            (timeout : Z) : M probe_result :=
  hex ← uuid4_hex_next;
  let unique_id := PyStr.prefix 8 hex in
  let filename := PyStr.of_Z pid +:+ "_" +:+ unique_id in
  let c_file := filename +:+ ".c" in
  write_file c_file (C_TEMPLATE_fmt content);;
  outcome ←
    try_except (A := bool * string)
      (result ← subprocess_run {| argv := [compiler; "-c"; c_file];
                                  run_timeout := timeout |};
       let success := result.1 =? 0 in
       let error_message := if negb success then result.2 else "" in
       when (negb success)
         (os_remove c_file;;
          remove_if_exists (filename +:+ ".o"));;
       mret (success, error_message))
      (fun e =>
         remove_if_exists c_file;;
         mret (false, str_exn e));
  let success : bool := outcome.1 in
  let error_message : string := outcome.2 in
  remove_if_exists (filename +:+ ".o");;
  mret (success, content, if success then Some c_file else None, error_message).

(** *** worker *)

(** [f"{x}"] for a value that is a string or [None]. *)
Definition str_opt (o : option string) : string := default "None" o.

(** [f"{x:.2f}"] for an int or a float. *)
Definition format_2f_num (x : pynum) : string :=
  match x with
  | PyInt z => format_2f (float_lit z)
  | PyFloat x => format_2f x
  end.

(** [a / b * 100] on two ints. *)
Definition percent (a b : Z) : M float :=
  q ← lift (py_truediv (PyInt a) (PyInt b));
  mret (fmul q (float_lit 100)).

(** The block under [with counter_lock:]. Workers exclude one another
    there, so it runs without interleaving. *)
Definition worker_locked (t : task) (success : bool) (filename : option string)
                         (error_message : string) : M unit :=
  tc ← gets total_count;
  set_total_count (tc + 1);;
  (if success then
     sc ← gets successful_count;
     set_successful_count (sc + 1);;
     sc ← gets successful_count;
     tc ← gets total_count;
     print ("Compilation successful! (" +:+ PyStr.of_Z sc +:+ "/" +:+ PyStr.of_Z tc
            +:+ ") - Saved as " +:+ str_opt filename)
   else if t_show_errors t then
     print (if 100 <? PyStr.len error_message
            then "Compilation failed: " +:+ PyStr.prefix 100 error_message +:+ "..."
            else "Compilation failed: " +:+ error_message)
   else mret tt);;
  tc ← gets total_count;
  when (tc `mod` 100 =? 0)
    (sc ← gets successful_count;
     tc ← gets total_count;
     success_rate ← percent sc tc;
     print ("Progress: " +:+ PyStr.of_Z tc +:+ " attempts, " +:+ PyStr.of_Z sc
            +:+ " successes (" +:+ format_2f success_rate +:+ "%)")).

Definition worker (t : task) : M bool :=
  pid ← os_getpid;
  random_seed (pid + task_id t);;
  content ← generate_random_c_content (t_byte_size t) (t_charset t);
  r ← test_compilation content pid (t_compiler t) default_timeout;
  let success : bool := r.1.1.1 in
  let filename : option string := r.1.2 in
  let error_message : string := r.2 in
  worker_locked t success filename error_message;;
  mret success.

(** *** A worker that is terminated in flight *)

(** [test_compilation] up to the cut [p]. *)
Definition test_compilation_until (p : probe_cut) (content : string) (pid : Z)
                                  (compiler : string) (timeout : Z) : M unit :=
  hex ← uuid4_hex_next;
  let unique_id := PyStr.prefix 8 hex in
  let filename := PyStr.of_Z pid +:+ "_" +:+ unique_id in
  let c_file := filename +:+ ".c" in
  match p with
  | Named => mret tt
  | Opened => write_file c_file ""
  | Written => write_file c_file (C_TEMPLATE_fmt content)
  | Launched =>
      write_file c_file (C_TEMPLATE_fmt content);;
      subprocess_run {| argv := [compiler; "-c"; c_file];
                        run_timeout := timeout |};;
      mret tt
  | Removed =>
      write_file c_file (C_TEMPLATE_fmt content);;
      try_except
        (result ← subprocess_run {| argv := [compiler; "-c"; c_file];
                                    run_timeout := timeout |};
         let success := result.1 =? 0 in
         when (negb success) (os_remove c_file))
        (fun e => remove_if_exists c_file)
  end.

(** The block under the lock up to the cut [l]. *)
Definition worker_locked_until (l : lock_cut) (t : task) (success : bool)
                               (filename : option string)
                               (error_message : string) : M unit :=
  match l with
  | Waiting => mret tt
  | Counted =>
      tc ← gets total_count;
      set_total_count (tc + 1)
  | Credited =>
      tc ← gets total_count;
      set_total_count (tc + 1);;
      when success
        (sc ← gets successful_count;
         set_successful_count (sc + 1))
  | Reported =>
      tc ← gets total_count;
      set_total_count (tc + 1);;
      if success then
        sc ← gets successful_count;
        set_successful_count (sc + 1);;
        sc ← gets successful_count;
        tc ← gets total_count;
        print ("Compilation successful! (" +:+ PyStr.of_Z sc +:+ "/" +:+ PyStr.of_Z tc
               +:+ ") - Saved as " +:+ str_opt filename)
      else if t_show_errors t then
        print (if 100 <? PyStr.len error_message
               then "Compilation failed: " +:+ PyStr.prefix 100 error_message +:+ "..."
               else "Compilation failed: " +:+ error_message)
      else mret tt
  end.

(** [worker] up to the cut [c]. A process that is terminated after the
    last statement of the locked block has executed [worker] to its end
    and counts among the executions of [pool_run]. *)
Definition worker_until (c : cut) (t : task) : M unit :=
  pid ← os_getpid;
  random_seed (pid + task_id t);;
  match c with
  | Drawing n =>
      choices (Nat.min n (Z.to_nat (t_byte_size t))) (t_charset t);;
      mret tt
  | Probing p =>
      content ← generate_random_c_content (t_byte_size t) (t_charset t);
      test_compilation_until p content pid (t_compiler t) default_timeout
  | Locking l =>
      content ← generate_random_c_content (t_byte_size t) (t_charset t);
      r ← test_compilation content pid (t_compiler t) default_timeout;
      let success : bool := r.1.1.1 in
      let filename : option string := r.1.2 in
      let error_message : string := r.2 in
      worker_locked_until l t success filename error_message
  end.

(** *** main *)

Record Args : Type := {
  byte_size : Z;
  tasks : Z;
  no_lowercase : bool;
  no_uppercase : bool;
  no_digits : bool;
  no_symbols : bool;
  whitespace : bool;
  charset : option string;
  compiler : string;
  show_errors : bool;
  timeout : Z
}.

(** The defaults of the argument parser. *)
Definition default_args : Args :=
  {| byte_size := 5; tasks := 10000;
     no_lowercase := false; no_uppercase := false; no_digits := false;
     no_symbols := false; whitespace := false; charset := None;
     compiler := "gcc"; show_errors := false; timeout := 2 |}.

(** [range(n)] *)
Definition range (n : Z) : list Z := Z.of_nat <$> seq 0 (Z.to_nat n).

(** The task tuple of both modes, for task id [i]. *)
Definition make_task (args : Args) (cs : string) (i : Z) : task :=
  {| task_id := i; t_byte_size := byte_size args; t_charset := cs;
     t_compiler := compiler args; t_show_errors := show_errors args |}.

(** [manager.Value('i', 0)], twice: fresh cells, and a fresh ghost log. *)
Definition new_counters : M unit :=
  modify (fun w =>
    {| files := files w; dirs := dirs w; stdout := stdout w;
       successful_count := 0; total_count := 0;
       counter_log := [(0, 0)]; rng := rng w; cur_pid := cur_pid w;
       uuid_calls := uuid_calls w; spawn_log := spawn_log w;
       dispatched := dispatched w; clock := clock w |}).

(** One worker execution inside the pool process [pid]. *)
Definition run_on (pid : Z) (m : M bool) : M bool :=
  fun w =>
    let '(r, w') := m (with_cur_pid pid w) in
    (r, with_cur_pid (cur_pid w) w').

(** The executions that run to their end, one after the other in the
    order in which they take the lock. *)
Fixpoint run_workers (sched : list (Z * task)) : M unit :=
  match sched with
  | [] => mret tt
  | (pid, t) :: rest => run_on pid (worker t);; run_workers rest
  end.

(** One worker execution inside the pool process [pid] that is terminated
    at the cut [c]. What it was about to return or to raise reaches
    nobody. *)
Definition stop_on (pid : Z) (c : cut) (t : task) : M unit :=
  fun w =>
    let '(_, w') := worker_until c t (with_cur_pid pid w) in
    (inr tt, with_cur_pid (cur_pid w) w').

Fixpoint run_stopped (sched : list (Z * cut * task)) : M unit :=
  match sched with
  | [] => mret tt
  | (pid, c, t) :: rest => stop_on pid c t;; run_stopped rest
  end.

(** The executions of the k-th pool call that are in flight when the
    interrupt arrives: of the tasks handed over that did not run to their
    end, those that a pool process has taken up. *)
Definition in_flight (k : nat) (ts : list task) : list (Z * cut * task) :=
  omap (fun t => (fun pc => (pc, t)) <$> pool_stopped k t)
       (list_difference ts (pool_run k ts).*2).

(** The k-th use of the pool ([imap_unordered] or [map]): the tasks are
    handed over and the executions that the environment schedules take
    place. An exception of a worker is raised again in the caller. When a
    [KeyboardInterrupt] ends the call, the pool is left and its processes
    are terminated, each execution in flight at its cut. *)
Definition pool_call (k : nat) (ts : list task) : M unit :=
  modify (fun w => with_dispatched (dispatched w ++ ts) w);;
  run_workers (pool_run k ts);;
  when (pool_interrupted k) (run_stopped (in_flight k ts)).

(** [total_count.value / elapsed if elapsed > 0 else 0] *)
Definition rate_of (elapsed : float) : M pynum :=
  if flt (float_lit 0) elapsed then
    tc ← gets total_count;
    x ← lift (py_truediv (PyInt tc) (PyFloat elapsed));
    mret (PyFloat x)
  else mret (PyInt 0).

(** The body of the [try] of unlimited mode (lines 208 to 223), from
    round [k] of the [while True] loop on; [fuel] is the number of rounds
    left before the one in which the interrupt arrives at the latest. The
    [KeyboardInterrupt] that ends the loop arrives in some round, either
    before [pool.map] is called (for [k = 0] this includes the start of
    the pool), and then the batch of this round is not handed over, or
    while [pool.map] runs or once it has returned. *)
Fixpoint unlimited_loop (fuel k : nat) (args : Args) (cs : string)
                        (start_time : float) (task_id0 : Z) : M unit :=
  let batch_size := cpu_count * 10 in
  let ts := (fun i => make_task args cs (task_id0 + i)) <$> range batch_size in
  if interrupted_early k then mret tt
  else
    pool_call k ts;;
    match fuel with
    | O => mret tt
    | S fuel' =>
        if pool_interrupted k then mret tt
        else
          now ← time_now;
          let elapsed := fsub now start_time in
          rate ← rate_of elapsed;
          tc ← gets total_count;
          print ("Processing speed: " +:+ format_2f_num rate +:+ " per second (total: "
                 +:+ PyStr.of_Z tc +:+ ")");;
          unlimited_loop fuel' (S k) args cs start_time (task_id0 + batch_size)
    end.

(** [combinations / rate] and the choice of a unit for it. *)
Definition time_estimate (combinations rate : pynum) : M string :=
  seconds_needed ← lift (py_truediv combinations rate);
  let per (d : Z) := fdiv seconds_needed (float_lit d) in
  if flt seconds_needed (float_lit 60) then
    mret (format_2f seconds_needed +:+ " seconds")
  else if flt seconds_needed (float_lit 3600) then
    mret (format_2f (per 60) +:+ " minutes")
  else if flt seconds_needed (float_lit 86400) then
    mret (format_2f (per 3600) +:+ " hours")
  else if flt seconds_needed (float_lit 31536000) then
    mret (format_2f (per 86400) +:+ " days")
  else if flt seconds_needed (float_lit (31536000 * 100)) then
    mret (format_2f (per 31536000) +:+ " years")
  else
    s ← lift (format_large_number (PyFloat (per 31536000)));
    mret (s +:+ " years").

(** The statistics printed at the end, inside their [try]. *)
Definition final_report (combinations : pynum) (start_time : float) : M unit :=
  try_except
    (now ← time_now;
     let elapsed := fsub now start_time in
     rate ← rate_of elapsed;
     tc ← gets total_count;
     sc ← gets successful_count;
     success_rate ← (if 0 <? tc then x ← percent sc tc; mret (PyFloat x)
                     else mret (PyInt 0));
     print (PyStr.nl +:+ "Task completed. Total: " +:+ PyStr.of_Z tc +:+ " attempts, "
            +:+ PyStr.of_Z sc +:+ " successes (" +:+ format_2f_num success_rate +:+ "%)");;
     print ("Processing speed: " +:+ format_2f_num rate +:+ " per second");;
     print ("Time elapsed: " +:+ format_2f elapsed +:+ " seconds");;
     when (py_gt0 rate)
       (est ← time_estimate combinations rate;
        print ("Testing all combinations would take approximately " +:+ est)))
    (fun e => print ("Error: " +:+ str_exn e)).

(** Lines 176 to 188: the size of the search space and the opening
    lines. *)
Definition announce (args : Args) (cs : string) : M pynum :=
  let charset_size := PyStr.len cs in
  combinations ← lift (calculate_combinations charset_size (byte_size args));
  print ("Starting random C code compilation test with "
         +:+ PyStr.of_Z (byte_size args) +:+ " bytes");;
  print ("Character set size: " +:+ PyStr.of_Z charset_size +:+ " characters");;
  print ("Character set: " +:+ PyStr.prefix 50 cs
         +:+ (if 50 <? PyStr.len cs then "..." else ""));;
  print ("Compiler: " +:+ compiler args);;
  shown ← lift (format_large_number combinations);
  print ("Total possible combinations: " +:+ shown);;
  print ("Available CPU cores: " +:+ PyStr.of_Z cpu_count);;
  mret combinations.

(** The branch [if args.tasks == -1]. *)
Definition unlimited_mode (args : Args) (cs : string) (start_time : float) : M unit :=
  print "Running in unlimited task mode... (Press Ctrl+C to stop)";;
  unlimited_loop last_round 0 args cs start_time 0;;
  print (PyStr.nl +:+ "Stopped by user").

(** The branch of a fixed number of tasks. A [KeyboardInterrupt] that
    ends the pool call is caught and reported. *)
Definition bounded_mode (args : Args) (cs : string) : M unit :=
  pool_call 0 (make_task args cs <$> range (tasks args));;
  when (pool_interrupted 0) (print (PyStr.nl +:+ "Stopped by user")).

Definition main (args : Args) : M unit :=
  let cs := get_charset (negb (no_lowercase args)) (negb (no_uppercase args))
                        (negb (no_digits args)) (negb (no_symbols args))
                        (whitespace args) (charset args) in
  if String.eqb cs "" then
    print "Error: At least one character type must be included"
  else
    combinations ← announce args cs;
    new_counters;;
    start_time ← time_now;
    os_makedirs "successful_codes";;
    (if tasks args =? -1 then unlimited_mode args cs start_time
     else bounded_mode args cs);;
    final_report combinations start_time.

End World.

(** ** Notions used in the statements *)

(** The character set put together from the five flags alone. *)
Definition flag_charset (lowercase uppercase digits symbols_ whitespace_ : bool) : string :=
  (if lowercase then PyStr.ascii_lowercase else "")
  +:+ (if uppercase then PyStr.ascii_uppercase else "")
  +:+ (if digits then PyStr.digits else "")
  +:+ (if symbols_ then symbols else "")
  +:+ (if whitespace_ then whitespace_chars else "").


(** Membership of a character in a string. *)
Definition char_in (c : ascii) (s : string) : Prop := In c (PyStr.chars s).

(** The characters of an int grouped by commas. *)
Definition plain_char (c : ascii) : Prop := char_in c "0123456789,-".

Section ProbeNotions.

Context {F : FloatOps} {R : RandomSource} {E : Env}.

(** The names that a probe started in world [w] by process [pid] uses. *)
Definition probe_filename (pid : Z) (w : world) : string :=
  PyStr.of_Z pid +:+ "_" +:+ PyStr.prefix 8 (uuid4_hex (uuid_calls w)).

Definition probe_c_file (pid : Z) (w : world) : string :=
  probe_filename pid w +:+ ".c".

Definition probe_o_file (pid : Z) (w : world) : string :=
  probe_filename pid w +:+ ".o".

(** The compiler call of that probe, and what the environment answers
    to it once the source file is written. *)
Definition probe_request (pid : Z) (compiler : string) (timeout : Z) (w : world)
  : spawn_req :=
  {| argv := [compiler; "-c"; probe_c_file pid w]; run_timeout := timeout |}.

Definition probe_compile (content : string) (pid : Z) (compiler : string)
                         (timeout : Z) (w : world)
  : run_outcome * gmap string string :=
  run_subprocess (List.length (spawn_log w))
                 (probe_request pid compiler timeout w)
                 (<[probe_c_file pid w := C_TEMPLATE_fmt content]> (files w)).

(** The compiler ran to its end and exited with status zero. *)
Definition exit_zero (o : run_outcome) : bool :=
  match o with
  | Completed rc _ => rc =? 0
  | RunRaised _ => false
  end.

(** The three ways in which a compilation fails. *)
Inductive compile_failure : run_outcome -> Prop :=
| nonzero_exit rc err : rc <> 0 -> compile_failure (Completed rc err)
| timed_out msg : compile_failure (RunRaised (TimeoutExpired msg))
| launch_failed e : compile_failure (RunRaised e).

(** The world after a probe: one uuid drawn, one subprocess logged, and
    the files as given. *)
Definition after_probe (w : world) (req : spawn_req) (fs : gmap string string)
  : world :=
  {| files := fs; dirs := dirs w; stdout := stdout w;
     successful_count := successful_count w; total_count := total_count w;
     counter_log := counter_log w; rng := rng w; cur_pid := cur_pid w;
     uuid_calls := S (uuid_calls w); spawn_log := spawn_log w ++ [req];
     dispatched := dispatched w; clock := clock w |}.

(** The error text that a probe returns: none on success, the captured
    error output of a compiler that exited with another status (or the
    text of the [FileNotFoundError] of [os.remove] when the compiler
    took the source file away), the text of the exception otherwise. *)
Definition probe_message (c_file : string) (o : run_outcome)
                         (fs : gmap string string) : string :=
  match o with
  | Completed rc err =>
      if rc =? 0 then ""
      else match fs !! c_file with
           | Some _ => err
           | None => "[Errno 2] No such file or directory: '" +:+ c_file +:+ "'"
           end
  | RunRaised e => str_exn e
  end.

(** The shared counters with their ghost log. *)
Definition counters_of (w : world) : Z * Z * list (Z * Z) :=
  (successful_count w, total_count w, counter_log w).

(** A snapshot [(successes, attempts)] is sound when the successes are
    at most the attempts and not negative. *)
Definition snapshot_ok (p : Z * Z) : Prop := 0 <= p.1 <= p.2.

(** Each snapshot of a log is at least the one before, in both cells. *)
Fixpoint monotone_log (l : list (Z * Z)) : Prop :=
  match l with
  | [] => True
  | p :: r =>
      match r with
      | [] => True
      | q :: _ => p.1 <= q.1 /\ p.2 <= q.2
      end /\ monotone_log r
  end.

(** The counters of a world are sound: the log ends with their present
    values, never decreases, and holds sound snapshots only. *)
Definition counters_ok (w : world) : Prop :=
  last (counter_log w) = Some (successful_count w, total_count w)
  /\ monotone_log (counter_log w)
  /\ Forall snapshot_ok (counter_log w).

(** The world after the locked block of a worker: one more attempt, one
    more success if the probe succeeded, the snapshots of these writes
    in the log, and some lines printed. *)
Definition after_count (ok : bool) (lines : list string) (w : world) : world :=
  let sc := successful_count w in
  let tc := total_count w in
  {| files := files w; dirs := dirs w; stdout := stdout w ++ lines;
     successful_count := if ok then sc + 1 else sc;
     total_count := tc + 1;
     counter_log :=
       counter_log w ++ (sc, tc + 1) :: (if ok then [(sc + 1, tc + 1)] else []);
     rng := rng w; cur_pid := cur_pid w;
     uuid_calls := uuid_calls w; spawn_log := spawn_log w;
     dispatched := dispatched w; clock := clock w |}.

(** The first three statements of [worker], which produce the content. *)
Definition worker_content (t : task) : M (Z * string) :=
  pid ← os_getpid;
  random_seed (pid + task_id t);;
  content ← generate_random_c_content (t_byte_size t) (t_charset t);
  mret (pid, content).

(** What follows them, for a content produced in the world [w1]: whether
    the probe succeeds, and the world that the worker leaves. *)
Definition worker_ok (t : task) (content : string) (w1 : world) : bool :=
  exit_zero (probe_compile content (cur_pid w1) (t_compiler t) default_timeout w1).1.

Definition worker_world (t : task) (content : string) (lines : list string)
                        (w1 : world) : world :=
  let pid := cur_pid w1 in
  let r := probe_compile content pid (t_compiler t) default_timeout w1 in
  let c := probe_c_file pid w1 in
  let o := probe_o_file pid w1 in
  after_count (exit_zero r.1) lines
    (after_probe w1 (probe_request pid (t_compiler t) default_timeout w1)
       (if exit_zero r.1 then delete o r.2 else delete o (delete c r.2))).

(** The character set that [main] gets from its arguments. *)
Definition args_charset (args : Args) : string :=
  get_charset (negb (no_lowercase args)) (negb (no_uppercase args))
              (negb (no_digits args)) (negb (no_symbols args))
              (whitespace args) (charset args).

(** The tasks of a run with a fixed number of tasks. *)
Definition bounded_tasks (args : Args) : list task :=
  make_task args (args_charset args) <$> range (tasks args).

(** Two worlds of one run that differ at most in what was printed, in
    the clock and in the directories made. *)
Definition same_run (w w' : world) : Prop :=
  files w' = files w /\ counters_of w' = counters_of w
  /\ spawn_log w' = spawn_log w /\ rng w' = rng w
  /\ uuid_calls w' = uuid_calls w /\ cur_pid w' = cur_pid w
  /\ dispatched w' = dispatched w.

(** A computation that only prints, reads the clock or makes
    directories, whether it returns or raises. *)
Definition quiet {A} (m : M A) : Prop := forall w, same_run w (m w).2.

(** The arguments with another value of [--timeout]. *)
Definition with_timeout (v : Z) (args : Args) : Args :=
  {| byte_size := byte_size args; tasks := tasks args;
     no_lowercase := no_lowercase args; no_uppercase := no_uppercase args;
     no_digits := no_digits args; no_symbols := no_symbols args;
     whitespace := whitespace args; charset := charset args;
     compiler := compiler args; show_errors := show_errors args;
     timeout := v |}.

(** The content that the first statements of a worker produce, if they
    do not raise. *)
Definition content_of (r : exn + Z * string) : option string :=
  match r with
  | inr (_, content) => Some content
  | inl _ => None
  end.

(** A computation that keeps the property [I] of worlds, whether it
    returns or raises. *)
Definition keeps_inv (I : world -> Prop) {A} (m : M A) : Prop :=
  forall w, I w -> I (m w).2.

(** Two worlds in which the executing process has the same random
    state. *)
Definition same_seed (w w' : world) : Prop :=
  rng w (cur_pid w) = rng w' (cur_pid w').

(** The compiler calls that were added from [w] to [w'] all carry the
    default timeout. *)
Definition default_timeout_since (w w' : world) : Prop :=
  exists l, spawn_log w' = (spawn_log w ++ l)%list
            /\ Forall (fun req => run_timeout req = default_timeout) l.

End ProbeNotions.

(** ** Further notions *)

(** A string without its commas. *)
Definition strip_commas (s : string) : string :=
  PyStr.join (List.filter (fun c => negb (Ascii.eqb c ",")) (PyStr.chars s)).

(** The character at offset [j] from the right end of a string. *)
Definition char_from_right (j : nat) (s : string) : option ascii :=
  reverse (PyStr.chars s) !! j.


(** The number of characters that the flags select. *)
Definition flag_charset_size (lowercase uppercase digits symbols_ whitespace_ : bool) : Z :=
  (if lowercase then 26 else 0) + (if uppercase then 26 else 0)
  + (if digits then 10 else 0) + (if symbols_ then 27 else 0)
  + (if whitespace_ then 3 else 0).

(** The saved-file path in what [test_compilation] returns. *)
Definition returned_path (r : exn + probe_result) : option string :=
  match r with
  | inr (_, _, path, _) => path
  | inl _ => None
  end.

(** A worker that got as far as the cut [c] has launched its compiler
    (line 92), has counted its attempt (line 129). *)
Definition launched (c : cut) : bool :=
  match c with
  | Probing Launched | Probing Removed | Locking _ => true
  | _ => false
  end.

Definition counted (c : cut) : bool :=
  match c with
  | Locking Counted | Locking Credited | Locking Reported => true
  | _ => false
  end.

Section FrameNotions.

Context {R : RandomSource}.

(** From [w] to [w'] nothing changed but the random state of the process
    that executes in [w]. *)
Definition only_own_rng (w w' : world) : Prop :=
  files w' = files w /\ dirs w' = dirs w /\ stdout w' = stdout w
  /\ counters_of w' = counters_of w /\ cur_pid w' = cur_pid w
  /\ uuid_calls w' = uuid_calls w /\ spawn_log w' = spawn_log w
  /\ dispatched w' = dispatched w /\ clock w' = clock w
  /\ forall p, p <> cur_pid w -> rng w' p = rng w p.

End FrameNotions.

Section RunNotions.

Context {F : FloatOps} {R : RandomSource} {E : Env}.

(** A compile-only call of the compiler [cc] on a [.c] file, with the
    default timeout. *)
Definition compile_call (cc : string) (req : spawn_req) : Prop :=
  exists name, argv req = [cc; "-c"; name +:+ ".c"]
               /\ run_timeout req = default_timeout.

(** In its k-th call the pool executes tasks that it was handed, and no
    other. *)
Definition pool_runs_given (k : nat) (ts : list task) : Prop :=
  Forall (fun pt => pt.2 ∈ ts) (pool_run k ts).

(** The executions that the interrupt of the k-th pool call terminates
    in flight; there is none when no interrupt ends the call. *)
Definition terminated (k : nat) (ts : list task) : list (Z * cut * task) :=
  if pool_interrupted k then in_flight k ts else [].

(** The executions of the k-th pool call that counted their attempt,
    and those that launched their compiler: the ones that ran to their
    end, and the terminated ones that got that far. *)
Definition attempts_counted (k : nat) (ts : list task) : nat :=
  (List.length (pool_run k ts)
   + List.length (List.filter (fun e => counted e.1.2) (terminated k ts)))%nat.

Definition compilers_launched (k : nat) (ts : list task) : nat :=
  (List.length (pool_run k ts)
   + List.length (List.filter (fun e => launched e.1.2) (terminated k ts)))%nat.

(** The tasks of [m] batches of unlimited mode, from task id [i0] on. *)
Definition batch_tasks (args : Args) (cs : string) (i0 : Z) (m : nat) : list task :=
  make_task args cs <$> ((fun i => i0 + i) <$> range (Z.of_nat m * (cpu_count * 10))).

End RunNotions.

(** ** A small concrete environment

    Exact rationals stand in for doubles, a linear congruential generator
    for the Mersenne twister, and a compiler that accepts a body made of
    semicolons and nothing else. The environment serves to run the
    embedding on concrete inputs. *)

Module Demo.

Definition log10_floor (z : Z) : Z :=
  Z.max 0 (Z.of_nat (String.length (PyStr.of_Z z)) - 1).

Definition two_decimals (q : Q) : string :=
  let n := Qfloor (Qplus (Qmult q (inject_Z 100)) (Qmake 1 2)) in
  let a := Z.abs n in
  (if n <? 0 then "-" else "") +:+ PyStr.of_Z (a / 100) +:+ "."
    +:+ PyStr.of_Z (a `mod` 100 / 10) +:+ PyStr.of_Z (a `mod` 10).

Lemma log10_floor_nonneg (z k : Z) :
  @inr exn Z (Qfloor (inject_Z (log10_floor z))) = inr k -> 0 <= k.
Proof.
  rewrite Qfloor_Z. intros H. injection H as <-. apply Z.le_max_l.
Qed.

#[export] Instance floats : FloatOps :=
  {| float := Q;
     float_lit := inject_Z;
     float_of_int z := inr (inject_Z z);
     int_truediv a b := Qdiv (inject_Z a) (inject_Z b);
     int_pow_neg a b := Qpower (inject_Z a) b;
     fsub := Qminus;
     fmul := Qmult;
     fdiv := Qdiv;
     flt x y := negb (Qle_bool y x);
     fis_zero x := Qeq_bool x (inject_Z 0);
     math_log10_int z := inject_Z (log10_floor z);
     math_log10 x :=
       if Qle_bool x (inject_Z 0) then inl (ValueError "math domain error")
       else inr (inject_Z (log10_floor (Qfloor x)));
     math_floor x := inr (Qfloor x);
     format_2f := two_decimals;
     format_comma_float := two_decimals;
     math_floor_log10_int z _ := ex_intro _ _ eq_refl;
     math_floor_log10_int_nonneg z k _ := log10_floor_nonneg z k
  |}.

Definition lcg_next (s : Z) : Z := (s * 1103515245 + 12345) `mod` 2147483648.

Lemma lcg_below (n : nat) (s : Z) :
  (0 < n)%nat -> (Z.to_nat (lcg_next s `mod` Z.of_nat n) < n)%nat.
Proof.
  intros H.
  pose proof (Z.mod_pos_bound (lcg_next s) (Z.of_nat n) ltac:(lia)). lia.
Qed.

#[export] Instance lcg : RandomSource :=
  {| rng_state := Z;
     seed a := Z.abs a;
     randbelow n s := (Z.to_nat (lcg_next s `mod` Z.of_nat n), lcg_next s);
     randbelow_lt := lcg_below
  |}.

(** The body that a source file wraps, when it has the shape of the
    template. *)
Definition body_of (text : string) : string :=
  let h := String.length C_TEMPLATE_head in
  let t := String.length C_TEMPLATE_tail in
  substring h (String.length text - h - t) text.

Fixpoint only_semicolons (s : string) : bool :=
  match s with
  | EmptyString => true
  | String c r => Ascii.eqb c ";" && only_semicolons r
  end.

(** [x.c] to [x.o] *)
Definition object_name (c_file : string) : string :=
  substring 0 (String.length c_file - 1) c_file +:+ "o".

Definition compile (k : nat) (req : spawn_req) (fs : gmap string string)
  : run_outcome * gmap string string :=
  match argv req with
  | [cc; _; c_file] =>
      if negb (String.eqb cc "gcc") then
        (RunRaised (FileNotFoundError
                      ("[Errno 2] No such file or directory: '" +:+ cc +:+ "'")), fs)
      else if run_timeout req <=? 0 then
        (RunRaised (TimeoutExpired "Command timed out"), fs)
      else
        match fs !! c_file with
        | None => (Completed 1 "cc1: fatal error: no such file", fs)
        | Some text =>
            if only_semicolons (body_of text)
            then (Completed 0 "", <[object_name c_file := "ELF"]> fs)
            else (Completed 1 "error: expected expression", fs)
        end
  | _ => (Completed 1 "usage", fs)
  end.

#[export] Instance env : Env :=
  {| uuid4_hex k := PyStr.of_Z (10000000 + Z.of_nat k) +:+ "aaaaaaaaaaaaaaaaaaaaaaaa";
     run_subprocess := compile;
     cpu_count := 2;
     time_time k := inject_Z (Z.of_nat k);
     pool_run k ts := (fun t => (1000 + task_id t `mod` 2, t)) <$> ts;
     pool_interrupted k := false;
     pool_stopped k t := None;
     interrupted_early k := false;
     last_round := 1
  |}.

(** The same environment with an interrupt: in unlimited mode it arrives
    while the pool starts; in a run with a fixed number of tasks it
    arrives when the first task has run to its end, the execution of task
    [1] has launched its compiler and no process has taken up the tasks
    after it. *)
Definition env_stopped : Env :=
  {| uuid4_hex := uuid4_hex (Env := env);
     run_subprocess := compile;
     cpu_count := 2;
     time_time k := inject_Z (Z.of_nat k);
     pool_run k ts := (fun t => (1000 + task_id t `mod` 2, t)) <$> take 1 ts;
     pool_interrupted k := true;
     pool_stopped k t := if task_id t =? 1 then Some (1001, Probing Launched) else None;
     interrupted_early k := true;
     last_round := 1
  |}.

Definition w0 : world :=
  {| files := ∅; dirs := ∅; stdout := [];
     successful_count := 0; total_count := 0; counter_log := [];
     rng := fun _ => 0; cur_pid := 999;
     uuid_calls := 0; spawn_log := []; dispatched := []; clock := 0 |}.

(** Three tasks over the one-character set [";"], with a timeout of
    five seconds asked for on the command line. *)
Definition args_semicolon : Args :=
  {| byte_size := 1; tasks := 3;
     no_lowercase := false; no_uppercase := false; no_digits := false;
     no_symbols := false; whitespace := false; charset := Some ";";
     compiler := "gcc"; show_errors := false; timeout := 5 |}.

(** Every class of characters excluded. *)
Definition args_no_class : Args :=
  {| byte_size := 5; tasks := 10000;
     no_lowercase := true; no_uppercase := true; no_digits := true;
     no_symbols := true; whitespace := false; charset := None;
     compiler := "gcc"; show_errors := false; timeout := 2 |}.

(** A task whose content is an unmatched brace. *)
Definition brace_task : task :=
  {| task_id := 0; t_byte_size := 1; t_charset := "{";
     t_compiler := "gcc"; t_show_errors := true |}.

(** A fixed number of tasks that is negative, and not the [-1] of
    unlimited mode. *)
Definition args_negative_tasks : Args :=
  {| byte_size := 1; tasks := -5;
     no_lowercase := false; no_uppercase := false; no_digits := false;
     no_symbols := false; whitespace := false; charset := Some ";";
     compiler := "gcc"; show_errors := false; timeout := 2 |}.

(** Unlimited mode. *)
Definition args_unlimited : Args :=
  {| byte_size := 1; tasks := -1;
     no_lowercase := false; no_uppercase := false; no_digits := false;
     no_symbols := false; whitespace := false; charset := Some ";";
     compiler := "gcc"; show_errors := false; timeout := 2 |}.

End Demo.

(** * Properties *)

(** ** Strings *)

Lemma chars_app (a b : string) :
  PyStr.chars (a +:+ b) = (PyStr.chars a ++ PyStr.chars b)%list.
Proof.
  induction a as [|c a IH]; simpl; [reflexivity|].
  unfold PyStr.chars in *. simpl. now rewrite IH.
Qed.

Lemma chars_join (l : list ascii) : PyStr.chars (PyStr.join l) = l.
Proof. apply list_ascii_of_string_of_list_ascii. Qed.

Lemma length_join (l : list ascii) : String.length (PyStr.join l) = List.length l.
Proof. induction l as [|c l IH]; simpl; [reflexivity | now rewrite IH]. Qed.

Lemma get_char_in (s : string) (i : nat) (c : ascii) :
  String.get i s = Some c -> char_in c s.
Proof.
  revert i. induction s as [|a s IH]; intros i H; simpl in H; [discriminate|].
  destruct i as [|i].
  - injection H as ->. now left.
  - right. exact (IH i H).
Qed.

Lemma get_in_range (s : string) (i : nat) :
  (i < String.length s)%nat -> exists c, String.get i s = Some c.
Proof.
  revert i. induction s as [|a s IH]; intros i H; simpl in H; [lia|].
  destruct i as [|i]; simpl; [eauto|]. apply IH. lia.
Qed.

Lemma app_string_inj (a b c : string) : a +:+ b = a +:+ c -> b = c.
Proof. induction a as [|x a IH]; simpl; intros H; [exact H|]. injection H. exact IH. Qed.

(** ** get_charset *)

Lemma get_charset_flags (l u d s ws : bool) :
  get_charset l u d s ws None = flag_charset l u d s ws.
Proof. destruct l, u, d, s, ws; reflexivity. Qed.

(** C10. Whatever the five flags are, an empty custom character set is
    treated as no custom character set: the result is the one put together
    from the flags. A custom character set that is not empty is returned
    as it is, whatever the flags are. *)
Theorem get_charset_custom_override (l u d s ws : bool) :
  get_charset l u d s ws (Some "") = get_charset l u d s ws None
  /\ get_charset l u d s ws (Some "") = flag_charset l u d s ws
  /\ forall c rest, get_charset l u d s ws (Some (String c rest)) = String c rest.
Proof.
  split; [reflexivity|]. split.
  - exact (get_charset_flags l u d s ws).
  - intros c rest. reflexivity.
Qed.

(** ** calculate_combinations and format_large_number *)

Lemma string_of_uint_plain (u : Decimal.uint) :
  Forall plain_char (PyStr.chars (NilEmpty.string_of_uint u)).
Proof.
  induction u; simpl; constructor; try assumption; unfold plain_char, char_in; simpl; tauto.
Qed.

Lemma of_Z_plain (z : Z) : Forall plain_char (PyStr.chars (PyStr.of_Z z)).
Proof.
  assert (Hu : forall u, Forall plain_char (PyStr.chars (NilZero.string_of_uint u))).
  { intros u. destruct u; try apply string_of_uint_plain.
    constructor; [unfold plain_char, char_in; simpl; tauto | constructor]. }
  unfold PyStr.of_Z, NilZero.string_of_int.
  destruct (Z.to_int z); [apply Hu|].
  constructor; [unfold plain_char, char_in; simpl; tauto | apply Hu].
Qed.




Section Numbers.

Context {F : FloatOps}.

Lemma calculate_combinations_exact (K N : Z) :
  0 <= N -> calculate_combinations K N = inr (PyInt (K ^ N)).
Proof.
  intros H. unfold calculate_combinations, int_pow.
  destruct (Z.leb_spec 0 N); [reflexivity | lia].
Qed.

Lemma format_large_number_small (v : Z) :
  v < 1000000 -> format_large_number (PyInt v) = inr (format_comma_int v).
Proof.
  intros H. unfold format_large_number, lt_1e6.
  destruct (Z.ltb_spec v 1000000); [reflexivity | lia].
Qed.

Lemma format_large_number_large (v : Z) :
  1000000 <= v ->
  exists e, 0 <= e /\ math_floor (math_log10_int v) = inr e
    /\ format_large_number (PyInt v)
       = inr (format_2f (int_truediv v (10 ^ e)) +:+ times_ten_to +:+ PyStr.of_Z e).
Proof.
  intros H.
  destruct (math_floor_log10_int v) as [e He]; [lia|].
  pose proof (math_floor_log10_int_nonneg v e ltac:(lia) He) as He0.
  exists e. split; [exact He0|]. split; [exact He|].
  unfold format_large_number, lt_1e6, py_log10, int_pow, py_truediv.
  destruct (Z.ltb_spec v 1000000); [lia|].
  destruct (Z.ltb_spec 0 v); [|lia].
  rewrite He.
  destruct (Z.leb_spec 0 e); [|lia].
  destruct (Z.eqb_spec (10 ^ e) 0) as [E|_]; [|reflexivity].
  pose proof (Z.pow_pos_nonneg 10 e ltac:(lia) He0). lia.
Qed.

End Numbers.

(** ** generate_random_c_content *)

Section Generator.

Context {F : FloatOps} {R : RandomSource} {E : Env}.

Lemma random_choice_member (cs : string) (w : world) :
  cs <> "" ->
  exists c w', random_choice cs w = (inr c, w') /\ char_in c cs.
Proof.
  intros Hcs. unfold random_choice.
  destruct (String.length cs) as [|n] eqn:Hlen.
  { destruct cs; [congruence | discriminate Hlen]. }
  pose proof (randbelow_lt (S n) (rng w (cur_pid w)) (Nat.lt_0_succ n)) as Hlt.
  destruct (randbelow (S n) (rng w (cur_pid w))) as [i st]. simpl in Hlt.
  destruct (get_in_range cs i ltac:(lia)) as [c Hc]. rewrite Hc.
  eexists _, _. split; [reflexivity|]. exact (get_char_in _ _ _ Hc).
Qed.

Lemma choices_members (n : nat) (cs : string) (w : world) :
  cs <> "" ->
  exists l w', choices n cs w = (inr l, w')
    /\ List.length l = n /\ Forall (fun c => char_in c cs) l.
Proof.
  intros Hcs. revert w. induction n as [|n IH]; intros w.
  - exists [], w. repeat split. constructor.
  - destruct (random_choice_member cs w Hcs) as (c & w1 & Hc & Hin).
    destruct (IH w1) as (l & w2 & Hl & Hlen & Hall).
    exists (c :: l), w2. simpl.
    unfold mbind, M_bind, bind. rewrite Hc, Hl.
    repeat split; [simpl; lia | now constructor].
Qed.

(** C2. Over a character set that is not empty and for a length [N] that
    is not negative, [generate_random_c_content] returns (it does not
    raise) a string of exactly [N] characters, each one a character of
    the set. For [N = 0] the string is empty, and nothing is drawn. *)
Theorem generate_random_c_content_spec (N : Z) (cs : string) (w : world) :
  cs <> "" -> 0 <= N ->
  (exists s w',
      generate_random_c_content N cs w = (inr s, w')
      /\ PyStr.len s = N
      /\ forall c, char_in c s -> char_in c cs)
  /\ generate_random_c_content 0 cs w = (inr "", w).
Proof.
  intros Hcs HN. split; [|reflexivity].
  destruct (choices_members (Z.to_nat N) cs w Hcs) as (l & w' & Hl & Hlen & Hall).
  exists (PyStr.join l), w'. unfold generate_random_c_content.
  unfold mbind, M_bind, bind. rewrite Hl. split; [reflexivity|]. split.
  - unfold PyStr.len. rewrite length_join, Hlen. lia.
  - intros c Hc. unfold char_in in Hc. rewrite chars_join in Hc.
    exact (proj1 (List.Forall_forall _ _) Hall c Hc).
Qed.

End Generator.

(** On the concrete environment: five characters over ["abc"]. *)
Lemma generate_random_c_content_witness :
  "abc" <> "" /\ 0 <= 5
  /\ exists s w',
       generate_random_c_content 5 "abc" Demo.w0 = (inr s, w')
       /\ PyStr.len s = 5
       /\ forall c, char_in c s -> char_in c "abc".
Proof.
  split; [discriminate|]. split; [lia|].
  assert (Hne : "abc" <> "") by discriminate.
  assert (H5 : 0 <= 5) by lia.
  exact (proj1 (generate_random_c_content_spec 5 "abc" Demo.w0 Hne H5)).
Defined.

(** ** test_compilation *)

Section Probe.

Context {F : FloatOps} {R : RandomSource} {E : Env}.

Lemma with_files_same (w : world) : with_files (files w) w = w.
Proof. destruct w; reflexivity. Qed.

Lemma remove_if_exists_eval (path : string) (w : world) :
  remove_if_exists path w = (inr tt, with_files (delete path (files w)) w).
Proof.
  unfold remove_if_exists, os_path_exists, os_remove, gets, when, mbind, M_bind, bind.
  destruct (files w !! path) as [text|] eqn:Hp.
  - rewrite bool_decide_eq_true_2 by eauto. now rewrite Hp.
  - rewrite bool_decide_eq_false_2 by (intros [? ?]; congruence).
    unfold ret. now rewrite delete_id, with_files_same.
Qed.

(** What [test_compilation] returns and the world it leaves, in terms
    of the answer of the environment to its compiler call. It never
    raises. *)
Lemma test_compilation_eval content pid compiler timeout w :
  let c := probe_c_file pid w in
  let o := probe_o_file pid w in
  let r := probe_compile content pid compiler timeout w in
  let ok := exit_zero r.1 in
  test_compilation content pid compiler timeout w
  = (inr (ok, content, if ok then Some c else None, probe_message c r.1 r.2),
     after_probe w (probe_request pid compiler timeout w)
       (if ok then delete o r.2 else delete o (delete c r.2))).
Proof.
  intros c o r ok.
  unfold test_compilation.
  unfold mbind at 1. unfold M_bind at 1. unfold bind at 1.
  unfold uuid4_hex_next.
  unfold mbind at 1. unfold M_bind at 1. unfold bind at 1.
  unfold write_file at 1. unfold modify at 1.
  unfold mbind at 1. unfold M_bind at 1. unfold bind at 1.
  unfold try_except.
  unfold mbind at 1. unfold M_bind at 1. unfold bind at 1.
  unfold subprocess_run.
  cbn [files spawn_log uuid_calls with_files with_uuid_calls].
  fold (probe_filename pid w). fold (probe_c_file pid w). fold (probe_o_file pid w).
  fold c. fold o.
  change (run_subprocess _ _ _) with r.
  subst ok. destruct r as [[rc err|e] fs]; cbn [fst snd exit_zero probe_message].
  - destruct (rc =? 0) eqn:Hrc; cbn [negb when].
    + unfold mbind at 1. unfold M_bind at 1. unfold bind at 1.
      unfold ret at 1.
      unfold mbind at 1. unfold M_bind at 1. unfold bind at 1.
      unfold mret at 1. unfold M_ret at 1. unfold ret at 1.
      unfold mbind at 1. unfold M_bind at 1. unfold bind at 1.
      rewrite remove_if_exists_eval.
      reflexivity.
    + unfold mbind at 1. unfold M_bind at 1. unfold bind at 1.
      unfold mbind at 1. unfold M_bind at 1. unfold bind at 1.
      unfold os_remove at 1. cbn [files with_spawn].
      destruct (fs !! c) as [text|] eqn:Hc.
      * rewrite remove_if_exists_eval.
        unfold mbind, M_bind, bind, mret, M_ret, ret.
        rewrite remove_if_exists_eval. cbn.
        rewrite delete_delete_eq. reflexivity.
      * unfold mbind, M_bind, bind, mret, M_ret, ret.
        rewrite !remove_if_exists_eval. cbn.
        rewrite (delete_id fs c Hc). reflexivity.
  - unfold mbind, M_bind, bind, mret, M_ret, ret.
    rewrite !remove_if_exists_eval. reflexivity.
Qed.

(** ** worker *)

Lemma worker_locked_eval (t : task) (ok : bool) (fn : option string)
                         (msg : string) (w : world) :
  exists lines,
    (worker_locked t ok fn msg w).2 = after_count ok lines w
    /\ ((worker_locked t ok fn msg w).1 = inr tt \/ total_count w + 1 = 0).
Proof.
  unfold worker_locked, percent, lift, py_truediv, when,
    set_total_count, set_successful_count, print, modify, gets,
    mbind, M_bind, bind, mret, M_ret, ret, after_count.
  destruct ok; [|destruct (t_show_errors t)];
    cbn [fst snd successful_count total_count counter_log stdout
         with_counters with_stdout files dirs rng cur_pid uuid_calls
         spawn_log dispatched clock];
    destruct ((total_count w + 1) `mod` 100 =? 0) eqn:Hm;
    cbn [fst snd successful_count total_count counter_log stdout
         with_counters with_stdout files dirs rng cur_pid uuid_calls
         spawn_log dispatched clock];
    try (destruct (Z.eqb_spec (total_count w + 1) 0) as [Hz|Hz]);
    cbn [fst snd successful_count total_count counter_log stdout
         with_counters with_stdout files dirs rng cur_pid uuid_calls
         spawn_log dispatched clock];
    unfold with_stdout, with_counters;
    cbn [fst snd successful_count total_count counter_log stdout
         files dirs rng cur_pid uuid_calls spawn_log dispatched clock];
    rewrite <- ?app_assoc; cbn [app];
    first [ eexists; split; [reflexivity | first [left; reflexivity | right; assumption]]
          | exists []; rewrite app_nil_r; split;
            [reflexivity | first [left; reflexivity | right; assumption]] ].
Qed.

Lemma with_rng_same (w : world) : with_rng (rng w) w = w.
Proof. destruct w; reflexivity. Qed.

Lemma random_choice_world (cs : string) (w : world) :
  exists g, (random_choice cs w).2 = with_rng g w.
Proof.
  unfold random_choice. destruct (String.length cs) as [|n].
  - exists (rng w). now rewrite with_rng_same.
  - destruct (randbelow (S n) (rng w (cur_pid w))) as [i st].
    destruct (String.get i cs); eexists; reflexivity.
Qed.

Lemma choices_world (n : nat) (cs : string) (w : world) :
  exists g, (choices n cs w).2 = with_rng g w.
Proof.
  revert w. induction n as [|n IH]; intros w.
  - exists (rng w). simpl. now rewrite with_rng_same.
  - simpl. unfold mbind, M_bind, bind.
    destruct (random_choice_world cs w) as [g1 H1].
    destruct (random_choice cs w) as [[e|c] w1]; simpl in H1; subst w1.
    + now exists g1.
    + destruct (IH (with_rng g1 w)) as [g2 H2].
      destruct (choices n cs (with_rng g1 w)) as [[e|l] w2]; simpl in H2; subst w2;
        now exists g2.
Qed.

(** The first statements of a worker touch the random state of its
    process and nothing else; over a character set that is not empty
    they produce a content. *)
Lemma worker_content_world (t : task) (w : world) :
  exists g, (worker_content t w).2 = with_rng g w.
Proof.
  unfold worker_content, generate_random_c_content, os_getpid, random_seed,
    gets, modify, mbind, M_bind, bind, mret, M_ret, ret.
  match goal with
  | |- context [choices ?n ?cs ?w1] =>
      destruct (choices_world n cs w1) as [g Hg];
      destruct (choices n cs w1) as [[e|l] w2]
  end; simpl in Hg; subst w2; now exists g.
Qed.

Lemma worker_content_returns (t : task) (w : world) :
  t_charset t <> "" ->
  exists content g,
    worker_content t w = (inr (cur_pid w, content), with_rng g w)
    /\ PyStr.len content = Z.max 0 (t_byte_size t)
    /\ forall c, char_in c content -> char_in c (t_charset t).
Proof.
  intros Hcs.
  destruct (worker_content_world t w) as [g Hg].
  revert Hg.
  unfold worker_content, generate_random_c_content, os_getpid, random_seed,
    gets, modify, mbind, M_bind, bind, mret, M_ret, ret.
  match goal with
  | |- context [choices ?n ?cs ?w1] =>
      destruct (choices_members n cs w1 Hcs) as (l & w2 & Hl & Hlen & Hall);
      rewrite Hl
  end.
  simpl. intros ->. exists (PyStr.join l), g. split; [reflexivity|]. split.
  - unfold PyStr.len. rewrite length_join, Hlen. lia.
  - intros c Hc. unfold char_in in Hc. rewrite chars_join in Hc.
    exact (proj1 (List.Forall_forall _ _) Hall c Hc).
Qed.

(** A worker is its first statements followed by the probe and the
    locked block. *)
Lemma worker_split (t : task) (w : world) :
  worker t w =
  match worker_content t w with
  | (inl e, w1) => (inl e, w1)
  | (inr (pid, content), w1) =>
      match test_compilation content pid (t_compiler t) default_timeout w1 with
      | (inl e, w2) => (inl e, w2)
      | (inr r, w2) =>
          match worker_locked t r.1.1.1 r.1.2 r.2 w2 with
          | (inl e, w3) => (inl e, w3)
          | (inr _, w3) => (inr r.1.1.1, w3)
          end
      end
  end.
Proof.
  unfold worker, worker_content, os_getpid, random_seed, gets, modify,
    mbind, M_bind, bind, mret, M_ret, ret.
  destruct (generate_random_c_content _ _ _) as [[e|content] w1]; reflexivity.
Qed.

(** The effect of a worker that got its content. *)
Lemma worker_eval (t : task) (w : world) (content : string) (w1 : world) :
  worker_content t w = (inr (cur_pid w1, content), w1) ->
  exists lines,
    (worker t w).2 = worker_world t content lines w1
    /\ ((worker t w).1 = inr (worker_ok t content w1) \/ total_count w1 + 1 = 0).
Proof.
  intros Hc. rewrite worker_split, Hc, test_compilation_eval.
  cbv zeta. cbn [fst snd].
  match goal with
  | |- context [worker_locked t ?ok ?fn ?msg ?w2] =>
      destruct (worker_locked_eval t ok fn msg w2) as (lines & Hw & Hr);
      destruct (worker_locked t ok fn msg w2) as [[e|[]] w3]
  end; simpl in Hw; subst w3; exists lines; (split; [reflexivity|]);
    cbn [fst snd total_count after_probe] in *.
  - destruct Hr as [Hr|Hr]; [discriminate Hr | now right].
  - now left.
Qed.

(** ** The outcome of a probe *)

Lemma probe_files_differ (pid : Z) (w : world) :
  probe_c_file pid w <> probe_o_file pid w.
Proof.
  unfold probe_c_file, probe_o_file. intros H.
  apply app_string_inj in H. discriminate H.
Qed.


Lemma compile_failure_not_zero (o : run_outcome) :
  compile_failure o -> exit_zero o = false.
Proof. intros [rc err H| |]; simpl; [now apply Z.eqb_neq | reflexivity..]. Qed.


(** C4. When the compilation of a probe fails (the compiler exits with
    a status other than zero, is stopped at the timeout, or cannot be
    launched), [test_compilation] returns a failure and leaves neither
    the source file nor the object file of the probe. *)
Theorem failed_probe_leaves_no_files (content : string) (pid : Z)
                                     (compiler : string) (timeout : Z) (w : world) :
  compile_failure (probe_compile content pid compiler timeout w).1 ->
  exists msg w',
    test_compilation content pid compiler timeout w
    = (inr (false, content, None, msg), w')
    /\ files w' !! probe_c_file pid w = None
    /\ files w' !! probe_o_file pid w = None.
Proof.
  intros Hf. apply compile_failure_not_zero in Hf.
  eexists _, _. rewrite test_compilation_eval. cbv zeta. rewrite Hf.
  split; [reflexivity|]. cbn [files after_probe]. split.
  - rewrite lookup_delete_ne by (intros H; exact (probe_files_differ pid w (eq_sym H))).
    apply lookup_delete_eq.
  - apply lookup_delete_eq.
Qed.

(** C6. A compiler that exits with a status other than zero, a timeout
    and a launch failure each make [test_compilation] return a result
    whose success flag is false and whose text is the diagnostic; they
    raise nothing. A worker over a character set that is not empty, in a
    run whose attempt counter is not negative, returns the success flag
    of its probe, which is false in these three cases; it raises
    nothing either. *)
Theorem compile_failure_is_a_result (content : string) (pid : Z)
    (compiler : string) (timeout : Z) (w0 : world) (t : task) (w : world) :
  t_charset t <> "" -> 0 <= total_count w ->
  (compile_failure (probe_compile content pid compiler timeout w0).1 ->
   exists w',
     test_compilation content pid compiler timeout w0
     = (inr (false, content, None,
             probe_message (probe_c_file pid w0)
               (probe_compile content pid compiler timeout w0).1
               (probe_compile content pid compiler timeout w0).2), w'))
  /\ exists body w1 w',
       worker_content t w = (inr (cur_pid w, body), w1)
       /\ worker t w = (inr (worker_ok t body w1), w')
       /\ (compile_failure
             (probe_compile body (cur_pid w) (t_compiler t) default_timeout w1).1 ->
           worker_ok t body w1 = false).
Proof.
  intros Hcs Htc. split.
  - intros Hf. apply compile_failure_not_zero in Hf.
    eexists. rewrite test_compilation_eval. cbv zeta. rewrite Hf. reflexivity.
  - destruct (worker_content_returns t w Hcs) as (body & g & Hb & _).
    destruct (worker_eval t w body (with_rng g w) Hb) as (lines & Hw & Hr).
    exists body, (with_rng g w), (worker t w).2.
    split; [exact Hb|]. split.
    + destruct Hr as [Hr|Hr]; [|cbn [total_count with_rng] in Hr; lia].
      destruct (worker t w) as [res w']. simpl in Hr. now rewrite Hr.
    + intros Hf. now apply compile_failure_not_zero in Hf.
Qed.

End Probe.


Lemma failed_probe_leaves_no_files_witness :
  compile_failure (probe_compile (E := Demo.env) "{" 1000 "gcc" 2 Demo.w0).1
  /\ exists msg w',
       test_compilation (E := Demo.env) "{" 1000 "gcc" 2 Demo.w0
       = (inr (false, "{", None, msg), w')
       /\ files w' !! "1000_10000000.c" = None
       /\ files w' !! "1000_10000000.o" = None.
Proof.
  assert (H : compile_failure (probe_compile (E := Demo.env) "{" 1000 "gcc" 2 Demo.w0).1).
  { vm_compute. apply nonzero_exit. discriminate. }
  split; [exact H|].
  exact (failed_probe_leaves_no_files "{" 1000 "gcc" 2 Demo.w0 H).
Defined.

(** ** Computations that leave the run as it is *)

Section Quiet.

Context {F : FloatOps} {R : RandomSource} {E : Env}.

Lemma bind_inr {A B} (m : M A) (k : A -> M B) (w : world) (a : A) (w1 : world) :
  m w = (inr a, w1) -> (m ≫= k) w = k a w1.
Proof. intros H. unfold mbind, M_bind, bind. now rewrite H. Qed.

Lemma bind_inl {A B} (m : M A) (k : A -> M B) (w : world) (e : exn) (w1 : world) :
  m w = (inl e, w1) -> (m ≫= k) w = (inl e, w1).
Proof. intros H. unfold mbind, M_bind, bind. now rewrite H. Qed.

Lemma same_run_refl (w : world) : same_run w w.
Proof. repeat split. Qed.

Lemma same_run_trans (w1 w2 w3 : world) :
  same_run w1 w2 -> same_run w2 w3 -> same_run w1 w3.
Proof.
  unfold same_run. intros (A1 & A2 & A3 & A4 & A5 & A6 & A7)
                          (B1 & B2 & B3 & B4 & B5 & B6 & B7).
  repeat split; congruence.
Qed.

Lemma quiet_ret {A} (a : A) : quiet (ret a).
Proof. intros w. apply same_run_refl. Qed.

Lemma quiet_mret {A} (a : A) : quiet (mret a).
Proof. intros w. apply same_run_refl. Qed.

Lemma quiet_lift {A} (r : exn + A) : quiet (lift r).
Proof. intros w. apply same_run_refl. Qed.

Lemma quiet_gets {A} (f : world -> A) : quiet (gets f).
Proof. intros w. apply same_run_refl. Qed.

Lemma quiet_print (line : string) : quiet (print line).
Proof. intros w. repeat split. Qed.

Lemma quiet_time_now : quiet time_now.
Proof. intros w. repeat split. Qed.

Lemma quiet_os_makedirs (path : string) : quiet (os_makedirs path).
Proof. intros w. repeat split. Qed.

Lemma quiet_bind {A B} (m : M A) (k : A -> M B) :
  quiet m -> (forall a, quiet (k a)) -> quiet (m ≫= k).
Proof.
  intros Hm Hk w. unfold mbind, M_bind, bind.
  specialize (Hm w). destruct (m w) as [[e|a] w1]; simpl in *; [exact Hm|].
  exact (same_run_trans _ _ _ Hm (Hk a w1)).
Qed.

Lemma quiet_try_except {A} (m : M A) (h : exn -> M A) :
  quiet m -> (forall e, quiet (h e)) -> quiet (try_except m h).
Proof.
  intros Hm Hh w. unfold try_except.
  specialize (Hm w). destruct (m w) as [[e|a] w1]; simpl in *; [|exact Hm].
  exact (same_run_trans _ _ _ Hm (Hh e w1)).
Qed.

Lemma quiet_when (b : bool) (m : M unit) : quiet m -> quiet (when b m).
Proof. intros Hm. destruct b; [exact Hm | apply quiet_ret]. Qed.

Ltac quiet_step :=
  first
    [ apply quiet_bind; [|intros ?]
    | apply quiet_try_except; [|intros ?]
    | apply quiet_when
    | apply quiet_print | apply quiet_gets | apply quiet_lift
    | apply quiet_mret | apply quiet_ret
    | apply quiet_time_now | apply quiet_os_makedirs
    | match goal with
      | |- quiet (if ?b then _ else _) => destruct b
      | |- quiet (match ?x with _ => _ end) => destruct x
      end ].

Lemma quiet_percent (a b : Z) : quiet (percent a b).
Proof. unfold percent. repeat quiet_step. Qed.

Lemma quiet_rate_of (elapsed : float) : quiet (rate_of elapsed).
Proof. unfold rate_of. repeat quiet_step. Qed.

Lemma quiet_time_estimate (c r : pynum) : quiet (time_estimate c r).
Proof. unfold time_estimate. repeat quiet_step. Qed.

Lemma quiet_final_report (c : pynum) (st : float) : quiet (final_report c st).
Proof.
  unfold final_report.
  repeat first [ apply quiet_percent | apply quiet_rate_of
               | apply quiet_time_estimate | quiet_step ].
Qed.

Lemma quiet_announce (args : Args) (cs : string) : quiet (announce args cs).
Proof. unfold announce. repeat quiet_step. Qed.

(** The final report catches what it raises. *)
Lemma final_report_returns (c : pynum) (st : float) (w : world) :
  (final_report c st w).1 = inr tt.
Proof.
  unfold final_report, try_except.
  match goal with |- context [?m w] => destruct (m w) as [[e|[]] w1] end;
    reflexivity.
Qed.

End Quiet.

(** ** Invariants of a run *)

Section Invariant.

Context {F : FloatOps} {R : RandomSource} {E : Env}.

(** [I] is a property of worlds that printing, the clock, the list of
    dispatched tasks and the identity of the executing process do not
    affect, and that every worker keeps, whether it runs to its end or is
    terminated in flight. *)
Variable I : world -> Prop.
Hypothesis I_same : forall w w', same_run w w' -> I w -> I w'.
Hypothesis I_dispatched : forall w v, I w -> I (with_dispatched v w).
Hypothesis I_cur_pid : forall w p, I w -> I (with_cur_pid p w).
Hypothesis I_worker : forall t w, I w -> I (worker t w).2.
Hypothesis I_stopped : forall c t w, I w -> I (worker_until c t w).2.

Abbreviation keeps := (keeps_inv I).

Lemma keeps_quiet {A} (m : M A) : quiet m -> keeps m.
Proof. intros Hq w Hw. exact (I_same _ _ (Hq w) Hw). Qed.

Lemma keeps_bind {A B} (m : M A) (k : A -> M B) :
  keeps m -> (forall a, keeps (k a)) -> keeps (m ≫= k).
Proof.
  intros Hm Hk w Hw. unfold mbind, M_bind, bind.
  specialize (Hm w Hw). destruct (m w) as [[e|a] w1]; simpl in *; [exact Hm|].
  exact (Hk a w1 Hm).
Qed.

Lemma keeps_run_on (pid : Z) (t : task) : keeps (run_on pid (worker t)).
Proof.
  intros w Hw. unfold run_on.
  pose proof (I_worker t _ (I_cur_pid w pid Hw)) as H.
  destruct (worker t (with_cur_pid pid w)) as [r w1]. simpl in *.
  now apply I_cur_pid.
Qed.

Lemma keeps_run_workers (sched : list (Z * task)) : keeps (run_workers sched).
Proof.
  induction sched as [|[pid t] rest IH]; simpl.
  - apply keeps_quiet, quiet_mret.
  - apply keeps_bind; [apply keeps_run_on | intros _; exact IH].
Qed.

Lemma keeps_stop_on (pid : Z) (c : cut) (t : task) : keeps (stop_on pid c t).
Proof.
  intros w Hw. unfold stop_on.
  pose proof (I_stopped c t _ (I_cur_pid w pid Hw)) as H.
  destruct (worker_until c t (with_cur_pid pid w)) as [r w1]. simpl in *.
  now apply I_cur_pid.
Qed.

Lemma keeps_run_stopped (sched : list (Z * cut * task)) : keeps (run_stopped sched).
Proof.
  induction sched as [|[[pid c] t] rest IH]; simpl.
  - apply keeps_quiet, quiet_mret.
  - apply keeps_bind; [apply keeps_stop_on | intros _; exact IH].
Qed.

Lemma keeps_pool_call (k : nat) (ts : list task) : keeps (pool_call k ts).
Proof.
  unfold pool_call. apply keeps_bind.
  - intros w Hw. simpl. now apply I_dispatched.
  - intros _. apply keeps_bind; [apply keeps_run_workers | intros _].
    destruct (pool_interrupted k); [apply keeps_run_stopped|].
    apply keeps_quiet, quiet_ret.
Qed.

Lemma keeps_unlimited_loop (fuel k : nat) (args : Args) (cs : string)
                           (st : float) (i0 : Z) :
  keeps (unlimited_loop fuel k args cs st i0).
Proof.
  revert k i0. induction fuel as [|fuel IH]; intros k i0; simpl;
    (destruct (interrupted_early k); [apply keeps_quiet, quiet_mret|]);
    (apply keeps_bind; [apply keeps_pool_call | intros _]).
  - apply keeps_quiet, quiet_mret.
  - destruct (pool_interrupted k); [apply keeps_quiet, quiet_mret|].
    apply keeps_bind; [apply keeps_quiet, quiet_time_now | intros now_].
    apply keeps_bind; [apply keeps_quiet, quiet_rate_of | intros rate].
    apply keeps_bind; [apply keeps_quiet, quiet_gets | intros tc].
    apply keeps_bind; [apply keeps_quiet, quiet_print | intros _].
    apply IH.
Qed.

Lemma keeps_unlimited_mode (args : Args) (cs : string) (st : float) :
  keeps (unlimited_mode args cs st).
Proof.
  unfold unlimited_mode.
  apply keeps_bind; [apply keeps_quiet, quiet_print | intros _].
  apply keeps_bind; [apply keeps_unlimited_loop | intros _].
  apply keeps_quiet, quiet_print.
Qed.

Lemma keeps_bounded_mode (args : Args) (cs : string) :
  keeps (bounded_mode args cs).
Proof.
  unfold bounded_mode.
  apply keeps_bind; [apply keeps_pool_call | intros _].
  apply keeps_quiet, quiet_when, quiet_print.
Qed.

(** What [main] does once the counters are made. *)
Lemma keeps_run (args : Args) (cs : string) (combinations : pynum) :
  keeps (start_time ← time_now;
         os_makedirs "successful_codes";;
         (if tasks args =? -1 then unlimited_mode args cs start_time
          else bounded_mode args cs);;
         final_report combinations start_time).
Proof.
  apply keeps_bind; [apply keeps_quiet, quiet_time_now | intros st].
  apply keeps_bind; [apply keeps_quiet, quiet_os_makedirs | intros _].
  apply keeps_bind.
  - destruct (tasks args =? -1);
      [apply keeps_unlimited_mode | apply keeps_bounded_mode].
  - intros _. apply keeps_quiet, quiet_final_report.
Qed.

(** [P] holds before the counters are made, and making them
    establishes [I]. *)
Variable P : world -> Prop.
Hypothesis P_same : forall w w', same_run w w' -> P w -> P w'.
Hypothesis I_new : forall w, P w -> I (new_counters w).2.

Lemma main_invariant (args : Args) (w : world) :
  P w -> P (main args w).2 \/ I (main args w).2.
Proof.
  intros Hw. unfold main.
  set (cs := get_charset _ _ _ _ _ _).
  destruct (String.eqb cs "").
  { left. exact (P_same _ _ (quiet_print _ w) Hw). }
  pose proof (quiet_announce args cs w) as Hq.
  destruct (announce args cs w) as [[e|c] w1] eqn:Ha; simpl in Hq.
  { left. rewrite (bind_inl _ _ _ _ _ Ha). exact (P_same _ _ Hq Hw). }
  right. rewrite (bind_inr _ _ _ _ _ Ha).
  pose proof (I_new w1 (P_same _ _ Hq Hw)) as Hn.
  rewrite (bind_inr new_counters _ w1 tt (new_counters w1).2 eq_refl).
  exact (keeps_run args cs c _ Hn).
Qed.

(** With a character set that is not empty and opening lines that do
    not raise, [main] makes the counters and goes into the run. *)
Lemma main_invariant_reached (args : Args) (w : world) (c : pynum) :
  let cs := get_charset (negb (no_lowercase args)) (negb (no_uppercase args))
              (negb (no_digits args)) (negb (no_symbols args))
              (whitespace args) (charset args) in
  cs <> "" -> (announce args cs w).1 = inr c ->
  P w -> I (main args w).2.
Proof.
  intros cs Hcs Hc Hw. unfold main. fold cs.
  destruct (String.eqb_spec cs "") as [Hcs'|_]; [contradiction|].
  pose proof (quiet_announce args cs w) as Hq.
  destruct (announce args cs w) as [r w1] eqn:Ha. simpl in Hq, Hc. subst r.
  rewrite (bind_inr _ _ _ _ _ Ha).
  pose proof (I_new w1 (P_same _ _ Hq Hw)) as Hn.
  rewrite (bind_inr new_counters _ w1 tt (new_counters w1).2 eq_refl).
  exact (keeps_run args cs c _ Hn).
Qed.

End Invariant.

(** ** The counters *)

Section Counters.

Context {F : FloatOps} {R : RandomSource} {E : Env}.

Lemma worker_content_pid (t : task) (w : world) pid content w1 :
  worker_content t w = (inr (pid, content), w1) -> pid = cur_pid w.
Proof.
  unfold worker_content, os_getpid, random_seed, gets, modify,
    mbind, M_bind, bind, mret, M_ret, ret.
  destruct (generate_random_c_content _ _ _) as [[e|c] w2]; intros H;
    [discriminate H | now injection H as <- _ _].
Qed.

(** A worker either raises while it draws its content, having touched
    the random state of its process only, or goes through its probe and
    its locked block. *)
Lemma worker_cases (t : task) (w : world) :
  (exists e g, worker t w = (inl e, with_rng g w))
  \/ (exists content g lines,
        worker_content t w = (inr (cur_pid w, content), with_rng g w)
        /\ (worker t w).2 = worker_world t content lines (with_rng g w)
        /\ ((worker t w).1 = inr (worker_ok t content (with_rng g w))
            \/ total_count w + 1 = 0)).
Proof.
  destruct (worker_content_world t w) as [g Hg].
  destruct (worker_content t w) as [[e|[pid content]] w1] eqn:Hc;
    simpl in Hg; subst w1.
  - left. exists e, g. now rewrite worker_split, Hc.
  - right. pose proof (worker_content_pid _ _ _ _ _ Hc) as ->.
    destruct (worker_eval t w content (with_rng g w) Hc) as (lines & Hw & Hr).
    exists content, g, lines. repeat split; assumption.
Qed.

Lemma monotone_log_snoc (l : list (Z * Z)) (p q : Z * Z) :
  monotone_log l -> last l = Some p -> p.1 <= q.1 -> p.2 <= q.2 ->
  monotone_log (l ++ [q]).
Proof.
  intros Hl Hp H1 H2. induction l as [|a l IH]; [discriminate Hp|].
  destruct l as [|b l].
  - injection Hp as ->. simpl. tauto.
  - destruct Hl as [Hab Hl]. specialize (IH Hl Hp).
    change ((a :: b :: l) ++ [q])%list with (a :: (b :: l) ++ [q])%list.
    split; [exact Hab | exact IH].
Qed.

Lemma counters_of_eq (w w' : world) :
  counters_of w' = counters_of w ->
  successful_count w' = successful_count w /\ total_count w' = total_count w.
Proof. unfold counters_of. intros H. injection H as -> -> _. tauto. Qed.

Lemma counters_ok_same (w w' : world) :
  counters_of w' = counters_of w -> counters_ok w -> counters_ok w'.
Proof.
  unfold counters_of, counters_ok. intros H. injection H as -> -> ->. tauto.
Qed.

Lemma counters_ok_bounds (w : world) :
  counters_ok w -> 0 <= successful_count w <= total_count w.
Proof.
  intros (Hlast & _ & Hall).
  apply last_Some_elem_of in Hlast.
  rewrite Forall_forall in Hall. exact (Hall _ Hlast).
Qed.

Lemma counters_ok_after_count (ok : bool) (lines : list string) (w : world) :
  counters_ok w -> counters_ok (after_count ok lines w).
Proof.
  intros Hw. pose proof (counters_ok_bounds w Hw) as Hb.
  destruct Hw as (Hlast & Hmono & Hall).
  assert (H1 : monotone_log
                 (counter_log w ++ [(successful_count w, total_count w + 1)])).
  { eapply monotone_log_snoc; eauto; simpl; lia. }
  unfold counters_ok, after_count.
  cbn [counter_log successful_count total_count].
  destruct ok.
  - change (counter_log w ++ [?a; ?b])%list
      with (counter_log w ++ [a] ++ [b])%list.
    rewrite app_assoc. split; [apply last_snoc|]. split.
    + eapply monotone_log_snoc; [exact H1 | apply last_snoc | simpl; lia..].
    + rewrite !Forall_app. repeat split; try assumption;
        repeat constructor; simpl; lia.
  - split; [apply last_snoc|]. split; [exact H1|].
    rewrite Forall_app. split; [assumption|].
    repeat constructor; simpl; lia.
Qed.

Lemma worker_keeps_counters_ok (t : task) (w : world) :
  counters_ok w -> counters_ok (worker t w).2.
Proof.
  intros Hw.
  destruct (worker_cases t w) as [(e & g & H)|(content & g & lines & _ & H & _)];
    rewrite H.
  - exact Hw.
  - unfold worker_world. apply counters_ok_after_count. exact Hw.
Qed.

(** A worker over a character set that is not empty, in a world whose
    counters are sound, returns and counts one attempt, and one success
    at most. *)
Lemma run_on_worker_counts (pid : Z) (t : task) (w : world) :
  counters_ok w -> t_charset t <> "" ->
  exists b w',
    run_on pid (worker t) w = (inr b, w')
    /\ counters_ok w'
    /\ total_count w' = total_count w + 1
    /\ successful_count w' = successful_count w + (if b then 1 else 0).
Proof.
  intros Hw Hcs. unfold run_on.
  set (wp := with_cur_pid pid w).
  assert (Hwp : counters_ok wp) by exact Hw.
  pose proof (counters_ok_bounds wp Hwp) as Hb.
  destruct (worker_content_returns t wp Hcs) as (content & g & Hc & _).
  destruct (worker_eval t wp content (with_rng g wp) Hc) as (lines & Hwd & Hr).
  destruct Hr as [Hr|Hr]; [|cbn [total_count with_rng] in Hr; lia].
  destruct (worker t wp) as [r w1]. simpl in Hwd, Hr. subst r w1.
  eexists _, _. split; [reflexivity|].
  split; [|split; [reflexivity|]].
  - apply (counters_ok_same (worker_world t content lines (with_rng g wp)));
      [reflexivity|].
    unfold worker_world. apply counters_ok_after_count. exact Hw.
  - unfold worker_world, worker_ok, after_count.
    cbn [successful_count total_count with_cur_pid after_probe with_rng cur_pid].
    change (successful_count wp) with (successful_count w).
    destruct (exit_zero _); lia.
Qed.

Lemma run_workers_counts (sched : list (Z * task)) (w : world) :
  counters_ok w ->
  Forall (fun pt => t_charset pt.2 <> "") sched ->
  exists w',
    run_workers sched w = (inr tt, w')
    /\ counters_ok w'
    /\ total_count w' = total_count w + Z.of_nat (List.length sched)
    /\ successful_count w <= successful_count w'
       <= successful_count w + Z.of_nat (List.length sched).
Proof.
  intros Hw Hall. revert w Hw.
  induction Hall as [|[pid t] rest Hcs _ IH]; intros w Hw.
  - exists w. split; [reflexivity|]. split; [exact Hw|]. simpl. lia.
  - destruct (run_on_worker_counts pid t w Hw Hcs) as (b & w1 & Hrun & Hok & Ht & Hs).
    destruct (IH w1 Hok) as (w2 & Hrest & Hok2 & Ht2 & Hs2).
    exists w2. cbn [run_workers].
    rewrite (bind_inr _ _ _ _ _ Hrun), Hrest.
    split; [reflexivity|]. split; [exact Hok2|].
    cbn [List.length]. destruct b; lia.
Qed.

End Counters.

(** ** Workers that are terminated in flight *)

Section Stopped.

Context {F : FloatOps} {R : RandomSource} {E : Env}.

(** Up to a cut inside [test_compilation], a worker touches the files,
    draws a uuid and launches the compiler if it got that far; the
    counters are as before. *)
Lemma test_compilation_until_effect (p : probe_cut) (content : string) (pid : Z)
    (compiler : string) (timeout : Z) (w : world) :
  let w' := (test_compilation_until p content pid compiler timeout w).2 in
  dispatched w' = dispatched w /\ cur_pid w' = cur_pid w
  /\ counters_of w' = counters_of w
  /\ spawn_log w'
     = (spawn_log w ++ (if launched (Probing p)
                        then [probe_request pid compiler timeout w] else []))%list.
Proof.
  unfold test_compilation_until, uuid4_hex_next, write_file, subprocess_run,
    try_except, remove_if_exists, os_path_exists, os_remove, when,
    modify, gets, mbind, M_bind, bind, mret, M_ret, ret,
    probe_request, probe_c_file, probe_filename.
  destruct p; cbn [launched fst snd files spawn_log uuid_calls dispatched cur_pid
                   with_files with_uuid_calls];
    rewrite ?app_nil_r; try (repeat split; reflexivity).
  - destruct (run_subprocess _ _ _) as [[rc err|e] fs]; repeat split; reflexivity.
  - destruct (run_subprocess _ _ _) as [[rc err|e] fs];
      unfold with_spawn, with_files, with_uuid_calls;
      cbn [fst snd files].
    + destruct (rc =? 0); cbn [negb];
        [repeat split; reflexivity|].
      match goal with
      | |- context [match ?m !! ?k with _ => _ end] => destruct (m !! k)
      end; cbn [fst snd files]; [repeat split; reflexivity|].
      destruct (bool_decide _); [|repeat split; reflexivity].
      cbn [fst snd files].
      match goal with
      | |- context [match ?m !! ?k with _ => _ end] => destruct (m !! k)
      end; repeat split; reflexivity.
    + destruct (bool_decide _); [|repeat split; reflexivity].
      cbn [fst snd files].
      match goal with
      | |- context [match ?m !! ?k with _ => _ end] => destruct (m !! k)
      end; repeat split; reflexivity.
Qed.

(** Up to a cut inside the locked block, a worker writes the counters
    as the whole block does, or not at all. *)
Lemma worker_locked_until_effect (l : lock_cut) (t : task) (ok : bool)
    (fn : option string) (msg : string) (w : world) :
  let w' := (worker_locked_until l t ok fn msg w).2 in
  dispatched w' = dispatched w /\ cur_pid w' = cur_pid w
  /\ spawn_log w' = spawn_log w
  /\ exists b,
       counters_of w'
       = counters_of (if counted (Locking l) then after_count b [] w else w).
Proof.
  unfold worker_locked_until, set_total_count, set_successful_count, print, when,
    modify, gets, mbind, M_bind, bind, mret, M_ret, ret, counters_of, after_count.
  destruct l; [| |destruct ok|destruct ok; [|destruct (t_show_errors t)]];
    cbn [counted fst snd];
    (split; [reflexivity|split; [reflexivity|split; [reflexivity|]]]);
    first [ exists true; cbn; rewrite <- ?app_assoc; reflexivity
          | exists false; cbn; rewrite <- ?app_assoc; reflexivity ].
Qed.

(** A terminated worker is the first statements of [worker] followed by
    a part of the probe, or by the probe and a part of the locked
    block. *)
Lemma worker_until_split (c : cut) (t : task) (w : world) :
  (worker_until c t w).2 =
  match c with
  | Drawing n =>
      (choices (Nat.min n (Z.to_nat (t_byte_size t))) (t_charset t)
         (random_seed (cur_pid w + task_id t) w).2).2
  | Probing p =>
      match worker_content t w with
      | (inl e, w1) => w1
      | (inr (pid, content), w1) =>
          (test_compilation_until p content pid (t_compiler t) default_timeout w1).2
      end
  | Locking l =>
      match worker_content t w with
      | (inl e, w1) => w1
      | (inr (pid, content), w1) =>
          match test_compilation content pid (t_compiler t) default_timeout w1 with
          | (inl e, w2) => w2
          | (inr r, w2) => (worker_locked_until l t r.1.1.1 r.1.2 r.2 w2).2
          end
      end
  end.
Proof.
  unfold worker_until, worker_content, os_getpid, random_seed, gets, modify,
    mbind, M_bind, bind, mret, M_ret, ret.
  destruct c as [n|p|l]; cbn [fst snd].
  - destruct (choices _ _ _) as [[e|x] w1]; reflexivity.
  - destruct (generate_random_c_content _ _ _) as [[e|content] w1]; reflexivity.
  - destruct (generate_random_c_content _ _ _) as [[e|content] w1]; [reflexivity|].
    destruct (test_compilation _ _ _ _ _) as [[e|r] w2]; reflexivity.
Qed.

(** What a terminated worker leaves: the tasks handed over and the
    executing process are as before; it launched one compiler, with the
    default timeout, if it got that far, and none otherwise; and it wrote
    the counters as a whole execution does, if it got that far, and not
    at all otherwise. *)
Lemma worker_until_effect (c : cut) (t : task) (w : world) :
  let w' := (worker_until c t w).2 in
  dispatched w' = dispatched w /\ cur_pid w' = cur_pid w
  /\ exists reqs b,
       spawn_log w' = (spawn_log w ++ reqs)%list
       /\ Forall (compile_call (t_compiler t)) reqs
       /\ (counters_of w' = counters_of w
           \/ counters_of w' = counters_of (after_count b [] w))
       /\ (t_charset t <> "" ->
           List.length reqs = (if launched c then 1 else 0)%nat
           /\ counters_of w'
              = counters_of (if counted c then after_count b [] w else w)).
Proof.
  cbv zeta. rewrite worker_until_split.
  assert (Hnone : forall g,
    dispatched (with_rng g w) = dispatched w /\ cur_pid (with_rng g w) = cur_pid w
    /\ exists reqs b,
         spawn_log (with_rng g w) = (spawn_log w ++ reqs)%list
         /\ Forall (compile_call (t_compiler t)) reqs
         /\ (counters_of (with_rng g w) = counters_of w
             \/ counters_of (with_rng g w) = counters_of (after_count b [] w))
         /\ (launched c = false -> counted c = false ->
             List.length reqs = (if launched c then 1 else 0)%nat
             /\ counters_of (with_rng g w)
                = counters_of (if counted c then after_count b [] w else w))).
  { intros g. split; [reflexivity|]. split; [reflexivity|].
    exists [], false. rewrite app_nil_r. split; [reflexivity|].
    split; [constructor|]. split; [now left|].
    intros -> ->. split; reflexivity. }
  destruct c as [n|p|l].
  - unfold random_seed, modify. cbn [snd].
    match goal with
    | |- context [choices ?k ?cs ?w1] => destruct (choices_world k cs w1) as [g Hg]
    end.
    rewrite Hg. change (with_rng g (with_rng ?g0 w)) with (with_rng g w).
    destruct (Hnone g) as (Hd & Hp & reqs & b & Hs & Hc & Hk & Hcs).
    split; [exact Hd|]. split; [exact Hp|]. exists reqs, b.
    repeat (split; [assumption|]). intros _. now apply Hcs.
  - destruct (worker_content_world t w) as [g Hg].
    destruct (worker_content t w) as [[e|[pid content]] w1] eqn:Hwc;
      cbn [snd] in Hg; subst w1.
    + destruct (Hnone g) as (Hd & Hp & reqs & b & Hs & Hc & Hk & _).
      split; [exact Hd|]. split; [exact Hp|]. exists reqs, b.
      repeat (split; [assumption|]). intros Hcs.
      destruct (worker_content_returns t w Hcs) as (content & g' & Hr & _).
      congruence.
    + pose proof (worker_content_pid _ _ _ _ _ Hwc) as ->.
      destruct (test_compilation_until_effect p content (cur_pid w) (t_compiler t)
                  default_timeout (with_rng g w)) as (Hd & Hp & Hc & Hs).
      split; [exact Hd|]. split; [exact Hp|].
      eexists _, false. split; [exact Hs|]. split; [|split; [left; exact Hc|]].
      * destruct (launched (Probing p)); repeat constructor.
        eexists. split; reflexivity.
      * intros _. split; [destruct (launched (Probing p)); reflexivity|].
        exact Hc.
  - destruct (worker_content_world t w) as [g Hg].
    destruct (worker_content t w) as [[e|[pid content]] w1] eqn:Hwc;
      cbn [snd] in Hg; subst w1.
    + destruct (Hnone g) as (Hd & Hp & reqs & b & Hs & Hc & Hk & _).
      split; [exact Hd|]. split; [exact Hp|]. exists reqs, b.
      repeat (split; [assumption|]). intros Hcs.
      destruct (worker_content_returns t w Hcs) as (content & g' & Hr & _).
      congruence.
    + pose proof (worker_content_pid _ _ _ _ _ Hwc) as ->.
      rewrite test_compilation_eval. cbv zeta.
      match goal with
      | |- context [worker_locked_until l t ?ok ?fn ?msg ?w2] =>
          destruct (worker_locked_until_effect l t ok fn msg w2)
            as (Hd & Hp & Hs & b & Hc)
      end.
      split; [exact Hd|]. split; [exact Hp|].
      eexists [_], b. split; [exact Hs|]. split; [|split].
      * repeat constructor. eexists. split; reflexivity.
      * destruct (counted (Locking l)); [right | left]; exact Hc.
      * intros _. split; [reflexivity|].
        destruct (counted (Locking l)); exact Hc.
Qed.

Lemma worker_until_keeps_counters_ok (c : cut) (t : task) (w : world) :
  counters_ok w -> counters_ok (worker_until c t w).2.
Proof.
  intros Hw.
  destruct (worker_until_effect c t w) as (_ & _ & reqs & b & _ & _ & [Hc|Hc] & _).
  - exact (counters_ok_same _ _ Hc Hw).
  - apply (counters_ok_same _ _ Hc). now apply counters_ok_after_count.
Qed.

(** When the pool runs every task it was handed to its end, no execution
    is left to be terminated. *)
Lemma in_flight_nil (k : nat) (ts : list task) :
  (forall t, t ∈ ts -> t ∈ (pool_run k ts).*2) -> in_flight k ts = [].
Proof.
  intros H. unfold in_flight.
  destruct (list_difference ts (pool_run k ts).*2) as [|t l] eqn:Hd; [reflexivity|].
  assert (Ht : t ∈ list_difference ts (pool_run k ts).*2)
    by (rewrite Hd; apply list_elem_of_here).
  apply list_elem_of_difference in Ht as [Hin Hout].
  destruct (Hout (H t Hin)).
Qed.

(** A pool call in which no execution is terminated is the executions
    that run to their end. *)
Lemma pool_call_complete (k : nat) (ts : list task) (w w' : world) :
  in_flight k ts = [] ->
  run_workers (pool_run k ts) (with_dispatched (dispatched w ++ ts) w) = (inr tt, w') ->
  pool_call k ts w = (inr tt, w').
Proof.
  intros Hnil Hrun. unfold pool_call.
  erewrite (bind_inr (modify _)); [|reflexivity].
  rewrite (bind_inr _ _ _ _ _ Hrun), Hnil.
  destruct (pool_interrupted k); reflexivity.
Qed.

Lemma with_stdout_same (w : world) : with_stdout (stdout w ++ []) w = w.
Proof. rewrite app_nil_r. destruct w; reflexivity. Qed.

(** The last cut is the whole locked block without its progress line. *)
Lemma worker_locked_until_last (t : task) (ok : bool) (fn : option string)
    (msg : string) (w : world) :
  let w' := (worker_locked_until Reported t ok fn msg w).2 in
  exists lines, (worker_locked t ok fn msg w).2 = with_stdout (stdout w' ++ lines) w'.
Proof.
  cbv zeta.
  unfold worker_locked, worker_locked_until, percent, lift, py_truediv, when,
    set_total_count, set_successful_count, print, modify, gets,
    mbind, M_bind, bind, mret, M_ret, ret.
  destruct ok; [|destruct (t_show_errors t)]; cbn [fst snd total_count with_counters with_stdout successful_count];
    destruct (_ `mod` 100 =? 0);
    try (destruct (_ =? 0));
    cbn [fst snd];
    first [ eexists; reflexivity | exists []; now rewrite with_stdout_same ].
Qed.

(** A worker that runs to its end does what a worker terminated at the
    last cut does, and prints its progress line when one is due. *)
Lemma worker_until_last (t : task) (w : world) :
  let w' := (worker_until (Locking Reported) t w).2 in
  exists lines, (worker t w).2 = with_stdout (stdout w' ++ lines) w'.
Proof.
  cbv zeta. rewrite worker_until_split, worker_split.
  destruct (worker_content t w) as [[e|[pid content]] w1].
  - exists []. now rewrite with_stdout_same.
  - rewrite test_compilation_eval. cbv zeta.
    match goal with
    | |- context [worker_locked t ?ok ?fn ?msg ?w2] =>
        destruct (worker_locked_until_last t ok fn msg w2) as [lines H];
        destruct (worker_locked t ok fn msg w2) as [[e|[]] w3]
    end; exists lines; exact H.
Qed.

(** The last cut inside [test_compilation] is the whole of it without
    the removal of the object file. *)
Lemma test_compilation_until_last (content : string) (pid : Z)
    (compiler : string) (timeout : Z) (w : world) :
  let w' := (test_compilation_until Removed content pid compiler timeout w).2 in
  (test_compilation content pid compiler timeout w).2
  = with_files (delete (probe_o_file pid w) (files w')) w'.
Proof.
  cbv zeta. rewrite test_compilation_eval. cbv zeta.
  unfold test_compilation_until, uuid4_hex_next, write_file, subprocess_run,
    try_except, modify, mbind, M_bind, bind, mret, M_ret, ret,
    probe_compile, probe_request, probe_o_file, probe_c_file, probe_filename.
  cbn [fst snd files spawn_log uuid_calls with_files with_uuid_calls].
  destruct (run_subprocess _ _ _) as [[rc err|e] fs];
    cbn [fst snd exit_zero].
  - destruct (rc =? 0); cbn [negb when fst snd]; [reflexivity|].
    unfold os_remove. cbn [files with_spawn].
    match goal with
    | |- context [match ?m !! ?k with _ => _ end] => destruct (m !! k) eqn:Hc
    end; cbn [fst snd].
    + reflexivity.
    + rewrite remove_if_exists_eval. cbn [snd files with_spawn with_files].
      rewrite (delete_id fs _ Hc). reflexivity.
  - rewrite remove_if_exists_eval. reflexivity.
Qed.

End Stopped.

(** ** main *)

Section Main.

Context {F : FloatOps} {R : RandomSource} {E : Env}.

Lemma format_large_number_int_returns (v : Z) :
  exists s, format_large_number (PyInt v) = inr s.
Proof.
  destruct (Z.lt_ge_cases v 1000000) as [Hv|Hv].
  - eexists. now apply format_large_number_small.
  - destruct (format_large_number_large v Hv) as (e & _ & _ & Hs). eauto.
Qed.

Lemma announce_returns (args : Args) (cs : string) (w : world) :
  0 <= byte_size args ->
  (announce args cs w).1 = inr (PyInt (PyStr.len cs ^ byte_size args)).
Proof.
  intros HN.
  destruct (format_large_number_int_returns (PyStr.len cs ^ byte_size args))
    as [s Hs].
  unfold announce, lift, print, modify, mbind, M_bind, bind, mret, M_ret, ret.
  rewrite (calculate_combinations_exact _ _ HN). cbv beta iota.
  rewrite Hs. reflexivity.
Qed.

Lemma counters_ok_new (w : world) : counters_ok (new_counters w).2.
Proof.
  unfold counters_ok, snapshot_ok. simpl. split; [reflexivity|].
  split; [tauto|]. constructor; [simpl; lia | constructor].
Qed.

(** The counters are sound at the end of every run that made them. *)
Lemma main_counters_ok (args : Args) (w : world) :
  args_charset args <> "" -> 0 <= byte_size args ->
  counters_ok (main args w).2.
Proof.
  intros Hcs HN.
  apply (main_invariant_reached counters_ok) with
    (P := fun _ => True)
    (c := PyInt (PyStr.len (args_charset args) ^ byte_size args));
    try assumption; try exact Logic.I.
  - intros w1 w2 (_ & Hc & _). now apply counters_ok_same.
  - intros w1 v H. exact H.
  - intros w1 p H. exact H.
  - intros t w1. apply worker_keeps_counters_ok.
  - intros c t w1. apply worker_until_keeps_counters_ok.
  - intros w1 w2 _ _. exact Logic.I.
  - intros w1 _. apply counters_ok_new.
  - now apply announce_returns.
Qed.

Lemma length_range (n : Z) : 0 <= n -> Z.of_nat (List.length (range n)) = n.
Proof.
  intros H. unfold range. rewrite length_fmap, length_seq. lia.
Qed.

(** A run with a fixed, non-negative number of tasks in which the pool
    executes every task once: [main] returns, and every task was counted
    as one attempt. *)
Lemma main_bounded_counts (args : Args) (w : world) :
  args_charset args <> "" -> 0 <= byte_size args -> 0 <= tasks args ->
  (pool_run 0 (bounded_tasks args)).*2 ≡ₚ bounded_tasks args ->
  (main args w).1 = inr tt
  /\ total_count (main args w).2 = tasks args
  /\ 0 <= successful_count (main args w).2 <= tasks args.
Proof.
  intros Hcs HN HT Hperm.
  pose proof (announce_returns args (args_charset args) w HN) as Ha.
  unfold main. fold (args_charset args).
  destruct (String.eqb_spec (args_charset args) "") as [Hcs'|_]; [contradiction|].
  destruct (announce args (args_charset args) w) as [r w1] eqn:Han.
  simpl in Ha. subst r. rewrite (bind_inr _ _ _ _ _ Han).
  rewrite (bind_inr new_counters _ w1 tt _ eq_refl).
  erewrite (bind_inr time_now); [|reflexivity].
  erewrite (bind_inr (os_makedirs _)); [|reflexivity].
  destruct (Z.eqb_spec (tasks args) (-1)) as [Hm|_]; [lia|].
  match goal with
  | |- context [(bounded_mode _ _ ≫= _) ?x] => set (w4 := x)
  end.
  assert (Hok : counters_ok w4) by apply counters_ok_new.
  assert (Hall : Forall (fun pt => t_charset pt.2 <> "")
                        (pool_run 0 (bounded_tasks args))).
  { apply Forall_forall. intros [pid t] Hin. simpl.
    assert (Ht : t ∈ bounded_tasks args).
    { rewrite <- Hperm. apply list_elem_of_fmap. now exists (pid, t). }
    unfold bounded_tasks in Ht. apply list_elem_of_fmap in Ht as (i & -> & _).
    exact Hcs. }
  destruct (run_workers_counts _ (with_dispatched
              (dispatched w4 ++ bounded_tasks args) w4) Hok Hall)
    as (w5 & Hrun & Hok5 & Ht & Hs).
  assert (Hlen : Z.of_nat (List.length (pool_run 0 (bounded_tasks args)))
                 = tasks args).
  { rewrite <- (length_fmap snd), Hperm. unfold bounded_tasks.
    rewrite length_fmap. now apply length_range. }
  rewrite Hlen in Ht, Hs. cbn [total_count successful_count with_dispatched] in Ht, Hs.
  assert (Hpool : pool_call 0 (bounded_tasks args) w4 = (inr tt, w5)).
  { apply pool_call_complete; [|exact Hrun].
    apply in_flight_nil. intros t' Ht'. now rewrite Hperm. }
  pose proof (quiet_when (pool_interrupted 0)
                (print (PyStr.nl +:+ "Stopped by user")) (quiet_print _) w5) as Hq.
  assert (Hr : (when (pool_interrupted 0)
                  (print (PyStr.nl +:+ "Stopped by user")) w5).1 = inr tt)
    by (destruct (pool_interrupted 0); reflexivity).
  destruct (when (pool_interrupted 0) (print (PyStr.nl +:+ "Stopped by user")) w5)
    as [r w6] eqn:Hwhen.
  simpl in Hr, Hq. subst r.
  assert (Hmode : bounded_mode args (args_charset args) w4 = (inr tt, w6)).
  { unfold bounded_mode. fold (bounded_tasks args).
    rewrite (bind_inr _ _ _ _ _ Hpool). exact Hwhen. }
  rewrite (bind_inr _ _ _ _ _ Hmode).
  split; [apply final_report_returns|].
  match goal with
  | |- context [final_report ?c ?st w6] =>
      destruct (quiet_final_report c st w6) as (_ & Hc & _)
  end.
  destruct Hq as (_ & Hc' & _).
  destruct (counters_of_eq _ _ Hc) as [Hs1 Ht1].
  destruct (counters_of_eq _ _ Hc') as [Hs2 Ht2].
  subst w4. cbn [total_count successful_count new_counters modify snd
                 with_clock with_dirs fst] in Ht, Hs.
  rewrite Hs1, Ht1, Hs2, Ht2. lia.
Qed.

(** C3. In a run of [main] over a character set that is not empty and a
    length that is not negative, the ghost log holds the two counters
    after every write since they were made: each snapshot is at least
    the one before in both cells, has its successes between zero and its
    attempts, and the last one is the present value; this holds in both
    modes, interrupted or not. When the run has a fixed number [T >= 0]
    of tasks and the pool executes each of them once, [main] returns
    with the attempts equal to [T] and the successes between [0] and
    [T]. *)
Theorem counters_monotone_and_exact (args : Args) (w : world) :
  args_charset args <> "" -> 0 <= byte_size args ->
  counters_ok (main args w).2
  /\ (0 <= tasks args ->
      (pool_run 0 (bounded_tasks args)).*2 ≡ₚ bounded_tasks args ->
      (main args w).1 = inr tt
      /\ total_count (main args w).2 = tasks args
      /\ 0 <= successful_count (main args w).2 <= tasks args).
Proof.
  intros Hcs HN. split.
  - now apply main_counters_ok.
  - intros HT Hperm. now apply main_bounded_counts.
Qed.

(** C7. When the character set that [main] gets from its arguments is
    empty, [main] prints the error line and returns: no task is handed
    to the pool, no compiler is launched, no file is written, and the
    counters and their log are as they were. *)
Theorem empty_charset_stops_main (args : Args) (w : world) :
  args_charset args = "" ->
  exists w',
    main args w = (inr tt, w')
    /\ stdout w' = (stdout w ++ ["Error: At least one character type must be included"])%list
    /\ dispatched w' = dispatched w
    /\ spawn_log w' = spawn_log w
    /\ files w' = files w
    /\ counters_of w' = counters_of w.
Proof.
  intros Hcs. unfold main. fold (args_charset args). rewrite Hcs.
  eexists. split; [reflexivity|]. repeat split.
Qed.

(** The character set is empty exactly when the four classes are
    excluded, whitespace is not included and no custom character set is
    given, an empty one counting as none. *)
Lemma args_charset_empty_iff (args : Args) :
  args_charset args = "" <->
  no_lowercase args = true /\ no_uppercase args = true
  /\ no_digits args = true /\ no_symbols args = true
  /\ whitespace args = false /\ truthy (charset args) = false.
Proof.
  unfold args_charset, get_charset.
  destruct (charset args) as [[|c s]|]; simpl;
    destruct (no_lowercase args), (no_uppercase args), (no_digits args),
             (no_symbols args), (whitespace args); simpl;
    split; intros H; try discriminate H; try reflexivity;
    try (repeat split; reflexivity);
    try (destruct H as (? & ? & ? & ? & ? & ?); discriminate).
Qed.

End Main.

(** On the concrete environment: three tasks, each counted once. *)
Lemma counters_monotone_and_exact_witness :
  args_charset Demo.args_semicolon <> "" /\ 0 <= byte_size Demo.args_semicolon
  /\ counters_ok (main (E := Demo.env) Demo.args_semicolon Demo.w0).2
  /\ total_count (main (E := Demo.env) Demo.args_semicolon Demo.w0).2 = 3.
Proof.
  assert (Hcs : args_charset Demo.args_semicolon <> "") by discriminate.
  assert (HN : 0 <= byte_size Demo.args_semicolon) by (simpl; lia).
  destruct (counters_monotone_and_exact (E := Demo.env)
              Demo.args_semicolon Demo.w0 Hcs HN) as [Hok Hrun].
  split; [exact Hcs|]. split; [exact HN|]. split; [exact Hok|].
  assert (HT : 0 <= tasks Demo.args_semicolon) by (simpl; lia).
  assert (Hperm : (pool_run (Env := Demo.env) 0
                     (bounded_tasks Demo.args_semicolon)).*2
                  ≡ₚ bounded_tasks Demo.args_semicolon).
  { vm_compute. apply Permutation_refl. }
  exact (proj1 (proj2 (Hrun HT Hperm))).
Defined.

Lemma empty_charset_stops_main_witness :
  args_charset Demo.args_no_class = ""
  /\ exists w',
       main (E := Demo.env) Demo.args_no_class Demo.w0 = (inr tt, w')
       /\ dispatched w' = [] /\ spawn_log w' = [] /\ counter_log w' = [].
Proof.
  assert (Hcs : args_charset Demo.args_no_class = "") by reflexivity.
  split; [exact Hcs|].
  destruct (empty_charset_stops_main (E := Demo.env) Demo.args_no_class Demo.w0 Hcs)
    as (w' & Hm & _ & Hd & Hs & _ & Hc).
  exists w'. split; [exact Hm|]. split; [exact Hd|]. split; [exact Hs|].
  exact (f_equal snd Hc).
Defined.

Lemma compile_failure_is_a_result_witness :
  t_charset Demo.brace_task <> "" /\ 0 <= total_count Demo.w0
  /\ (exists w',
        test_compilation (E := Demo.env) "{" 1000 "gcc" 2 Demo.w0
        = (inr (false, "{", None, "error: expected expression"), w'))
  /\ exists w', worker (E := Demo.env) Demo.brace_task Demo.w0 = (inr false, w').
Proof.
  assert (Hcs : t_charset Demo.brace_task <> "") by discriminate.
  assert (Htc : 0 <= total_count Demo.w0) by (simpl; lia).
  destruct (compile_failure_is_a_result (E := Demo.env) "{" 1000 "gcc" 2 Demo.w0
              Demo.brace_task Demo.w0 Hcs Htc)
    as [Hprobe (body & w1 & w' & Hbody & Hworker & Hfalse)].
  split; [exact Hcs|]. split; [exact Htc|]. split.
  - assert (Hf : compile_failure
                   (probe_compile (E := Demo.env) "{" 1000 "gcc" 2 Demo.w0).1).
    { vm_compute. apply nonzero_exit. discriminate. }
    destruct (Hprobe Hf) as [w2 H2]. exists w2.
    assert (Hm : probe_message (probe_c_file (E := Demo.env) 1000 Demo.w0)
                   (probe_compile (E := Demo.env) "{" 1000 "gcc" 2 Demo.w0).1
                   (probe_compile (E := Demo.env) "{" 1000 "gcc" 2 Demo.w0).2
                 = "error: expected expression")
      by (vm_compute; reflexivity).
    rewrite Hm in H2. exact H2.
  - assert (H1 : (worker (E := Demo.env) Demo.brace_task Demo.w0).1 = inr false)
      by (vm_compute; reflexivity).
    rewrite Hworker in H1. simpl in H1. injection H1 as H1.
    exists w'. rewrite Hworker, H1. reflexivity.
Defined.

(** ** The timeout of the compiler calls *)

Section Timeout.

Context {F : FloatOps} {R : RandomSource} {E : Env}.

Lemma default_timeout_since_refl (w : world) : default_timeout_since w w.
Proof. exists []. split; [now rewrite app_nil_r | constructor]. Qed.

Lemma worker_default_timeout (w0 : world) (t : task) (w : world) :
  default_timeout_since w0 w -> default_timeout_since w0 (worker t w).2.
Proof.
  intros (l & Hl & Hall).
  destruct (worker_cases t w) as [(e & g & H)|(content & g & lines & _ & H & _)];
    rewrite H.
  - exists l. split; [exact Hl | exact Hall].
  - exists (l ++ [probe_request (cur_pid w) (t_compiler t) default_timeout
                   (with_rng g w)])%list.
    unfold worker_world. cbn [spawn_log after_count after_probe with_rng cur_pid].
    rewrite Hl, app_assoc. split; [reflexivity|].
    apply Forall_app. split; [exact Hall|]. repeat constructor.
Qed.

Lemma worker_until_default_timeout (w0 : world) (c : cut) (t : task) (w : world) :
  default_timeout_since w0 w -> default_timeout_since w0 (worker_until c t w).2.
Proof.
  intros (l & Hl & Hall).
  destruct (worker_until_effect c t w) as (_ & _ & reqs & b & Hs & Hcalls & _).
  exists (l ++ reqs)%list. rewrite Hs, Hl, app_assoc. split; [reflexivity|].
  apply Forall_app. split; [exact Hall|].
  eapply Forall_impl; [exact Hcalls|]. intros req (name & _ & Ht). exact Ht.
Qed.

(** Every compiler call of a run carries the default timeout. *)
Lemma main_default_timeout (args : Args) (w : world) :
  default_timeout_since w (main args w).2.
Proof.
  assert (H : default_timeout_since w (main args w).2
              \/ default_timeout_since w (main args w).2).
  { apply (main_invariant (default_timeout_since w)) with
      (P := default_timeout_since w).
    - intros w1 w2 (_ & _ & Hs & _) (l & Hl & Hall).
      exists l. split; [congruence | exact Hall].
    - intros w1 v H. exact H.
    - intros w1 p H. exact H.
    - intros t w1. apply worker_default_timeout.
    - intros c t w1. apply worker_until_default_timeout.
    - intros w1 w2 (_ & _ & Hs & _) (l & Hl & Hall).
      exists l. split; [congruence | exact Hall].
    - intros w1 H. exact H.
    - apply default_timeout_since_refl. }
  now destruct H.
Qed.

Lemma bind_ext {A B} (m m' : M A) (k k' : A -> M B) (w : world) :
  m w = m' w -> (forall a w1, k a w1 = k' a w1) ->
  (m ≫= k) w = (m' ≫= k') w.
Proof.
  intros Hm Hk. unfold mbind, M_bind, bind. rewrite Hm.
  destruct (m' w) as [[e|a] w1]; [reflexivity | apply Hk].
Qed.

Lemma unlimited_loop_with_timeout (fuel k : nat) (args : Args) (v : Z)
    (cs : string) (st : float) (i0 : Z) (w : world) :
  unlimited_loop fuel k (with_timeout v args) cs st i0 w
  = unlimited_loop fuel k args cs st i0 w.
Proof.
  revert k i0 w. induction fuel as [|fuel IH]; intros k i0 w; simpl.
  - reflexivity.
  - destruct (interrupted_early k); [reflexivity|].
    apply bind_ext; [reflexivity|]. intros _ w1.
    destruct (pool_interrupted k); [reflexivity|].
    apply bind_ext; [reflexivity|]. intros now_ w2.
    apply bind_ext; [reflexivity|]. intros rate w3.
    apply bind_ext; [reflexivity|]. intros tc w4.
    apply bind_ext; [reflexivity|]. intros _ w5.
    apply IH.
Qed.

(** [main] does not read the [timeout] of its arguments. *)
Lemma main_with_timeout (args : Args) (v : Z) (w : world) :
  main (with_timeout v args) w = main args w.
Proof.
  unfold main. cbn [with_timeout no_lowercase no_uppercase no_digits
                    no_symbols whitespace charset tasks].
  destruct (String.eqb _ ""); [reflexivity|].
  apply bind_ext; [reflexivity|]. intros c w1.
  apply bind_ext; [reflexivity|]. intros _ w2.
  apply bind_ext; [reflexivity|]. intros st w3.
  apply bind_ext; [reflexivity|]. intros _ w4.
  apply bind_ext; [|reflexivity].
  destruct (tasks args =? -1); [|reflexivity].
  unfold unlimited_mode.
  apply bind_ext; [reflexivity|]. intros _ w5.
  apply bind_ext; [|reflexivity].
  apply unlimited_loop_with_timeout.
Qed.

(** C1, at [--timeout 5]. Whatever the other arguments and the
    environment are, a run asked for a timeout of five seconds is the run
    asked for the default of two, and each compiler call that it makes
    carries the timeout two. The configured value does not reach
    [test_compilation]. *)
Theorem timeout_5_runs_as_timeout_2 (args : Args) (w : world) :
  timeout (with_timeout 5 args) = 5
  /\ main (with_timeout 5 args) w = main (with_timeout 2 args) w
  /\ exists l,
       spawn_log (main (with_timeout 5 args) w).2 = (spawn_log w ++ l)%list
       /\ Forall (fun req => run_timeout req = 2) l.
Proof.
  split; [reflexivity|]. split.
  - now rewrite !main_with_timeout.
  - exact (main_default_timeout (with_timeout 5 args) w).
Qed.

End Timeout.

(** On the concrete environment, with [--timeout 5]: three compiler calls,
    each with the timeout two. *)
Lemma timeout_5_demo :
  timeout Demo.args_semicolon = 5
  /\ run_timeout <$> spawn_log (main (E := Demo.env) Demo.args_semicolon Demo.w0).2
     = [2; 2; 2].
Proof. split; [reflexivity | vm_compute; reflexivity]. Qed.

(** ** The seed of a worker *)

Section Seed.

Context {F : FloatOps} {R : RandomSource} {E : Env}.

Lemma random_choice_seed (cs : string) (w w' : world) :
  same_seed w w' ->
  (random_choice cs w).1 = (random_choice cs w').1
  /\ same_seed (random_choice cs w).2 (random_choice cs w').2.
Proof.
  unfold same_seed, random_choice. intros H.
  destruct (String.length cs) as [|n]; [split; [reflexivity | exact H]|].
  rewrite H. destruct (randbelow (S n) (rng w' (cur_pid w'))) as [i st].
  destruct (String.get i cs); simpl; rewrite !Z.eqb_refl; split; reflexivity.
Qed.

Lemma choices_seed (n : nat) (cs : string) (w w' : world) :
  same_seed w w' ->
  (choices n cs w).1 = (choices n cs w').1
  /\ same_seed (choices n cs w).2 (choices n cs w').2.
Proof.
  revert w w'. induction n as [|n IH]; intros w w' H.
  - split; [reflexivity | exact H].
  - simpl. unfold mbind, M_bind, bind.
    destruct (random_choice_seed cs w w' H) as [Hr Hs].
    destruct (random_choice cs w) as [[e|c] w1],
             (random_choice cs w') as [[e'|c'] w1']; simpl in Hr, Hs;
      try discriminate Hr.
    + injection Hr as ->. split; [reflexivity | exact Hs].
    + injection Hr as ->.
      destruct (IH w1 w1' Hs) as [Hr2 Hs2].
      destruct (choices n cs w1) as [[e|l] w2],
               (choices n cs w1') as [[e'|l'] w2']; simpl in Hr2, Hs2;
        try discriminate Hr2; injection Hr2 as ->;
        split; [reflexivity | exact Hs2 | reflexivity | exact Hs2].
Qed.

(** The content of a worker is a function of the sum of its process id
    and its task id, of the length and of the character set: nothing
    else of the task or of the world enters. Two executions that agree
    on the process id, the task id, the length and the character set
    produce the same content. *)
Lemma worker_content_seed (t1 t2 : task) (w1 w2 : world) :
  cur_pid w1 + task_id t1 = cur_pid w2 + task_id t2 ->
  t_byte_size t1 = t_byte_size t2 -> t_charset t1 = t_charset t2 ->
  content_of (worker_content t1 w1).1 = content_of (worker_content t2 w2).1.
Proof.
  intros Hseed Hsize Hcs.
  unfold worker_content, generate_random_c_content, os_getpid, random_seed,
    gets, modify, mbind, M_bind, bind, mret, M_ret, ret.
  rewrite Hsize, Hcs, Hseed.
  match goal with
  | |- context [choices ?n ?cs ?wa] =>
      match goal with
      | |- context [choices n cs ?wb] =>
          lazymatch wa with
          | wb => fail
          | _ => destruct (choices_seed n cs wa wb) as [Hr _]
          end
      end
  end.
  { unfold same_seed. simpl. now rewrite !Z.eqb_refl. }
  match type of Hr with
  | (?a).1 = (?b).1 => destruct a as [[e|l] wa'], b as [[e'|l'] wb']
  end; simpl in Hr; try discriminate Hr; [reflexivity|].
  injection Hr as ->. reflexivity.
Qed.

(** C9, at the process ids 1001 and 1002. Task 1 in process 1001 and
    task 0 in process 1002 are seeded alike, with 1002: whatever the
    random source, the length and the character set are, the two
    workers produce the same content. *)
Theorem seed_collision_of_neighbours (args : Args) (cs : string)
                                     (w1 w2 : world) :
  1001 + task_id (make_task args cs 1) = 1002 + task_id (make_task args cs 0)
  /\ content_of (worker_content (make_task args cs 1) (with_cur_pid 1001 w1)).1
     = content_of (worker_content (make_task args cs 0) (with_cur_pid 1002 w2)).1.
Proof.
  split; [reflexivity|].
  apply worker_content_seed; reflexivity.
Qed.

End Seed.

(** On the concrete environment: the two neighbours draw the same five
    characters. *)
Lemma seed_collision_demo :
  content_of (worker_content (R := Demo.lcg)
                (make_task default_args "abcdefgh" 1) (with_cur_pid 1001 Demo.w0)).1
  = content_of (worker_content (R := Demo.lcg)
                  (make_task default_args "abcdefgh" 0) (with_cur_pid 1002 Demo.w0)).1
  /\ PyStr.len <$> content_of (worker_content (R := Demo.lcg)
                      (make_task default_args "abcdefgh" 1)
                      (with_cur_pid 1001 Demo.w0)).1
     = Some 5.
Proof. split; vm_compute; reflexivity. Qed.

(** * Further properties *)

From Stdlib Require Import Zify ZifyNat DecimalZ DecimalPos.

Ltac Zify.zify_post_hook ::= Z.to_euclidean_division_equations.

(** ** The character classes *)

(** X1. Without a custom character set, [get_charset] returns as many
    characters as the selected classes hold (26, 26, 10, 27 and 3), and no
    character twice: the classes do not overlap. *)
Theorem get_charset_size_nodup (l u d s ws : bool) :
  PyStr.len (get_charset l u d s ws None) = flag_charset_size l u d s ws
  /\ NoDup (PyStr.chars (get_charset l u d s ws None)).
Proof.
  split.
  - destruct l, u, d, s, ws; reflexivity.
  - destruct l, u, d, s, ws;
      (apply (bool_decide_unpack (NoDup _)); vm_compute; exact Logic.I).
Qed.

Lemma char_in_app (c : ascii) (a b : string) :
  char_in c (a +:+ b) <-> char_in c a \/ char_in c b.
Proof. unfold char_in. rewrite chars_app. apply in_app_iff. Qed.

Lemma char_in_empty (c : ascii) : char_in c "" <-> False.
Proof. unfold char_in. simpl. tauto. Qed.

Lemma classes_disjoint :
  NoDup (PyStr.chars (PyStr.ascii_lowercase +:+ PyStr.ascii_uppercase
                      +:+ PyStr.digits +:+ symbols +:+ whitespace_chars)).
Proof. apply (bool_decide_unpack (NoDup _)). vm_compute. exact Logic.I. Qed.

(** X2. Without a custom character set, a character is in the result of
    [get_charset] exactly when it belongs to a class whose flag is set; a
    character of a class whose flag is not set is never in it. *)
Theorem get_charset_members (l u d s ws : bool) (c : ascii) :
  (char_in c (get_charset l u d s ws None) <->
     (l = true /\ char_in c PyStr.ascii_lowercase)
     \/ (u = true /\ char_in c PyStr.ascii_uppercase)
     \/ (d = true /\ char_in c PyStr.digits)
     \/ (s = true /\ char_in c symbols)
     \/ (ws = true /\ char_in c whitespace_chars))
  /\ (l = false -> char_in c PyStr.ascii_lowercase ->
      ~ char_in c (get_charset l u d s ws None))
  /\ (u = false -> char_in c PyStr.ascii_uppercase ->
      ~ char_in c (get_charset l u d s ws None))
  /\ (d = false -> char_in c PyStr.digits ->
      ~ char_in c (get_charset l u d s ws None))
  /\ (s = false -> char_in c symbols ->
      ~ char_in c (get_charset l u d s ws None))
  /\ (ws = false -> char_in c whitespace_chars ->
      ~ char_in c (get_charset l u d s ws None)).
Proof.
  assert (Hiff :
    char_in c (get_charset l u d s ws None) <->
      (l = true /\ char_in c PyStr.ascii_lowercase)
      \/ (u = true /\ char_in c PyStr.ascii_uppercase)
      \/ (d = true /\ char_in c PyStr.digits)
      \/ (s = true /\ char_in c symbols)
      \/ (ws = true /\ char_in c whitespace_chars)).
  { rewrite get_charset_flags. unfold flag_charset.
    rewrite !char_in_app.
    destruct l, u, d, s, ws; rewrite ?char_in_empty; intuition congruence. }
  split; [exact Hiff|].
  pose proof classes_disjoint as Hd.
  rewrite !chars_app in Hd.
  apply NoDup_app in Hd as (_ & H1 & Hd).
  apply NoDup_app in Hd as (_ & H2 & Hd).
  apply NoDup_app in Hd as (_ & H3 & Hd).
  apply NoDup_app in Hd as (_ & H4 & _).
  pose proof (H1 c) as H1c. pose proof (H2 c) as H2c.
  pose proof (H3 c) as H3c. pose proof (H4 c) as H4c.
  rewrite !elem_of_app in H1c. rewrite !elem_of_app in H2c.
  rewrite !elem_of_app in H3c.
  unfold char_in in *.
  repeat split; intros -> Hc Hin; apply Hiff in Hin;
    destruct Hin as [[? ?]|[[? ?]|[[? ?]|[[? ?]|[? ?]]]]];
    try discriminate;
    repeat match goal with
           | H : In _ _ |- _ => apply list_elem_of_In in H
           end; tauto.
Qed.

Lemma get_charset_members_witness :
  char_in "a" (get_charset true false false false false None)
  /\ ~ char_in "7" (get_charset true true false true true None).
Proof.
  split.
  - apply (proj1 (get_charset_members true false false false false "a")).
    left. split; [reflexivity | unfold char_in; simpl; tauto].
  - apply (proj1 (proj2 (proj2 (proj2
             (get_charset_members true true false true true "7")))));
      [reflexivity | unfold char_in; simpl; tauto].
Defined.

(** ** Grouping by commas *)

Lemma string_of_uint_no_comma (u : Decimal.uint) :
  Forall (fun c => c <> ","%char) (PyStr.chars (NilEmpty.string_of_uint u)).
Proof. induction u; simpl; constructor; try assumption; discriminate. Qed.

Lemma of_Z_no_comma (z : Z) :
  Forall (fun c => c <> ","%char) (PyStr.chars (PyStr.of_Z z)).
Proof.
  assert (Hu : forall u, Forall (fun c => c <> ","%char)
                           (PyStr.chars (NilZero.string_of_uint u))).
  { intros u. destruct u; try apply string_of_uint_no_comma.
    constructor; [discriminate | constructor]. }
  unfold PyStr.of_Z, NilZero.string_of_int.
  destruct (Z.to_int z); [apply Hu|].
  constructor; [discriminate | apply Hu].
Qed.

Lemma of_Z_negative (z : Z) : z < 0 -> PyStr.of_Z z = "-" +:+ PyStr.of_Z (- z).
Proof. destruct z; intros H; try lia. reflexivity. Qed.

Lemma filter_group3 (l : list ascii) (k : nat) :
  Forall (fun c => c <> ","%char) l ->
  List.filter (fun c => negb (Ascii.eqb c ",")) (group3 l k) = l.
Proof.
  intros H. revert k. induction H as [|c l Hc Hl IH]; intros k; [reflexivity|].
  assert (Hk : negb (Ascii.eqb c ",") = true).
  { destruct (Ascii.eqb_spec c ","); [contradiction | reflexivity]. }
  destruct k; simpl; rewrite Hk.
  - destruct l as [|c' l]; [reflexivity|]. f_equal. exact (IH 2%nat).
  - f_equal. apply IH.
Qed.

Lemma strip_commas_comma_digits (s : string) :
  Forall (fun c => c <> ","%char) (PyStr.chars s) ->
  strip_commas (comma_digits s) = s.
Proof.
  intros H. unfold strip_commas, comma_digits.
  rewrite chars_join, (filter_group3 _ _ H).
  apply string_of_list_ascii_of_string.
Qed.

(** X3. Taking the commas out of the comma-grouped rendering of an int
    gives its decimal rendering back; the rendering of a negative int is
    a minus sign before the rendering of its opposite. *)
Theorem format_comma_int_digits (z : Z) :
  strip_commas (format_comma_int z) = PyStr.of_Z z
  /\ (z < 0 -> format_comma_int z = "-" +:+ format_comma_int (- z)).
Proof.
  unfold format_comma_int. destruct (Z.ltb_spec z 0) as [Hz|Hz]; split.
  - rewrite (of_Z_negative z Hz).
    change (strip_commas ("-" +:+ ?x)) with ("-" +:+ strip_commas x).
    now rewrite strip_commas_comma_digits by apply of_Z_no_comma.
  - intros _. destruct (Z.ltb_spec (- z) 0); [lia | reflexivity].
  - apply strip_commas_comma_digits, of_Z_no_comma.
  - lia.
Qed.

Lemma format_comma_int_digits_witness :
  -1234567 < 0
  /\ format_comma_int (-1234567) = "-1,234,567"
  /\ strip_commas (format_comma_int (-1234567)) = "-1234567".
Proof.
  assert (H : -1234567 < 0) by lia.
  destruct (format_comma_int_digits (-1234567)) as [Hs Hn].
  split; [exact H|]. split; [rewrite (Hn H); reflexivity | exact Hs].
Defined.

(** In the output of [group3], started with the counter that
    [comma_digits] gives it, the commas are the characters at the offsets
    3, 7, 11, ... from the right end. *)
Lemma group3_positions (l : list ascii) (k : nat) :
  Forall (fun c => c <> ","%char) l ->
  (l = [] \/ k = (List.length l - 1) mod 3)%nat ->
  (List.length (group3 l k) = List.length l + (List.length l - 1) / 3)%nat
  /\ forall i c, group3 l k !! i = Some c ->
       (c = ","%char <-> (List.length (group3 l k) - 1 - i) mod 4 = 3)%nat.
Proof.
  intros H. revert k. induction H as [|c l Hc Hl IH]; intros k Hk.
  - split; [reflexivity|]. intros i c Hi. destruct i; discriminate Hi.
  - destruct Hk as [Hk|Hk]; [discriminate Hk|]. cbn [List.length] in Hk.
    destruct l as [|c' l].
    { cbn in Hk. subst k. split; [reflexivity|].
      intros [|i] x Hi; [|destruct i; discriminate Hi].
      injection Hi as <-. cbn. split; [contradiction | discriminate]. }
    set (r := c' :: l) in *.
    assert (Hr : (List.length r = S (List.length l))%nat) by reflexivity.
    destruct k as [|k].
    + destruct (IH 2%nat) as [Hlen Hpos]; [right; lia|].
      change (group3 (c :: r) 0) with (c :: ","%char :: group3 r 2).
      cbn [List.length]. split; [lia|].
      intros [|[|i]] x Hi; cbn in Hi.
      * injection Hi as <-. split; [contradiction | lia].
      * injection Hi as <-. split; [lia | reflexivity].
      * rewrite (Hpos i x Hi).
        replace (S (S (List.length (group3 r 2))) - 1 - S (S i))%nat
          with (List.length (group3 r 2) - 1 - i)%nat by lia.
        reflexivity.
    + destruct (IH k) as [Hlen Hpos]; [right; lia|].
      change (group3 (c :: r) (S k)) with (c :: group3 r k).
      cbn [List.length]. split; [lia|].
      intros [|i] x Hi; cbn in Hi.
      * injection Hi as <-. split; [contradiction | lia].
      * rewrite (Hpos i x Hi).
        replace (S (List.length (group3 r k)) - 1 - S i)%nat
          with (List.length (group3 r k) - 1 - i)%nat by lia.
        reflexivity.
Qed.

(** X4. In the comma-grouped rendering of an int that is not negative,
    the character at offset [j] from the right end is a comma exactly when
    [j mod 4 = 3]: the digits stand in groups of three, counted from the
    right, with one comma between two groups. *)
Theorem format_comma_int_groups (z : Z) (j : nat) (c : ascii) :
  0 <= z ->
  char_from_right j (format_comma_int z) = Some c ->
  (c = ","%char <-> j mod 4 = 3)%nat.
Proof.
  intros Hz. unfold char_from_right, format_comma_int, comma_digits.
  destruct (Z.ltb_spec z 0) as [Hneg|_]; [lia|].
  rewrite chars_join.
  set (l := PyStr.chars (PyStr.of_Z z)).
  destruct (group3_positions l ((List.length l + 2) mod 3)%nat) as [Hlen Hpos].
  { apply of_Z_no_comma. }
  { destruct l; [now left | right; cbn [List.length]; lia]. }
  intros Hj.
  assert (Hlt : (j < List.length (group3 l ((List.length l + 2) mod 3)))%nat).
  { apply lookup_lt_Some in Hj. now rewrite length_reverse in Hj. }
  rewrite reverse_lookup in Hj by exact Hlt.
  rewrite (Hpos _ _ Hj).
  replace (List.length (group3 l ((List.length l + 2) mod 3)) - 1
           - (List.length (group3 l ((List.length l + 2) mod 3)) - S j))%nat
    with j by lia.
  reflexivity.
Qed.

Lemma format_comma_int_groups_witness :
  0 <= 1234567
  /\ char_from_right 3 (format_comma_int 1234567) = Some ","%char
  /\ (","%char = ","%char <-> 3 mod 4 = 3)%nat.
Proof.
  assert (Hz : 0 <= 1234567) by lia.
  assert (Hc : char_from_right 3 (format_comma_int 1234567) = Some ","%char)
    by reflexivity.
  split; [exact Hz|]. split; [exact Hc|].
  exact (format_comma_int_groups 1234567 3 "," Hz Hc).
Defined.


Section Rendering.

Context {F : FloatOps}.


End Rendering.


(** ** The generator at its edges *)

Section GeneratorEdges.

Context {F : FloatOps} {R : RandomSource} {E : Env}.

(** X5. For a length that is zero or negative [generate_random_c_content]
    returns the empty string and draws nothing, whatever the character
    set, the empty one included. For a positive length over the empty
    character set it raises [IndexError] at the first draw and leaves the
    world as it was. *)
Theorem generate_random_c_content_edges (N : Z) (cs : string) (w : world) :
  (N <= 0 -> generate_random_c_content N cs w = (inr "", w))
  /\ (0 < N ->
      generate_random_c_content N "" w
      = (inl (IndexError "Cannot choose from an empty sequence"), w)).
Proof.
  split; intros HN; unfold generate_random_c_content.
  - rewrite Z2Nat.nonpos by exact HN. reflexivity.
  - destruct (Z.to_nat N) as [|n] eqn:Hn; [lia|]. reflexivity.
Qed.

Lemma only_own_rng_refl (w : world) : only_own_rng w w.
Proof. repeat split. Qed.

Lemma only_own_rng_trans (w1 w2 w3 : world) :
  only_own_rng w1 w2 -> only_own_rng w2 w3 -> only_own_rng w1 w3.
Proof.
  unfold only_own_rng.
  intros (A1 & A2 & A3 & A4 & A5 & A6 & A7 & A8 & A9 & A10)
         (B1 & B2 & B3 & B4 & B5 & B6 & B7 & B8 & B9 & B10).
  repeat split; try congruence.
  intros p Hp. rewrite B10 by congruence. now apply A10.
Qed.

Lemma random_choice_only_own_rng (cs : string) (w : world) :
  only_own_rng w (random_choice cs w).2.
Proof.
  unfold random_choice. destruct (String.length cs) as [|n].
  - apply only_own_rng_refl.
  - destruct (randbelow (S n) (rng w (cur_pid w))) as [i st].
    destruct (String.get i cs); repeat split; intros p Hp; simpl;
      now destruct (Z.eqb_spec p (cur_pid w)).
Qed.

Lemma choices_only_own_rng (n : nat) (cs : string) (w : world) :
  only_own_rng w (choices n cs w).2.
Proof.
  revert w. induction n as [|n IH]; intros w; [apply only_own_rng_refl|].
  simpl. unfold mbind, M_bind, bind.
  pose proof (random_choice_only_own_rng cs w) as H1.
  destruct (random_choice cs w) as [[e|c] w1]; simpl in H1; [exact H1|].
  pose proof (IH w1) as H2.
  destruct (choices n cs w1) as [[e|l] w2]; simpl in H2;
    exact (only_own_rng_trans _ _ _ H1 H2).
Qed.

(** X6. [generate_random_c_content] changes nothing but the random state
    of the process that executes it: the files, the counters, the output
    and the random states of the other processes are as before, whether
    it returns or raises. *)
Theorem generate_random_c_content_frame (N : Z) (cs : string) (w : world) :
  only_own_rng w (generate_random_c_content N cs w).2.
Proof.
  unfold generate_random_c_content, mbind, M_bind, bind.
  pose proof (choices_only_own_rng (Z.to_nat N) cs w) as H.
  destruct (choices (Z.to_nat N) cs w) as [[e|l] w1]; exact H.
Qed.

End GeneratorEdges.

Lemma generate_random_c_content_edges_witness :
  -3 <= 0 /\ 0 < 4
  /\ generate_random_c_content (-3) "abc" Demo.w0 = (inr "", Demo.w0)
  /\ generate_random_c_content 4 "" Demo.w0
     = (inl (IndexError "Cannot choose from an empty sequence"), Demo.w0).
Proof.
  assert (H1 : -3 <= 0) by lia. assert (H2 : 0 < 4) by lia.
  split; [exact H1|]. split; [exact H2|]. split.
  - exact (proj1 (generate_random_c_content_edges (-3) "abc" Demo.w0) H1).
  - exact (proj2 (generate_random_c_content_edges 4 "abc" Demo.w0) H2).
Defined.

(** ** What a probe touches *)

Section ProbeFrame.

Context {F : FloatOps} {R : RandomSource} {E : Env}.

(** X7. [test_compilation] itself touches two files only, the source
    file and the object file of the probe: every other file is, after
    the probe, as the compiler left it. It prints nothing and leaves the
    counters, the random states and the directories as they were. *)
Theorem test_compilation_frame (content : string) (pid : Z) (compiler : string)
                               (timeout : Z) (w : world) (p : string) :
  let w' := (test_compilation content pid compiler timeout w).2 in
  (p <> probe_c_file pid w -> p <> probe_o_file pid w ->
   files w' !! p = (probe_compile content pid compiler timeout w).2 !! p)
  /\ stdout w' = stdout w /\ counters_of w' = counters_of w
  /\ rng w' = rng w /\ dirs w' = dirs w /\ cur_pid w' = cur_pid w.
Proof.
  cbv zeta. rewrite test_compilation_eval. cbv zeta. cbn [snd files after_probe].
  split; [|repeat split].
  intros Hc Ho.
  destruct (exit_zero _); rewrite ?lookup_delete_ne by congruence; reflexivity.
Qed.

(** X8. [test_compilation] launches one subprocess, [<compiler> -c
    <pid>_<first eight hex digits of a fresh uuid>.c], with the timeout
    that it was given, and draws one uuid. *)
Theorem test_compilation_one_call (content : string) (pid : Z) (compiler : string)
                                  (timeout : Z) (w : world) :
  let w' := (test_compilation content pid compiler timeout w).2 in
  spawn_log w'
  = (spawn_log w
     ++ [ {| argv := [compiler; "-c";
                      (PyStr.of_Z pid +:+ "_"
                       +:+ PyStr.prefix 8 (uuid4_hex (uuid_calls w))) +:+ ".c"];
             run_timeout := timeout |} ])%list
  /\ uuid_calls w' = S (uuid_calls w).
Proof.
  cbv zeta. rewrite test_compilation_eval. split; reflexivity.
Qed.

End ProbeFrame.

Lemma test_compilation_frame_witness :
  "notes.txt" <> probe_c_file (E := Demo.env) 1000 Demo.w0
  /\ "notes.txt" <> probe_o_file (E := Demo.env) 1000 Demo.w0
  /\ files (test_compilation (E := Demo.env) "{" 1000 "gcc" 2 Demo.w0).2 !! "notes.txt"
     = None.
Proof.
  assert (Hc : "notes.txt" <> probe_c_file (E := Demo.env) 1000 Demo.w0)
    by discriminate.
  assert (Ho : "notes.txt" <> probe_o_file (E := Demo.env) 1000 Demo.w0)
    by discriminate.
  split; [exact Hc|]. split; [exact Ho|].
  rewrite (proj1 (test_compilation_frame (E := Demo.env)
                    "{" 1000 "gcc" 2 Demo.w0 "notes.txt") Hc Ho).
  vm_compute. reflexivity.
Defined.

(** ** File names *)

Lemma length_append (a b : string) :
  String.length (a +:+ b) = (String.length a + String.length b)%nat.
Proof. induction a as [|c a IH]; simpl; [reflexivity | now rewrite IH]. Qed.

Lemma append_same_length (a b s t : string) :
  String.length a = String.length b -> a +:+ s = b +:+ t -> a = b /\ s = t.
Proof.
  revert b. induction a as [|x a IH]; intros [|y b] Hlen H;
    try discriminate Hlen.
  - now split.
  - simpl in H. injection H as -> H. injection Hlen as Hlen.
    destruct (IH b Hlen H) as [-> ->]. now split.
Qed.

Lemma append_cancel_r (a b t : string) : a +:+ t = b +:+ t -> a = b.
Proof.
  intros H. apply (append_same_length a b t t); [|exact H].
  apply (f_equal String.length) in H. rewrite !length_append in H. lia.
Qed.

Lemma append_suffix (a b s t : string) :
  String.length s = String.length t -> a +:+ s = b +:+ t -> a = b /\ s = t.
Proof.
  intros Hlen H. apply append_same_length; [|exact H].
  apply (f_equal String.length) in H. rewrite !length_append in H. lia.
Qed.

Lemma of_Z_inj (a b : Z) : PyStr.of_Z a = PyStr.of_Z b -> a = b.
Proof.
  assert (Hn : forall z, Z.to_int z <> Decimal.Pos Decimal.Nil
                         /\ Z.to_int z <> Decimal.Neg Decimal.Nil).
  { intros [|p|p]; simpl; split; try discriminate;
      intros H; injection H as H; exact (Unsigned.to_uint_nonnil p H). }
  unfold PyStr.of_Z. intros H.
  apply (f_equal NilZero.int_of_string) in H.
  rewrite !NilZero.isi in H by apply Hn.
  injection H as H. now apply DecimalZ.to_int_inj.
Qed.

Lemma split_at_underscore (a b x y : string) :
  ~ char_in "_" a -> ~ char_in "_" b ->
  a +:+ "_" +:+ x = b +:+ "_" +:+ y -> a = b.
Proof.
  unfold char_in. revert b. induction a as [|c a IH]; intros [|d b] Ha Hb H.
  - reflexivity.
  - simpl in H. injection H as <- _. exfalso. apply Hb. now left.
  - simpl in H. injection H as -> _. exfalso. apply Ha. now left.
  - simpl in H. injection H as -> H. f_equal.
    apply IH; [|  |exact H]; intros Hin; [apply Ha | apply Hb]; now right.
Qed.

Lemma of_Z_no_underscore (z : Z) : ~ char_in "_" (PyStr.of_Z z).
Proof.
  intros H. pose proof (of_Z_plain z) as Hp.
  apply (proj1 (List.Forall_forall _ _) Hp) in H.
  unfold plain_char, char_in in H. simpl in H.
  repeat (destruct H as [H|H]; [discriminate H|]). exact H.
Qed.

Section Names.

Context {F : FloatOps} {R : RandomSource} {E : Env}.

Lemma probe_filename_pid (pid1 pid2 : Z) (w1 w2 : world) :
  probe_filename pid1 w1 = probe_filename pid2 w2 -> pid1 = pid2.
Proof.
  unfold probe_filename. intros H.
  apply of_Z_inj. eapply split_at_underscore; [..|exact H];
    apply of_Z_no_underscore.
Qed.

(** X9. The file names of two probes made by different processes differ,
    whatever uuid4 returns: the name starts with the process id, up to the
    first underscore. The source file of a probe is never the object file
    of a probe, its own or another. And so two successful probes of
    different processes return different paths. *)
Theorem probe_file_names (pid1 pid2 : Z) (w1 w2 : world)
    (content1 content2 compiler1 compiler2 : string) (timeout1 timeout2 : Z) :
  (pid1 <> pid2 ->
   probe_c_file pid1 w1 <> probe_c_file pid2 w2
   /\ probe_o_file pid1 w1 <> probe_o_file pid2 w2)
  /\ probe_c_file pid1 w1 <> probe_o_file pid2 w2
  /\ (pid1 <> pid2 ->
      forall p1 p2,
        returned_path (test_compilation content1 pid1 compiler1 timeout1 w1).1
        = Some p1 ->
        returned_path (test_compilation content2 pid2 compiler2 timeout2 w2).1
        = Some p2 ->
        p1 <> p2).
Proof.
  assert (Hcc : pid1 <> pid2 -> probe_c_file pid1 w1 <> probe_c_file pid2 w2).
  { intros Hne H. apply Hne. unfold probe_c_file in H.
    apply append_cancel_r in H. exact (probe_filename_pid _ _ _ _ H). }
  split; [|split].
  - intros Hne. split; [now apply Hcc|].
    intros H. apply Hne. unfold probe_o_file in H.
    apply append_cancel_r in H. exact (probe_filename_pid _ _ _ _ H).
  - unfold probe_c_file, probe_o_file. intros H.
    apply append_suffix in H as [_ H]; [discriminate H | reflexivity].
  - intros Hne p1 p2. rewrite !test_compilation_eval. cbv zeta.
    cbn [fst snd returned_path].
    destruct (exit_zero _); [|discriminate].
    destruct (exit_zero _); [|discriminate].
    intros H1 H2. injection H1 as <-. injection H2 as <-. now apply Hcc.
Qed.

(** X10. The source text of a probe determines its content: two contents
    with the same text in the template are the same. *)
Theorem C_TEMPLATE_fmt_inj (a b : string) :
  C_TEMPLATE_fmt a = C_TEMPLATE_fmt b -> a = b.
Proof.
  unfold C_TEMPLATE_fmt. intros H.
  apply app_string_inj in H. exact (append_cancel_r _ _ _ H).
Qed.

End Names.

Lemma probe_file_names_witness :
  1000 <> 1001
  /\ probe_c_file (E := Demo.env) 1000 Demo.w0
     <> probe_c_file (E := Demo.env) 1001 Demo.w0.
Proof.
  assert (H : 1000 <> 1001) by lia.
  split; [exact H|].
  exact (proj1 (proj1 (probe_file_names (E := Demo.env) 1000 1001 Demo.w0 Demo.w0
                         "" "" "" "" 0 0) H)).
Defined.

Lemma C_TEMPLATE_fmt_inj_witness :
  C_TEMPLATE_fmt ";" = C_TEMPLATE_fmt ";" /\ ";" = ";".
Proof.
  assert (H : C_TEMPLATE_fmt ";" = C_TEMPLATE_fmt ";") by reflexivity.
  split; [exact H | exact (C_TEMPLATE_fmt_inj ";" ";" H)].
Defined.

(** ** What a worker prints *)

Lemma length_prefix_le (n : nat) (s : string) :
  (String.length (PyStr.prefix n s) <= n)%nat.
Proof.
  unfold PyStr.prefix. revert s. induction n as [|n IH]; intros s.
  - destruct s; simpl; lia.
  - destruct s as [|c s]; simpl; [lia|]. specialize (IH s). lia.
Qed.

Section WorkerOutput.

Context {F : FloatOps} {R : RandomSource} {E : Env}.

(** X11. After a failed probe the locked block of a worker prints nothing
    when errors are not shown and the new number of attempts is not a
    multiple of 100. When errors are shown it prints one line for the
    failure: the message in full if it has at most 100 characters, its
    first 100 characters and three dots otherwise, so at most 123
    characters in all; a progress line follows only when the new number
    of attempts is a multiple of 100. *)
Theorem failed_probe_output (t : task) (fn : option string) (msg : string)
                            (w : world) :
  (t_show_errors t = false -> (total_count w + 1) `mod` 100 <> 0 ->
   stdout (worker_locked t false fn msg w).2 = stdout w)
  /\ (t_show_errors t = true ->
      exists line rest,
        stdout (worker_locked t false fn msg w).2 = (stdout w ++ line :: rest)%list
        /\ (String.length line <= 123)%nat
        /\ (PyStr.len msg <= 100 -> line = "Compilation failed: " +:+ msg)
        /\ (100 < PyStr.len msg ->
            line = "Compilation failed: " +:+ PyStr.prefix 100 msg +:+ "...")
        /\ ((total_count w + 1) `mod` 100 <> 0 -> rest = [])).
Proof.
  unfold worker_locked, percent, lift, py_truediv, when,
    set_total_count, set_successful_count, print, modify, gets,
    mbind, M_bind, bind, mret, M_ret, ret.
  split.
  - intros -> Hm.
    cbn [fst snd successful_count total_count counter_log stdout
         with_counters with_stdout].
    destruct (Z.eqb_spec ((total_count w + 1) `mod` 100) 0); [contradiction|].
    reflexivity.
  - intros ->.
    cbn [fst snd successful_count total_count counter_log stdout
         with_counters with_stdout].
    set (line := if 100 <? PyStr.len msg
                 then "Compilation failed: " +:+ PyStr.prefix 100 msg +:+ "..."
                 else "Compilation failed: " +:+ msg).
    assert (Hline : (String.length line <= 123)%nat
                    /\ (PyStr.len msg <= 100 -> line = "Compilation failed: " +:+ msg)
                    /\ (100 < PyStr.len msg ->
                        line = "Compilation failed: " +:+ PyStr.prefix 100 msg +:+ "...")).
    { subst line. unfold PyStr.len.
      destruct (Z.ltb_spec 100 (Z.of_nat (String.length msg))) as [Hl|Hl].
      - split; [|split; [lia | reflexivity]].
        rewrite !length_append. pose proof (length_prefix_le 100 msg).
        cbn [String.length]. lia.
      - split; [|split; [reflexivity | lia]].
        rewrite length_append. cbn [String.length]. lia. }
    destruct ((total_count w + 1) `mod` 100 =? 0) eqn:Hm;
      cbn [fst snd successful_count total_count counter_log stdout
           with_counters with_stdout].
    + destruct (total_count w + 1 =? 0);
        cbn [fst snd successful_count total_count counter_log stdout
             with_counters with_stdout];
        rewrite <- ?app_assoc; cbn [app];
        eexists line, _; (split; [reflexivity|]);
        repeat split; try apply Hline; intros Hne; apply Z.eqb_eq in Hm; lia.
    + exists line, []. split; [reflexivity|].
      repeat split; apply Hline.
Qed.

End WorkerOutput.

Lemma failed_probe_output_witness :
  t_show_errors Demo.brace_task = true
  /\ exists line rest,
       stdout (worker_locked (F := Demo.floats) Demo.brace_task false None
                 "error: expected expression" Demo.w0).2
       = (stdout Demo.w0 ++ line :: rest)%list
       /\ (String.length line <= 123)%nat.
Proof.
  assert (H : t_show_errors Demo.brace_task = true) by reflexivity.
  split; [exact H|].
  destruct (proj2 (failed_probe_output (F := Demo.floats) Demo.brace_task None
                     "error: expected expression" Demo.w0) H)
    as (line & rest & Hout & Hlen & _).
  exists line, rest. split; [exact Hout | exact Hlen].
Defined.

(** ** Reproducible content *)

Section Reproducible.

Context {F : FloatOps} {R : RandomSource} {E : Env}.

(** X12. The content that a worker generates depends on its process id,
    its task id, the length and the character set only: two executions
    that agree on these four generate the same content, whatever the
    earlier random state, the files, the counters and the other fields of
    their tasks are. *)
Theorem worker_content_reproducible (t1 t2 : task) (w1 w2 : world) :
  cur_pid w1 = cur_pid w2 -> task_id t1 = task_id t2 ->
  t_byte_size t1 = t_byte_size t2 -> t_charset t1 = t_charset t2 ->
  content_of (worker_content t1 w1).1 = content_of (worker_content t2 w2).1.
Proof.
  intros Hpid Hid Hsize Hcs.
  apply worker_content_seed; [congruence | exact Hsize | exact Hcs].
Qed.

End Reproducible.

Lemma worker_content_reproducible_witness :
  cur_pid Demo.w0 = cur_pid (with_stdout ["earlier output"] Demo.w0)
  /\ content_of (worker_content (R := Demo.lcg) Demo.brace_task Demo.w0).1
     = content_of (worker_content (R := Demo.lcg) Demo.brace_task
                     (with_stdout ["earlier output"] Demo.w0)).1.
Proof.
  assert (H : cur_pid Demo.w0 = cur_pid (with_stdout ["earlier output"] Demo.w0))
    by reflexivity.
  split; [exact H|].
  exact (worker_content_reproducible Demo.brace_task Demo.brace_task
           Demo.w0 (with_stdout ["earlier output"] Demo.w0)
           H eq_refl eq_refl eq_refl).
Defined.

(** ** Runs with a fixed number of tasks *)

Section BoundedRun.

Context {F : FloatOps} {R : RandomSource} {E : Env}.

Lemma run_on_worker_effect (pid : Z) (t : task) (w : world) :
  counters_ok w -> t_charset t <> "" ->
  exists b w' req,
    run_on pid (worker t) w = (inr b, w')
    /\ counters_ok w'
    /\ total_count w' = total_count w + 1
    /\ successful_count w' = successful_count w + (if b then 1 else 0)
    /\ dispatched w' = dispatched w /\ cur_pid w' = cur_pid w
    /\ spawn_log w' = (spawn_log w ++ [req])%list
    /\ compile_call (t_compiler t) req.
Proof.
  intros Hw Hcs. unfold run_on.
  set (wp := with_cur_pid pid w).
  assert (Hwp : counters_ok wp) by exact Hw.
  pose proof (counters_ok_bounds wp Hwp) as Hb.
  destruct (worker_content_returns t wp Hcs) as (content & g & Hc & _).
  destruct (worker_eval t wp content (with_rng g wp) Hc) as (lines & Hwd & Hr).
  destruct Hr as [Hr|Hr]; [|cbn [total_count with_rng] in Hr; lia].
  destruct (worker t wp) as [r w1]. simpl in Hwd, Hr. subst r w1.
  eexists _, _, _. split; [reflexivity|].
  split; [|split; [reflexivity|split; [|split; [reflexivity|split;
           [reflexivity|split; [reflexivity|]]]]]].
  - apply (counters_ok_same (worker_world t content lines (with_rng g wp)));
      [reflexivity|].
    unfold worker_world. apply counters_ok_after_count. exact Hw.
  - unfold worker_world, worker_ok, after_count.
    cbn [successful_count total_count with_cur_pid after_probe with_rng cur_pid].
    change (successful_count wp) with (successful_count w).
    destruct (exit_zero _); lia.
  - eexists. split; reflexivity.
Qed.

Lemma run_workers_effect (cc : string) (sched : list (Z * task)) (w : world) :
  counters_ok w ->
  Forall (fun pt => t_charset pt.2 <> "" /\ t_compiler pt.2 = cc) sched ->
  exists w' reqs,
    run_workers sched w = (inr tt, w')
    /\ counters_ok w'
    /\ total_count w' = total_count w + Z.of_nat (List.length sched)
    /\ dispatched w' = dispatched w /\ cur_pid w' = cur_pid w
    /\ spawn_log w' = (spawn_log w ++ reqs)%list
    /\ List.length reqs = List.length sched
    /\ Forall (compile_call cc) reqs.
Proof.
  intros Hw Hall. revert w Hw.
  induction Hall as [|[pid t] rest [Hcs Hcc] _ IH]; intros w Hw.
  - exists w, []. split; [reflexivity|]. split; [exact Hw|].
    rewrite app_nil_r. repeat split; simpl; try lia. constructor.
  - destruct (run_on_worker_effect pid t w Hw Hcs)
      as (b & w1 & req & Hrun & Hok & Ht & _ & Hd & Hp & Hs & Hcall).
    destruct (IH w1 Hok)
      as (w2 & reqs & Hrest & Hok2 & Ht2 & Hd2 & Hp2 & Hs2 & Hl2 & Hc2).
    exists w2, (req :: reqs). cbn [run_workers].
    rewrite (bind_inr _ _ _ _ _ Hrun), Hrest.
    split; [reflexivity|]. split; [exact Hok2|].
    cbn [List.length]. split; [lia|]. split; [congruence|]. split; [congruence|].
    split; [rewrite Hs2, Hs, <- app_assoc; reflexivity|].
    split; [now rewrite Hl2|].
    constructor; [|exact Hc2]. simpl in Hcc. now rewrite <- Hcc.
Qed.

(** An execution that is terminated counts its attempt and launches its
    compiler if it got that far. *)
Lemma stop_on_effect (pid : Z) (c : cut) (t : task) (w : world) :
  counters_ok w -> t_charset t <> "" ->
  exists w' reqs,
    stop_on pid c t w = (inr tt, w')
    /\ counters_ok w'
    /\ total_count w' = total_count w + (if counted c then 1 else 0)
    /\ dispatched w' = dispatched w /\ cur_pid w' = cur_pid w
    /\ spawn_log w' = (spawn_log w ++ reqs)%list
    /\ List.length reqs = (if launched c then 1 else 0)%nat
    /\ Forall (compile_call (t_compiler t)) reqs.
Proof.
  intros Hw Hcs. unfold stop_on.
  set (wp := with_cur_pid pid w).
  assert (Hwp : counters_ok wp) by exact Hw.
  pose proof (worker_until_keeps_counters_ok c t wp Hwp) as Hok.
  destruct (worker_until_effect c t wp)
    as (Hd & _ & reqs & b & Hs & Hcalls & _ & Hlc).
  destruct (Hlc Hcs) as [Hlen Hc].
  destruct (worker_until c t wp) as [r w1]. cbn [snd] in *.
  exists (with_cur_pid (cur_pid w) w1), reqs.
  split; [reflexivity|]. split; [exact Hok|].
  split; [|split; [exact Hd|split; [reflexivity|split; [exact Hs|split;
            [exact Hlen | exact Hcalls]]]]].
  destruct (counters_of_eq _ _ Hc) as [_ Ht].
  cbn [total_count with_cur_pid]. rewrite Ht.
  destruct (counted c); cbn [total_count after_count with_cur_pid wp]; lia.
Qed.

Lemma run_stopped_effect (cc : string) (sched : list (Z * cut * task)) (w : world) :
  counters_ok w ->
  Forall (fun e => t_charset e.2 <> "" /\ t_compiler e.2 = cc) sched ->
  exists w' reqs,
    run_stopped sched w = (inr tt, w')
    /\ counters_ok w'
    /\ total_count w'
       = total_count w
         + Z.of_nat (List.length (List.filter (fun e => counted e.1.2) sched))
    /\ dispatched w' = dispatched w /\ cur_pid w' = cur_pid w
    /\ spawn_log w' = (spawn_log w ++ reqs)%list
    /\ List.length reqs
       = List.length (List.filter (fun e => launched e.1.2) sched)
    /\ Forall (compile_call cc) reqs.
Proof.
  intros Hw Hall. revert w Hw.
  induction Hall as [|[[pid c] t] rest [Hcs Hcc] _ IH]; intros w Hw.
  - exists w, []. split; [reflexivity|]. split; [exact Hw|].
    rewrite app_nil_r. repeat split; simpl; try lia. constructor.
  - destruct (stop_on_effect pid c t w Hw Hcs)
      as (w1 & reqs1 & Hrun & Hok & Ht & Hd & Hp & Hs & Hl & Hcall).
    destruct (IH w1 Hok)
      as (w2 & reqs & Hrest & Hok2 & Ht2 & Hd2 & Hp2 & Hs2 & Hl2 & Hc2).
    exists w2, (reqs1 ++ reqs)%list. cbn [run_stopped].
    rewrite (bind_inr _ _ _ _ _ Hrun), Hrest.
    split; [reflexivity|]. split; [exact Hok2|].
    cbn [List.filter fst snd]. simpl in Hcc.
    split; [destruct (counted c); cbn [List.length]; lia|].
    split; [congruence|]. split; [congruence|].
    split; [rewrite Hs2, Hs, <- app_assoc; reflexivity|].
    split; [rewrite length_app, Hl, Hl2; destruct (launched c); reflexivity|].
    apply Forall_app. split; [now rewrite <- Hcc | exact Hc2].
Qed.

(** The executions in flight are executions of tasks that were handed
    over. *)
Lemma in_flight_given (k : nat) (ts : list task) :
  Forall (fun e => e.2 ∈ ts) (in_flight k ts).
Proof.
  apply Forall_forall. intros [pc t] He. unfold in_flight in He.
  apply list_elem_of_omap in He as (t' & Ht' & Hpc).
  destruct (pool_stopped k t') as [pc'|]; [|discriminate Hpc].
  injection Hpc as _ <-.
  now apply list_elem_of_difference in Ht' as [Ht' _].
Qed.

(** A worker that counted its attempt had launched its compiler. *)
Lemma counted_launched (sched : list (Z * cut * task)) :
  (List.length (List.filter (fun e => counted e.1.2) sched)
   <= List.length (List.filter (fun e => launched e.1.2) sched))%nat.
Proof.
  induction sched as [|[[pid c] t] rest IH]; [reflexivity|].
  cbn [List.filter fst snd].
  destruct c as [n|p|[]]; [|destruct p|..]; cbn [counted launched List.length]; lia.
Qed.


(** The effect of a pool call. *)
Lemma pool_call_effect (cc : string) (k : nat) (ts : list task) (w : world) :
  counters_ok w ->
  Forall (fun t => t_charset t <> "" /\ t_compiler t = cc) ts ->
  pool_runs_given k ts ->
  exists w' reqs,
    pool_call k ts w = (inr tt, w')
    /\ counters_ok w'
    /\ total_count w' = total_count w + Z.of_nat (attempts_counted k ts)
    /\ dispatched w' = (dispatched w ++ ts)%list /\ cur_pid w' = cur_pid w
    /\ spawn_log w' = (spawn_log w ++ reqs)%list
    /\ List.length reqs = compilers_launched k ts
    /\ Forall (compile_call cc) reqs.
Proof.
  intros Hok Hts Hgiven. rewrite Forall_forall in Hts.
  assert (Hrun : Forall (fun pt : Z * task =>
                           t_charset pt.2 <> "" /\ t_compiler pt.2 = cc)
                        (pool_run k ts)).
  { unfold pool_runs_given in Hgiven.
    eapply Forall_impl; [exact Hgiven|]. intros pt Hpt. now apply Hts. }
  assert (Hstop : Forall (fun e : Z * cut * task =>
                            t_charset e.2 <> "" /\ t_compiler e.2 = cc)
                         (terminated k ts)).
  { unfold terminated. destruct (pool_interrupted k); [|constructor].
    eapply Forall_impl; [apply in_flight_given|]. intros e He. now apply Hts. }
  destruct (run_workers_effect cc _ (with_dispatched (dispatched w ++ ts) w) Hok Hrun)
    as (w1 & reqs1 & Hr1 & Hok1 & Ht1 & Hd1 & Hp1 & Hs1 & Hl1 & Hc1).
  destruct (run_stopped_effect cc _ w1 Hok1 Hstop)
    as (w2 & reqs2 & Hr2 & Hok2 & Ht2 & Hd2 & Hp2 & Hs2 & Hl2 & Hc2).
  exists w2, (reqs1 ++ reqs2)%list. split.
  { unfold pool_call. erewrite (bind_inr (modify _)); [|reflexivity].
    rewrite (bind_inr _ _ _ _ _ Hr1). unfold terminated in Hr2.
    destruct (pool_interrupted k); [exact Hr2|].
    cbn [run_stopped] in Hr2. exact Hr2. }
  split; [exact Hok2|].
  cbn [total_count dispatched cur_pid spawn_log with_dispatched] in Ht1, Hd1, Hp1, Hs1.
  unfold attempts_counted, compilers_launched.
  split; [lia|]. split; [congruence|]. split; [congruence|].
  split; [rewrite Hs2, Hs1, <- app_assoc; reflexivity|].
  split; [rewrite length_app; lia|].
  apply Forall_app. split; assumption.
Qed.

(** The evaluation of [main] in a run with a fixed number of tasks. *)
Lemma main_bounded_run (args : Args) (w : world) :
  args_charset args <> "" -> 0 <= byte_size args -> tasks args <> -1 ->
  pool_runs_given 0 (bounded_tasks args) ->
  exists reqs,
    (main args w).1 = inr tt
    /\ counters_ok (main args w).2
    /\ total_count (main args w).2
       = Z.of_nat (attempts_counted 0 (bounded_tasks args))
    /\ dispatched (main args w).2 = (dispatched w ++ bounded_tasks args)%list
    /\ spawn_log (main args w).2 = (spawn_log w ++ reqs)%list
    /\ List.length reqs = compilers_launched 0 (bounded_tasks args)
    /\ Forall (compile_call (compiler args)) reqs.
Proof.
  intros Hcs HN HT Hgiven.
  pose proof (announce_returns args (args_charset args) w HN) as Ha.
  pose proof (quiet_announce args (args_charset args) w) as Hqa.
  unfold main. fold (args_charset args).
  destruct (String.eqb_spec (args_charset args) "") as [Hcs'|_]; [contradiction|].
  destruct (announce args (args_charset args) w) as [r w1] eqn:Han.
  simpl in Ha, Hqa. subst r. rewrite (bind_inr _ _ _ _ _ Han).
  rewrite (bind_inr new_counters _ w1 tt _ eq_refl).
  erewrite (bind_inr time_now); [|reflexivity].
  erewrite (bind_inr (os_makedirs _)); [|reflexivity].
  destruct (Z.eqb_spec (tasks args) (-1)) as [Hm|_]; [contradiction|].
  match goal with
  | |- context [(bounded_mode _ _ ≫= _) ?x] => set (w4 := x)
  end.
  assert (Hok : counters_ok w4) by apply counters_ok_new.
  assert (Hts : Forall (fun t => t_charset t <> ""
                                 /\ t_compiler t = compiler args)
                       (bounded_tasks args)).
  { apply Forall_forall. intros t Ht. unfold bounded_tasks in Ht.
    apply list_elem_of_fmap in Ht as (i & -> & _). split; [exact Hcs | reflexivity]. }
  destruct (pool_call_effect (compiler args) 0 (bounded_tasks args) w4 Hok Hts Hgiven)
    as (w5 & reqs & Hpool & Hok5 & Ht & Hd & _ & Hs & Hlen & Hcalls).
  pose proof (quiet_when (pool_interrupted 0)
                (print (PyStr.nl +:+ "Stopped by user")) (quiet_print _) w5) as Hq.
  assert (Hr : (when (pool_interrupted 0)
                  (print (PyStr.nl +:+ "Stopped by user")) w5).1 = inr tt)
    by (destruct (pool_interrupted 0); reflexivity).
  destruct (when (pool_interrupted 0) (print (PyStr.nl +:+ "Stopped by user")) w5)
    as [r w6] eqn:Hwhen.
  simpl in Hr, Hq. subst r.
  assert (Hmode : bounded_mode args (args_charset args) w4 = (inr tt, w6)).
  { unfold bounded_mode. fold (bounded_tasks args).
    rewrite (bind_inr _ _ _ _ _ Hpool). exact Hwhen. }
  rewrite (bind_inr _ _ _ _ _ Hmode).
  match goal with
  | |- context [final_report ?c ?st w6] =>
      pose proof (quiet_final_report c st w6) as Hqf;
      pose proof (final_report_returns c st w6) as Hrf;
      destruct (final_report c st w6) as [rf w7]
  end.
  simpl in Hqf, Hrf. cbn [fst snd].
  destruct Hqa as (_ & _ & Hsa & _ & _ & _ & Hda).
  destruct Hq as (_ & Hc6 & Hs6 & _ & _ & _ & Hd6).
  destruct Hqf as (_ & Hc7 & Hs7 & _ & _ & _ & Hd7).
  destruct (counters_of_eq _ _ Hc6) as [_ Ht6].
  destruct (counters_of_eq _ _ Hc7) as [_ Ht7].
  subst w4. cbn [total_count spawn_log dispatched new_counters modify snd fst
                 with_clock with_dirs with_dispatched os_makedirs time_now]
    in Ht, Hd, Hs.
  exists reqs. split; [exact Hrf|]. split.
  { apply (counters_ok_same w6); [exact Hc7|].
    apply (counters_ok_same w5); [exact Hc6 | exact Hok5]. }
  split; [rewrite Ht7, Ht6, Ht; lia|].
  split; [rewrite Hd7, Hd6, Hd, Hda; reflexivity|].
  split; [rewrite Hs7, Hs6, Hs, Hsa; reflexivity|].
  split; [exact Hlen | exact Hcalls].
Qed.

(** X13. In a run with a fixed number of tasks, over a character set
    that is not empty and a length that is not negative, [main] returns,
    interrupted or not, and the attempts it reports are those of the
    worker executions that got as far as counting: the executions that
    ran to their end and, when an interrupt ended the run, the ones that
    were terminated after line 129. An execution that is terminated
    before that line is not counted. Without an interrupt the attempts
    are the executions. The successes lie between zero and the
    attempts. *)
Theorem bounded_run_counts_executions (args : Args) (w : world) :
  args_charset args <> "" -> 0 <= byte_size args -> tasks args <> -1 ->
  pool_runs_given 0 (bounded_tasks args) ->
  (main args w).1 = inr tt
  /\ total_count (main args w).2
     = Z.of_nat (attempts_counted 0 (bounded_tasks args))
  /\ (pool_interrupted 0 = false ->
      total_count (main args w).2
      = Z.of_nat (List.length (pool_run 0 (bounded_tasks args))))
  /\ 0 <= successful_count (main args w).2 <= total_count (main args w).2.
Proof.
  intros Hcs HN HT Hgiven.
  destruct (main_bounded_run args w Hcs HN HT Hgiven)
    as (reqs & Hr & Hok & Ht & _).
  split; [exact Hr|]. split; [exact Ht|]. split; [|now apply counters_ok_bounds].
  intros Hi. rewrite Ht. unfold attempts_counted, terminated. rewrite Hi.
  cbn [List.filter List.length]. lia.
Qed.


Lemma NoDup_range (n : Z) : NoDup (range n).
Proof.
  unfold range. apply NoDup_fmap_2; [|apply NoDup_seq].
  intros a b H. lia.
Qed.


(** X15. A run with a fixed number of tasks launches one compiler for
    each worker execution that got as far as line 92, and nothing else:
    one for each execution that ran to its end and, when an interrupt
    ended the run, one for each execution that was terminated after that
    line. Each call is [<compiler> -c <file>.c] with the compiler of the
    command line and the default timeout. The compilers launched are at
    least as many as the attempts counted, and without an interrupt they
    are as many as the executions. *)
Theorem bounded_run_compiler_calls (args : Args) (w : world) :
  args_charset args <> "" -> 0 <= byte_size args -> tasks args <> -1 ->
  pool_runs_given 0 (bounded_tasks args) ->
  exists reqs,
    spawn_log (main args w).2 = (spawn_log w ++ reqs)%list
    /\ List.length reqs = compilers_launched 0 (bounded_tasks args)
    /\ Forall (compile_call (compiler args)) reqs
    /\ total_count (main args w).2 <= Z.of_nat (List.length reqs)
    /\ (pool_interrupted 0 = false ->
        List.length reqs = List.length (pool_run 0 (bounded_tasks args))).
Proof.
  intros Hcs HN HT Hgiven.
  destruct (main_bounded_run args w Hcs HN HT Hgiven)
    as (reqs & _ & _ & Ht & _ & Hs & Hlen & Hcalls).
  exists reqs. split; [exact Hs|]. split; [exact Hlen|]. split; [exact Hcalls|].
  split.
  - rewrite Ht, Hlen. unfold attempts_counted, compilers_launched.
    pose proof (counted_launched (terminated 0 (bounded_tasks args))). lia.
  - intros Hi. rewrite Hlen. unfold compilers_launched, terminated. rewrite Hi.
    cbn [List.filter List.length]. lia.
Qed.

(** X16. A fixed number of tasks that is zero or negative (and not [-1])
    gives a run without work: [main] returns, nothing is handed to the
    pool, no compiler is launched and both counters stay at zero. *)
Theorem no_tasks_no_work (args : Args) (w : world) :
  args_charset args <> "" -> 0 <= byte_size args ->
  tasks args <= 0 -> tasks args <> -1 ->
  pool_runs_given 0 (bounded_tasks args) ->
  (main args w).1 = inr tt
  /\ total_count (main args w).2 = 0
  /\ successful_count (main args w).2 = 0
  /\ dispatched (main args w).2 = dispatched w
  /\ spawn_log (main args w).2 = spawn_log w.
Proof.
  intros Hcs HN HT0 HT Hgiven.
  assert (Hts : bounded_tasks args = []).
  { unfold bounded_tasks, range. now rewrite Z2Nat.nonpos by exact HT0. }
  assert (Hsched : pool_run 0 (bounded_tasks args) = []).
  { unfold pool_runs_given in Hgiven. rewrite Hts in *.
    destruct (pool_run 0 []) as [|pt l]; [reflexivity|].
    apply Forall_cons in Hgiven as [Hpt _]. now apply elem_of_nil in Hpt. }
  assert (Hstop : terminated 0 (bounded_tasks args) = []).
  { unfold terminated, in_flight. rewrite Hts.
    destruct (pool_interrupted 0); reflexivity. }
  destruct (main_bounded_run args w Hcs HN HT Hgiven)
    as (reqs & Hr & Hok & Ht & Hd & Hs & Hlen & Hcalls).
  unfold attempts_counted in Ht. unfold compilers_launched in Hlen.
  rewrite Hsched, Hstop in Ht, Hlen. rewrite Hts, app_nil_r in Hd.
  cbn [List.filter List.length Nat.add] in Ht, Hlen.
  destruct reqs; [|discriminate Hlen]. rewrite app_nil_r in Hs.
  pose proof (counters_ok_bounds _ Hok) as Hb. simpl in Ht.
  repeat split; try assumption; lia.
Qed.

End BoundedRun.

Lemma demo_pool_runs_given (k : nat) (ts : list task) :
  pool_runs_given (E := Demo.env) k ts.
Proof.
  unfold pool_runs_given. apply Forall_forall. intros [pid t] H.
  apply list_elem_of_fmap in H as (t' & Heq & Ht). injection Heq as _ ->.
  exact Ht.
Qed.

Lemma demo_stopped_pool_runs_given (k : nat) (ts : list task) :
  pool_runs_given (E := Demo.env_stopped) k ts.
Proof.
  unfold pool_runs_given. apply Forall_forall. intros [pid t] H.
  apply list_elem_of_fmap in H as (t' & Heq & Ht). injection Heq as _ ->.
  exact (subseteq_take 1 ts _ Ht).
Qed.

(** On the environment with an interrupt: of three tasks handed over,
    the first is counted; the second, terminated once its compiler is
    launched, is not. *)
Lemma bounded_run_counts_executions_witness :
  args_charset Demo.args_semicolon <> "" /\ 0 <= byte_size Demo.args_semicolon
  /\ tasks Demo.args_semicolon <> -1
  /\ pool_runs_given (E := Demo.env_stopped) 0 (bounded_tasks Demo.args_semicolon)
  /\ total_count (main (E := Demo.env_stopped) Demo.args_semicolon Demo.w0).2 = 1.
Proof.
  assert (Hcs : args_charset Demo.args_semicolon <> "") by discriminate.
  assert (HN : 0 <= byte_size Demo.args_semicolon) by (simpl; lia).
  assert (HT : tasks Demo.args_semicolon <> -1) by discriminate.
  pose proof (demo_stopped_pool_runs_given 0 (bounded_tasks Demo.args_semicolon))
    as Hg.
  repeat (split; [assumption|]).
  exact (proj1 (proj2 (bounded_run_counts_executions (E := Demo.env_stopped)
                         Demo.args_semicolon Demo.w0 Hcs HN HT Hg))).
Defined.


(** On the environment with an interrupt: two compilers are launched,
    one more than the attempts counted. *)
Lemma bounded_run_compiler_calls_witness :
  args_charset Demo.args_semicolon <> "" /\ 0 <= byte_size Demo.args_semicolon
  /\ tasks Demo.args_semicolon <> -1
  /\ pool_runs_given (E := Demo.env_stopped) 0 (bounded_tasks Demo.args_semicolon)
  /\ exists reqs,
       spawn_log (main (E := Demo.env_stopped) Demo.args_semicolon Demo.w0).2 = reqs
       /\ List.length reqs = 2%nat
       /\ Forall (compile_call "gcc") reqs
       /\ total_count (main (E := Demo.env_stopped) Demo.args_semicolon Demo.w0).2
          <= 2.
Proof.
  assert (Hcs : args_charset Demo.args_semicolon <> "") by discriminate.
  assert (HN : 0 <= byte_size Demo.args_semicolon) by (simpl; lia).
  assert (HT : tasks Demo.args_semicolon <> -1) by discriminate.
  pose proof (demo_stopped_pool_runs_given 0 (bounded_tasks Demo.args_semicolon))
    as Hg.
  repeat (split; [assumption|]).
  destruct (bounded_run_compiler_calls (E := Demo.env_stopped)
              Demo.args_semicolon Demo.w0 Hcs HN HT Hg)
    as (reqs & Hs & Hlen & Hall & Hle & _).
  exists reqs. split; [exact Hs|]. split; [exact Hlen|]. split; [exact Hall|].
  change (List.length reqs = 2%nat) in Hlen. rewrite Hlen in Hle. exact Hle.
Defined.

Lemma no_tasks_no_work_witness :
  args_charset Demo.args_negative_tasks <> ""
  /\ 0 <= byte_size Demo.args_negative_tasks
  /\ tasks Demo.args_negative_tasks <= 0 /\ tasks Demo.args_negative_tasks <> -1
  /\ pool_runs_given (E := Demo.env) 0 (bounded_tasks Demo.args_negative_tasks)
  /\ total_count (main (E := Demo.env) Demo.args_negative_tasks Demo.w0).2 = 0.
Proof.
  assert (Hcs : args_charset Demo.args_negative_tasks <> "") by discriminate.
  assert (HN : 0 <= byte_size Demo.args_negative_tasks) by (simpl; lia).
  assert (HT0 : tasks Demo.args_negative_tasks <= 0) by (simpl; lia).
  assert (HT : tasks Demo.args_negative_tasks <> -1) by discriminate.
  pose proof (demo_pool_runs_given 0 (bounded_tasks Demo.args_negative_tasks)) as Hg.
  repeat (split; [assumption|]).
  exact (proj1 (proj2 (no_tasks_no_work (E := Demo.env)
                         Demo.args_negative_tasks Demo.w0 Hcs HN HT0 HT Hg))).
Defined.

(** On the environment with an interrupt, three tasks: all three are
    handed over, one attempt is counted, two compilers are launched, and
    the execution that was terminated leaves its source file and the
    object file of its compiler behind. *)
Lemma stopped_run_demo :
  let w := (main (E := Demo.env_stopped) Demo.args_semicolon Demo.w0).2 in
  List.length (dispatched w) = 3%nat
  /\ total_count w = 1
  /\ List.length (spawn_log w) = 2%nat
  /\ files w !! "1001_10000001.c" = Some (C_TEMPLATE_fmt ";")
  /\ files w !! "1001_10000001.o" = Some "ELF".
Proof. cbv zeta. repeat split; vm_compute; reflexivity. Qed.

(** ** Unlimited mode *)

Section UnlimitedRun.

Context {F : FloatOps} {R : RandomSource} {E : Env}.

Lemma worker_dispatched (t : task) (w : world) :
  dispatched (worker t w).2 = dispatched w.
Proof.
  destruct (worker_cases t w) as [(e & g & H)|(content & g & lines & _ & H & _)];
    rewrite H; reflexivity.
Qed.

Lemma run_workers_dispatched (sched : list (Z * task)) (w : world) :
  dispatched (run_workers sched w).2 = dispatched w.
Proof.
  revert w. induction sched as [|[pid t] rest IH]; intros w; [reflexivity|].
  cbn [run_workers]. unfold mbind, M_bind, bind, run_on.
  pose proof (worker_dispatched t (with_cur_pid pid w)) as Hw.
  destruct (worker t (with_cur_pid pid w)) as [[e|b] w1]; simpl in Hw |- *;
    [exact Hw|].
  rewrite IH. exact Hw.
Qed.

Lemma run_stopped_dispatched (sched : list (Z * cut * task)) (w : world) :
  dispatched (run_stopped sched w).2 = dispatched w.
Proof.
  revert w. induction sched as [|[[pid c] t] rest IH]; intros w; [reflexivity|].
  cbn [run_stopped]. unfold mbind, M_bind, bind, stop_on.
  destruct (worker_until_effect c t (with_cur_pid pid w)) as (Hw & _).
  destruct (worker_until c t (with_cur_pid pid w)) as [r w1]; simpl in Hw |- *.
  rewrite IH. exact Hw.
Qed.

Lemma pool_call_dispatched (k : nat) (ts : list task) (w : world) :
  dispatched (pool_call k ts w).2 = (dispatched w ++ ts)%list.
Proof.
  unfold pool_call. erewrite (bind_inr (modify _)); [|reflexivity].
  match goal with
  | |- context [(run_workers ?sched ≫= _) ?x] =>
      pose proof (run_workers_dispatched sched x) as Hd;
      destruct (run_workers sched x) as [[e|[]] w1] eqn:Hrun
  end; cbn [snd dispatched with_dispatched] in Hd.
  - rewrite (bind_inl _ _ _ _ _ Hrun). exact Hd.
  - rewrite (bind_inr _ _ _ _ _ Hrun).
    destruct (pool_interrupted k); [|exact Hd].
    cbn [when]. now rewrite run_stopped_dispatched.
Qed.

Lemma range_app (a b : Z) :
  0 <= a -> 0 <= b ->
  range (a + b) = (range a ++ ((fun i => a + i) <$> range b))%list.
Proof.
  intros Ha Hb. unfold range.
  rewrite Z2Nat.inj_add by assumption. rewrite seq_app, fmap_app. f_equal.
  replace (0 + Z.to_nat a)%nat with (Z.to_nat a + 0)%nat by lia.
  rewrite <- fmap_add_seq, <- !list_fmap_compose.
  apply list_fmap_ext. intros i x _. simpl. lia.
Qed.

(** One more batch in front of [m] batches. *)
Lemma batch_tasks_succ (args : Args) (cs : string) (i0 : Z) (m : nat) :
  batch_tasks args cs i0 (S m)
  = (((fun i => make_task args cs (i0 + i)) <$> range (cpu_count * 10))
     ++ batch_tasks args cs (i0 + cpu_count * 10) m)%list.
Proof.
  unfold batch_tasks.
  destruct (Z.lt_ge_cases (cpu_count * 10) 0) as [Hneg|Hpos].
  - assert (H1 : range (cpu_count * 10) = []).
    { unfold range. rewrite Z2Nat.nonpos by lia. reflexivity. }
    assert (H2 : forall n : nat, range (Z.of_nat n * (cpu_count * 10)) = []).
    { intros n. unfold range. rewrite Z2Nat.nonpos by nia. reflexivity. }
    rewrite H1, !H2. reflexivity.
  - replace (Z.of_nat (S m) * (cpu_count * 10))
      with (cpu_count * 10 + Z.of_nat m * (cpu_count * 10)) by lia.
    rewrite range_app by nia. rewrite !fmap_app. f_equal.
    + rewrite <- list_fmap_compose. reflexivity.
    + rewrite <- !list_fmap_compose. apply list_fmap_ext.
      intros i x _. simpl. f_equal. lia.
Qed.

Lemma batch_tasks_zero (args : Args) (cs : string) (i0 : Z) :
  batch_tasks args cs i0 0 = [].
Proof. reflexivity. Qed.

(** The loop hands over whole batches: none when the interrupt arrives
    before the first hand-over, and one more for every round that gets as
    far as [pool.map]. *)
Lemma unlimited_loop_dispatched (fuel k : nat) (args : Args) (cs : string)
    (st : float) (i0 : Z) (w : world) :
  exists m, (m <= S fuel)%nat
    /\ (m = 0%nat <-> interrupted_early k = true)
    /\ dispatched (unlimited_loop fuel k args cs st i0 w).2
       = (dispatched w ++ batch_tasks args cs i0 m)%list.
Proof.
  revert k i0 w. induction fuel as [|fuel IH]; intros k i0 w; cbn [unlimited_loop];
    (destruct (interrupted_early k) eqn:Hearly;
     [exists 0%nat; split; [lia|]; split; [tauto|];
      now rewrite batch_tasks_zero, app_nil_r|]);
    pose proof (pool_call_dispatched k
                  ((fun i => make_task args cs (i0 + i)) <$> range (cpu_count * 10))
                  w) as Hp;
    assert (Hone : batch_tasks args cs i0 1
                   = (fun i => make_task args cs (i0 + i)) <$> range (cpu_count * 10))
      by (rewrite batch_tasks_succ, batch_tasks_zero; apply app_nil_r);
    assert (H1 : (1 = 0)%nat <-> false = true) by (split; discriminate).
  - exists 1%nat. split; [lia|]. split; [exact H1|]. rewrite Hone.
    unfold mbind, M_bind, bind.
    destruct (pool_call k _ w) as [[e|[]] w1]; exact Hp.
  - destruct (pool_call k _ w) as [[e|[]] w1] eqn:Hpool; simpl in Hp.
    { exists 1%nat. split; [lia|]. split; [exact H1|].
      rewrite (bind_inl _ _ _ _ _ Hpool), Hone. exact Hp. }
    rewrite (bind_inr _ _ _ _ _ Hpool).
    destruct (pool_interrupted k).
    { exists 1%nat. split; [lia|]. split; [exact H1|]. rewrite Hone. exact Hp. }
    erewrite (bind_inr time_now); [|reflexivity].
    match goal with
    | |- context [(rate_of ?el ≫= _) ?x] =>
        pose proof (quiet_rate_of el x) as Hq;
        destruct (rate_of el x) as [[e|rate] w3] eqn:Hrate
    end; simpl in Hq; destruct Hq as (_ & _ & _ & _ & _ & _ & Hd3);
      cbn [dispatched with_clock] in Hd3.
    { exists 1%nat. split; [lia|]. split; [exact H1|].
      rewrite (bind_inl _ _ _ _ _ Hrate), Hone. cbn [snd]. congruence. }
    rewrite (bind_inr _ _ _ _ _ Hrate).
    erewrite (bind_inr (gets _)); [|reflexivity].
    erewrite (bind_inr (print _)); [|reflexivity].
    match goal with
    | |- context [unlimited_loop fuel (S k) args cs st ?i1 ?x] =>
        destruct (IH (S k) i1 x) as (m & Hm & _ & Hd)
    end.
    exists (S m). split; [lia|]. split; [split; discriminate|].
    rewrite Hd, batch_tasks_succ. cbn [dispatched with_stdout].
    rewrite Hd3, Hp, <- app_assoc. reflexivity.
Qed.

Lemma unlimited_mode_dispatched (args : Args) (cs : string) (st : float)
                                (w : world) :
  exists m, (m <= S last_round)%nat
    /\ (m = 0%nat <-> interrupted_early 0 = true)
    /\ dispatched (unlimited_mode args cs st w).2
       = (dispatched w ++ batch_tasks args cs 0 m)%list.
Proof.
  unfold unlimited_mode.
  erewrite (bind_inr (print _)); [|reflexivity].
  match goal with
  | |- context [(unlimited_loop ?f ?k args cs st 0 ≫= _) ?x] =>
      destruct (unlimited_loop_dispatched f k args cs st 0 x) as (m & Hm & H0 & Hd);
      destruct (unlimited_loop f k args cs st 0 x) as [[e|[]] w2] eqn:Hl
  end; simpl in Hd; exists m; (split; [exact Hm|]); (split; [exact H0|]).
  - rewrite (bind_inl _ _ _ _ _ Hl). exact Hd.
  - rewrite (bind_inr _ _ _ _ _ Hl). exact Hd.
Qed.

(** X17. In unlimited mode, over a character set that is not empty and a
    length that is not negative, [main] hands tasks to the pool in whole
    batches of [cpu_count * 10]: after the run, interrupted or stopped by
    an error, the tasks handed over are those of [m] batches, with the
    ids [0, 1, 2, ...] in this order, each id once. No batch is handed
    over ([m = 0]) exactly when the interrupt arrives before the first
    call of [pool.map], while the pool starts or the first batch is
    built. *)
Theorem unlimited_run_dispatch (args : Args) (w : world) :
  args_charset args <> "" -> 0 <= byte_size args -> tasks args = -1 ->
  exists m ts,
    (m <= S last_round)%nat
    /\ (m = 0%nat <-> interrupted_early 0 = true)
    /\ dispatched (main args w).2 = (dispatched w ++ ts)%list
    /\ task_id <$> ts = range (Z.of_nat m * (cpu_count * 10))
    /\ NoDup (task_id <$> ts).
Proof.
  intros Hcs HN HT.
  pose proof (announce_returns args (args_charset args) w HN) as Ha.
  pose proof (quiet_announce args (args_charset args) w) as Hqa.
  unfold main. fold (args_charset args).
  destruct (String.eqb_spec (args_charset args) "") as [Hcs'|_]; [contradiction|].
  destruct (announce args (args_charset args) w) as [r w1] eqn:Han.
  simpl in Ha, Hqa. subst r. rewrite (bind_inr _ _ _ _ _ Han).
  rewrite (bind_inr new_counters _ w1 tt _ eq_refl).
  erewrite (bind_inr time_now); [|reflexivity].
  erewrite (bind_inr (os_makedirs _)); [|reflexivity].
  rewrite HT. cbn [Z.eqb Pos.eqb].
  assert (Hids : forall m,
            task_id <$> batch_tasks args (args_charset args) 0 m
            = range (Z.of_nat m * (cpu_count * 10))).
  { intros m. unfold batch_tasks. rewrite <- !list_fmap_compose.
    rewrite <- (list_fmap_id (range _)) at 2.
    apply list_fmap_ext. intros i x _. simpl. lia. }
  destruct Hqa as (_ & _ & _ & _ & _ & _ & Hda).
  match goal with
  | |- context [(unlimited_mode args ?cs ?st ≫= _) ?x] =>
      destruct (unlimited_mode_dispatched args cs st x) as (m & Hm & H0 & Hd);
      destruct (unlimited_mode args cs st x) as [[e|[]] w5] eqn:Hmode
  end; simpl in Hd; cbn [dispatched with_dirs with_clock new_counters modify snd] in Hd;
    rewrite Hda in Hd;
    exists m, (batch_tasks args (args_charset args) 0 m);
    (split; [exact Hm|]); (split; [exact H0|]);
    (split; [|split; [apply Hids | rewrite Hids; apply NoDup_range]]).
  - rewrite (bind_inl _ _ _ _ _ Hmode). exact Hd.
  - rewrite (bind_inr _ _ _ _ _ Hmode).
    match goal with
    | |- context [final_report ?c ?st w5] =>
        destruct (quiet_final_report c st w5) as (_ & _ & _ & _ & _ & _ & Hd7)
    end.
    rewrite Hd7. exact Hd.
Qed.

End UnlimitedRun.

(** On the concrete environment the interrupt arrives in the second
    round at the latest and not before the first hand-over: one or two
    batches of twenty tasks are handed over. On the environment with an
    early interrupt none is. *)
Lemma unlimited_run_dispatch_witness :
  args_charset Demo.args_unlimited <> "" /\ 0 <= byte_size Demo.args_unlimited
  /\ tasks Demo.args_unlimited = -1
  /\ (exists m ts,
        (1 <= m <= 2)%nat
        /\ dispatched (main (E := Demo.env) Demo.args_unlimited Demo.w0).2 = ts
        /\ task_id <$> ts = range (Z.of_nat m * 20))
  /\ dispatched (main (E := Demo.env_stopped) Demo.args_unlimited Demo.w0).2 = [].
Proof.
  assert (Hcs : args_charset Demo.args_unlimited <> "") by discriminate.
  assert (HN : 0 <= byte_size Demo.args_unlimited) by (simpl; lia).
  assert (HT : tasks Demo.args_unlimited = -1) by reflexivity.
  repeat (split; [assumption|]). split.
  - destruct (unlimited_run_dispatch (E := Demo.env) Demo.args_unlimited Demo.w0
                Hcs HN HT) as (m & ts & Hm & H0 & Hd & Hids & _).
    exists m, ts. split; [|split; [exact Hd | exact Hids]].
    split; [|exact Hm].
    destruct m; [|lia]. destruct H0 as [H0 _]. discriminate (H0 eq_refl).
  - destruct (unlimited_run_dispatch (E := Demo.env_stopped) Demo.args_unlimited
                Demo.w0 Hcs HN HT) as (m & ts & _ & H0 & Hd & Hids & _).
    rewrite (proj2 H0 eq_refl) in Hids.
    destruct ts; [exact Hd | discriminate Hids].
Defined.

(** ** The final report *)

Section Report.

Context {F : FloatOps} {R : RandomSource} {E : Env}.

(** X18. The final report returns whatever happens while it computes:
    what the computation of the statistics raises is printed as an error
    line. It reads the clock and prints, and nothing else: the files, the
    counters with their log, the subprocess log, the random states and
    the dispatched tasks are as before. *)
Theorem final_report_is_harmless (combinations : pynum) (start_time : float)
                                 (w : world) :
  (final_report combinations start_time w).1 = inr tt
  /\ same_run w (final_report combinations start_time w).2.
Proof.
  split; [apply final_report_returns | apply quiet_final_report].
Qed.

End Report.

(** ** The empty character set *)

(** X19. [get_charset] returns the empty string exactly when no class is
    selected and there is no custom character set, an empty custom
    character set counting as none. *)
Theorem get_charset_empty_iff (l u d s ws : bool) (custom : option string) :
  get_charset l u d s ws custom = "" <->
  l = false /\ u = false /\ d = false /\ s = false /\ ws = false
  /\ (custom = None \/ custom = Some "").
Proof.
  split.
  - destruct custom as [[|c rest]|].
    + destruct l, u, d, s, ws; try discriminate. intros _. repeat split. now right.
    + discriminate.
    + destruct l, u, d, s, ws; try discriminate. intros _. repeat split. now left.
  - intros (-> & -> & -> & -> & -> & [->| ->]); reflexivity.
Qed.
